(** * CryoET-DB: credential bootstrap, idempotent load and query tool

    A shallow embedding of [src/etl/load_data.py] and [src/query_tool.py].

    The Python code talks to three collaborators: a Vault key-value store,
    a PostgreSQL database and the file system.  They are modelled as
    explicit state ([state]: the Vault store, the database tables and the
    chronological trace of side effects) and as a read-only description of
    the outside world ([World]: environment variables, health responses,
    files, injected failures, and what the database does where the sources
    do not fix it: the number a coordinate column stores for a value, the
    order of rows of equal count).  Python control flow (exceptions,
    [sys.exit], [with engine.begin()]) is modelled by a small
    state-and-exception monad. *)

From stdpp Require Import gmap strings list pretty sorting.
From Stdlib Require QArith.

Set Warnings "-abstract-large-number".
Open Scope string_scope.
Open Scope list_scope.

(** ** Python control flow *)

(** Exceptions the two scripts distinguish.  Every constructor is a subclass
    of Python's [Exception]; [SystemExit] is not and is kept apart, in
    [result]. *)
Inductive exn :=
| InvalidPath (msg : string)        (* hvac.exceptions.InvalidPath *)
| OperationalError (msg : string)   (* sqlalchemy.exc.OperationalError *)
| KeyError (key : string)           (* d[key] on a missing key *)
| PyException (msg : string).       (* any other Exception *)

(** [str(e)], as interpolated by the f-strings of the handlers. *)
Definition str_exn (e : exn) : string :=
  match e with
  | InvalidPath m | OperationalError m | PyException m => m
  | KeyError k => "'" +:+ k +:+ "'"
  end.

Inductive result (A : Type) :=
| Ret (a : A)            (* normal completion *)
| Raise (e : exn)        (* an exception propagates *)
| SysExit (code : Z).    (* sys.exit(code): SystemExit propagates *)
Arguments Ret {A} a.
Arguments Raise {A} e.
Arguments SysExit {A} code.

(** ** Values of a pandas column

    [pd.read_csv] infers the type of every column of labels.csv: a column
    of whole numbers is int64 (uint64 when a value does not fit), one with
    decimals or with empty cells among numbers is float64, a column of
    True and False is bool, and any other column holds Python strings; an
    empty cell is NaN.  A float64 is an IEEE double: [CFloat] gives its
    exact value together with the two decimal texts that the run makes of
    it, Python's [repr] and the output of PostgreSQL's float8. *)
Abbreviation Q := QArith_base.Q.

Inductive cell :=
| CStr (s : string)
| CInt (n : Z)
| CUInt (n : Z)
| CFloat (x : Q) (repr text : string)
| CInf (negative : bool)
| CBool (b : bool)
| CNaN.

(** [f"{n}"] for a value of a column. *)
Definition py_str (c : cell) : string :=
  match c with
  | CStr s => s
  | CInt n | CUInt n => pretty n
  | CFloat _ repr _ => repr
  | CInf negative => if negative then "-inf" else "inf"
  | CBool b => if b then "True" else "False"
  | CNaN => "nan"
  end.

(** The text PostgreSQL stores in a text column for a value that pandas
    wrote to a column of the value's own type: the INSERT ... SELECT casts
    it on assignment.  NaN is written as NULL. *)
Definition db_text (c : cell) : option string :=
  match c with
  | CStr s => Some s
  | CInt n | CUInt n => Some (pretty n)
  | CFloat _ _ text => Some text
  | CInf negative => Some (if negative then "-Infinity" else "Infinity")
  | CBool b => Some (if b then "true" else "false")
  | CNaN => None
  end.

(** Equality of two values of one column, as [Series.unique] sees it: all
    NaN are one value, floats are compared by value. *)
Definition same_key (c1 c2 : cell) : bool :=
  match c1, c2 with
  | CStr s1, CStr s2 => String.eqb s1 s2
  | CInt n1, CInt n2 | CUInt n1, CUInt n2 => Z.eqb n1 n2
  | CFloat x1 _ _, CFloat x2 _ _ => QArith_base.Qeq_bool x1 x2
  | CInf n1, CInf n2 | CBool n1, CBool n2 => Bool.eqb n1 n2
  | CNaN, CNaN => true
  | _, _ => false
  end.

Global Instance Q_eq_dec : EqDecision Q.
Proof. solve_decision. Defined.

Global Instance cell_eq_dec : EqDecision cell.
Proof. solve_decision. Defined.

Definition is_uint64 (c : cell) : bool :=
  match c with CUInt _ => true | _ => false end.

(** ** Side effects *)

Inductive level := INFO | WARNING | ERROR.
Inductive stream := Stdout | Stderr.

(** Statements sent to the database. *)
Inductive sql :=
| SqlSchema (ddl : string)
| SqlStageTemp (rows : list (cell * string))
| SqlMergeTomograms
| SqlSelectTomoMap
| SqlTruncateAnnotations
| SqlInsertAnnotations (n : nat)
| SqlCount (name : string)
| SqlRich (min_annotations : Z).

Inductive event :=
| EGetenv (name : string)
| ELog (l : level) (msg : string)
| EPrint (out : stream) (msg : string)
| EHealth
| ESleep (secs : nat)
| EVaultRead (path : string)
| EVaultWrite (path : string) (doc : gmap string string)
| ECreateEngine (url : string)
| EConnect
| EBegin
| ECommit
| ERollback
| ESql (q : sql)
| EPathExists (path : string)
| EReadText (path : string)
| EReadCsv (path : string)
| EPrintFrame (rows : list (string * nat)).   (* print(df.to_string(index=False)) *)

(** ** Data model *)

Record tomogram := {
  tomo_id : nat;
  tomo_name : string;
  raw_volume_path : string
}.

(** [ann_tomo_id] is nullable: pandas writes NULL for a name the mapping
    does not know. *)
Record annotation := {
  annotation_id : nat;
  ann_tomo_id : option nat;
  coord_x : Q;
  coord_y : Q;
  coord_z : Q
}.

(** Modelled from the spec: sql/schema.sql is not among the sources.  The
    tables are [tomograms] (generated [tomo_id], unique [tomo_name], which
    is a required text) and [annotations] (generated [annotation_id], a
    [tomo_id] that may be NULL, three coordinates that are required finite
    numbers, of a type that the schema chooses); each
    generated id is drawn from a sequence, kept here as the last value
    drawn.  [temp_tomograms] is the staging table the loader creates: its
    key column has the type of the frame's column.  [schema_log] records
    every DDL batch that was executed (the DDL is of the CREATE TABLE IF
    NOT EXISTS kind and leaves rows alone). *)
Record database := {
  tomograms : list tomogram;
  tomograms_seq : nat;
  annotations : list annotation;
  annotations_seq : nat;
  temp_tomograms : list (cell * string);
  schema_log : list string
}.

Definition empty_db : database :=
  {| tomograms := []; tomograms_seq := 0; annotations := [];
     annotations_seq := 0; temp_tomograms := []; schema_log := [] |}.

(** One row of the frame read from labels.csv, after the rename of column
    tomo_id to tomo_name. *)
Record label := {
  lbl_tomo_name : cell;
  lbl_x : cell;
  lbl_y : cell;
  lbl_z : cell
}.

Inductive health_response :=
| Healthy                       (* response.ok is true *)
| Unhealthy                     (* response.ok is false *)
| HealthError (msg : string).   (* the request itself raises *)

(** What [pd.read_csv] makes of labels.csv.  A frame needs the column
    tomo_name after the rename, and the columns x, y and z. *)
Inductive csv_contents :=
| CsvRows (rows : list label)
| CsvMalformed (msg : string)                (* pd.read_csv raises *)
| CsvNoKey (e : exn)                         (* df_labels['tomo_name'].unique() raises *)
| CsvNoCoords (keys : list cell) (msg : string).
                                             (* selecting x, y and z raises a KeyError *)

(** Steps of the load transaction at which the database may raise. *)
Inductive tx_stage :=
| StSchema
| StStage
| StMerge
| StReadMap
| StTruncate
| StLoad (chunk : nat)
| StQuery.

(** The outside world of one process run; nothing here is changed by the
    run. *)
Record World := {
  environ : gmap string string;         (* os.environ *)
  health : nat -> health_response;      (* answer to the i-th health poll *)
  vault_read_error : option string;     (* a read failure other than InvalidPath *)
  vault_write_error : option string;    (* create_or_update_secret raises *)
  db_unreachable : option string;       (* connecting raises OperationalError *)
  db_fault : tx_stage -> option exn;    (* a statement raises *)
  serial_burn : bool;                   (* a conflicting insert still draws from the sequence *)
  schema_sql : option string;           (* /app/sql/schema.sql *)
  labels_csv : option csv_contents;     (* /app/data/labels.csv *)
  engine_error : string -> option string;
                                        (* create_engine raises for this URL *)
  reject_text : string -> string;       (* text of the error that the database raises when
                                           it does not take a value for the named table *)
  coord_in : cell -> option Q;          (* the number a coordinate column stores for a
                                           value sent to it; None when the INSERT raises *)
  tie_rank : string -> nat              (* the order in which the database returns
                                           groups of equal count *)
}.

Record state := {
  st_vault : gmap string (gmap string string);
  st_db : database;
  st_trace : list event
}.

Definition emit (e : event) (s : state) : state :=
  {| st_vault := st_vault s; st_db := st_db s; st_trace := st_trace s ++ [e] |}.

Definition set_db (d : database) (s : state) : state :=
  {| st_vault := st_vault s; st_db := d; st_trace := st_trace s |}.

Definition set_vault (v : gmap string (gmap string string)) (s : state) : state :=
  {| st_vault := v; st_db := st_db s; st_trace := st_trace s |}.

(** ** The monad *)

Definition M (A : Type) : Type := state -> result A * state.

Definition ret {A} (a : A) : M A := fun s => (Ret a, s).

Definition bind {A B} (m : M A) (k : A -> M B) : M B := fun s =>
  match m s with
  | (Ret a, s') => k a s'
  | (Raise e, s') => (Raise e, s')
  | (SysExit c, s') => (SysExit c, s')
  end.

Notation "x <- m ;; k" := (bind m (fun x => k))
  (at level 100, m at next level, right associativity).
Notation "m ;;; k" := (bind m (fun _ => k))
  (at level 100, right associativity).

Definition raise {A} (e : exn) : M A := fun s => (Raise e, s).
Definition sys_exit {A} (code : Z) : M A := fun s => (SysExit code, s).
Definition tell (e : event) : M unit := fun s => (Ret tt, emit e s).

(** [try: body except Exception as e: handler e].  A handler that does not
    cover [e] re-raises it.  [SystemExit] is not an [Exception] and passes
    through. *)
Definition try_except {A} (body : M A) (handler : exn -> M A) : M A := fun s =>
  match body s with
  | (Raise e, s') => handler e s'
  | r => r
  end.

(** ** Primitive operations *)

Definition log (l : level) (msg : string) : M unit := tell (ELog l msg).
Definition print (out : stream) (msg : string) : M unit := tell (EPrint out msg).
Definition sleep (secs : nat) : M unit := tell (ESleep secs).

(** [os.getenv(name)]: [None] when unset. *)
Definition getenv (w : World) (name : string) : M (option string) :=
  tell (EGetenv name);;; ret (environ w !! name).

(** [os.getenv(name, dflt)]. *)
Definition getenv_default (w : World) (name dflt : string) : M string :=
  tell (EGetenv name);;; ret (default dflt (environ w !! name)).

(** Python truthiness of an [os.getenv] result: [None] and the empty string
    are falsy. *)
Definition truthy (v : option string) : bool :=
  match v with
  | Some s => negb (String.eqb s "")
  | None => false
  end.

(** Python's [all]. *)
Definition all (vs : list (option string)) : bool := forallb truthy vs.

(** [d[key]] on a dict. *)
Definition getitem (d : gmap string string) (key : string) : M string :=
  match d !! key with
  | Some v => ret v
  | None => raise (KeyError key)
  end.

(** [client.sys.read_health_status()] for the [i]-th poll; the result is
    the response's [ok]. *)
Definition read_health_status (w : World) (i : nat) : M bool :=
  tell EHealth;;;
  match health w i with
  | Healthy => ret true
  | Unhealthy => ret false
  | HealthError msg => raise (PyException msg)
  end.

(** [client.secrets.kv.v2.read_secret_version(path=...)['data']['data']]. *)
Definition read_secret_version (w : World) (path : string) : M (gmap string string) :=
  tell (EVaultRead path);;;
  match vault_read_error w with
  | Some msg => raise (PyException msg)
  | None => fun s =>
      match st_vault s !! path with
      | Some doc => (Ret doc, s)
      | None => (Raise (InvalidPath path), s)
      end
  end.

(** [client.secrets.kv.v2.create_or_update_secret(path=..., secret=...)]. *)
Definition create_or_update_secret (w : World) (path : string)
    (doc : gmap string string) : M unit :=
  tell (EVaultWrite path doc);;;
  match vault_write_error w with
  | Some msg => raise (PyException msg)
  | None => fun s => (Ret tt, set_vault (<[path := doc]> (st_vault s)) s)
  end.

(** [create_engine(url)] parses the URL and loads the driver, and raises
    when it cannot; it is lazy: no connection is made yet. *)
Definition create_engine (w : World) (url : string) : M unit :=
  tell (ECreateEngine url);;;
  match engine_error w url with
  | Some msg => raise (PyException msg)
  | None => ret tt
  end.

(** One statement: it is sent, then either raises or changes the tables. *)
Definition execute (w : World) (st : tx_stage) (q : sql)
    (f : database -> database) : M unit := fun s =>
  let s' := emit (ESql q) s in
  match db_fault w st with
  | Some e => (Raise e, s')
  | None => (Ret tt, set_db (f (st_db s')) s')
  end.

(** ROLLBACK from the tables [cur] to those at BEGIN, [old]: rows, DDL and
    the restarted sequence of annotations are undone; what was drawn from
    the sequence of tomograms stays drawn. *)
Definition rollback (old cur : database) : database :=
  {| tomograms := tomograms old; tomograms_seq := tomograms_seq cur;
     annotations := annotations old; annotations_seq := annotations_seq old;
     temp_tomograms := temp_tomograms old; schema_log := schema_log old |}.

(** [with engine.begin() as connection: body]: connect, begin, run the
    body; commit when the block is left normally (also by [return]), roll
    back when anything propagates. *)
Definition engine_begin {A} (w : World) (body : M A) : M A := fun s =>
  let s0 := emit EConnect s in
  match db_unreachable w with
  | Some msg => (Raise (OperationalError msg), s0)
  | None =>
      match body (emit EBegin s0) with
      | (Ret a, s1) => (Ret a, emit ECommit s1)
      | (r, s1) => (r, emit ERollback (set_db (rollback (st_db s) (st_db s1)) s1))
      end
  end.

(** ** The readiness loop

    Both scripts contain it verbatim.
    [for i in range(5): if ...ok: break ... else: raise]: [n] iterations
    remain, [i] is the loop variable. *)
Fixpoint wait_for_vault (w : World) (n i : nat) : M unit :=
  match n with
  | 0 => raise (PyException "Vault is not available.")
  | S n' =>
      ok <- read_health_status w i;;
      if ok then ret tt
      else
        log INFO ("Waiting for Vault to be ready... (" +:+ pretty (i + 1) +:+ "/5)");;;
        sleep 2;;;
        wait_for_vault w n' (S i)
  end.

(** ** src/etl/load_data.py *)

Module Etl.

Definition SECRET_PATH : string := "cryoet".
Definition SQL_SCHEMA_PATH : string := "/app/sql/schema.sql".
Definition LABELS_CSV_PATH : string := "/app/data/labels.csv".
Definition CHUNKSIZE : nat := 10000.

Definition MSG_FIRST_RUN_ENV : string :=
  "FATAL: On first run, POSTGRES_USER, POSTGRES_PASSWORD, and POSTGRES_DB must be set for Vault initialization.".

(** The document written on first run.  The three values are strings here:
    the write is only reached when all of them are truthy. *)
Definition first_run_secret (pg_user pg_password pg_db : option string)
    : gmap string string :=
  <["POSTGRES_DB" := default "" pg_db]>
    (<["POSTGRES_PASSWORD" := default "" pg_password]>
      (<["POSTGRES_USER" := default "" pg_user]> ∅)).

Definition first_run_init (w : World) : M (gmap string string) :=
  log WARNING "Secrets not found in Vault. This appears to be the first run.";;;
  log INFO "Attempting to write secrets to Vault...";;;
  pg_user <- getenv w "POSTGRES_USER";;
  pg_password <- getenv w "POSTGRES_PASSWORD";;
  pg_db <- getenv w "POSTGRES_DB";;
  (if negb (all [pg_user; pg_password; pg_db])
   then log ERROR MSG_FIRST_RUN_ENV;;; sys_exit 1
   else ret tt);;;
  try_except
    (create_or_update_secret w SECRET_PATH
       (first_run_secret pg_user pg_password pg_db);;;
     log INFO "Secrets successfully written to Vault. Please re-run the command.";;;
     sys_exit 0)
    (fun write_e =>
       log ERROR ("FATAL: Could not write secrets to Vault: " +:+ str_exn write_e);;;
       sys_exit 1).

Definition get_db_credentials_from_vault (w : World) : M (gmap string string) :=
  try_except
    (read_secret_version w SECRET_PATH)
    (fun e =>
       match e with
       | InvalidPath _ => first_run_init w
       | _ => raise e
       end).

(** *** Dimension synchronisation *)

(** [Series.unique()]: distinct values in order of first appearance. *)
Fixpoint unique_from (seen : list cell) (l : list cell) : list cell :=
  match l with
  | [] => []
  | x :: l' =>
      if existsb (same_key x) seen then unique_from seen l'
      else x :: unique_from (x :: seen) l'
  end.

Definition unique (l : list cell) : list cell := unique_from [] l.

(** [f"volumes/{n}.mrc"]. *)
Definition volume_path (n : cell) : string := "volumes/" +:+ py_str n +:+ ".mrc".

(** The frame [unique_tomos]: one (tomo_name, raw_volume_path) per distinct
    value of the key column. *)
Definition unique_tomos (keys : list cell) : list (cell * string) :=
  (fun n => (n, volume_path n)) <$> unique keys.

Definition MSG_UINT64 : string := "Unsigned 64 bit integer datatype is not supported".

(** The table that [to_sql('temp_tomograms', if_exists='replace')]
    leaves. *)
Definition stage_temp (rows : list (cell * string)) (db : database) : database :=
  {| tomograms := tomograms db; tomograms_seq := tomograms_seq db;
     annotations := annotations db; annotations_seq := annotations_seq db;
     temp_tomograms := rows; schema_log := schema_log db |}.

(** One row of INSERT ... ON CONFLICT (tomo_name) DO NOTHING. *)
Definition insert_tomogram (burn : bool) (db : database) (row : string * string)
    : database :=
  if decide (row.1 ∈ tomo_name <$> tomograms db) then
    {| tomograms := tomograms db;
       tomograms_seq := if burn then S (tomograms_seq db) else tomograms_seq db;
       annotations := annotations db; annotations_seq := annotations_seq db;
       temp_tomograms := temp_tomograms db; schema_log := schema_log db |}
  else
    {| tomograms := tomograms db ++
         [{| tomo_id := S (tomograms_seq db); tomo_name := row.1;
             raw_volume_path := row.2 |}];
       tomograms_seq := S (tomograms_seq db);
       annotations := annotations db; annotations_seq := annotations_seq db;
       temp_tomograms := temp_tomograms db; schema_log := schema_log db |}.

(** A value is drawn from the sequence of tomograms. *)
Definition draw_tomo_id (db : database) : database :=
  {| tomograms := tomograms db; tomograms_seq := S (tomograms_seq db);
     annotations := annotations db; annotations_seq := annotations_seq db;
     temp_tomograms := temp_tomograms db; schema_log := schema_log db |}.

(** The rows of INSERT ... SELECT, one after the other.  A row whose key is
    NULL violates the constraint on tomo_name after its id was drawn: the
    statement stops there, and the result is [false]. *)
Fixpoint merge_rows (burn : bool) (rows : list (cell * string)) (db : database)
    : database * bool :=
  match rows with
  | [] => (db, true)
  | row :: rows' =>
      match db_text row.1 with
      | Some name => merge_rows burn rows' (insert_tomogram burn db (name, row.2))
      | None => (draw_tomo_id db, false)
      end
  end.

(** INSERT INTO tomograms ... SELECT ... FROM temp_tomograms ON CONFLICT
    (tomo_name) DO NOTHING. *)
Definition merge_tomograms (burn : bool) (db : database) : database * bool :=
  merge_rows burn (temp_tomograms db) db.

(** [dict(zip(names, ids))]: a later pair overwrites an earlier one. *)
Definition dict_zip (pairs : list (string * nat)) : gmap string nat :=
  foldl (fun m kv => <[kv.1 := kv.2]> m) ∅ pairs.

(** SELECT tomo_id, tomo_name FROM tomograms, zipped into a dict. *)
Definition tomo_map (db : database) : gmap string nat :=
  dict_zip ((fun t => (tomo_name t, tomo_id t)) <$> tomograms db).

(** The statement of the merge: it is sent, then it raises or adds its
    rows; when a NULL key stops it, the rows added so far are still there
    for the rollback to undo. *)
Definition merge (w : World) : M unit := fun s =>
  let s' := emit (ESql SqlMergeTomograms) s in
  match db_fault w StMerge with
  | Some e => (Raise e, s')
  | None =>
      let r := merge_tomograms (serial_burn w) (st_db s') in
      if r.2 then (Ret tt, set_db r.1 s')
      else (Raise (PyException (reject_text w "tomograms")), set_db r.1 s')
  end.

(** [pd.read_sql] of that query. *)
Definition read_tomo_map (w : World) : M (gmap string nat) := fun s =>
  let s' := emit (ESql SqlSelectTomoMap) s in
  match db_fault w StReadMap with
  | Some e => (Raise e, s')
  | None => (Ret (tomo_map (st_db s')), s')
  end.

(** *** Fact replacement *)

(** [Series.map(d)] for one value: the dict from [read_tomo_map] has the
    names as Python strings, so a value that is not a string is not found
    and gives NaN. *)
Definition map_key (m : gmap string nat) (k : cell) : option nat :=
  match k with
  | CStr s => m !! s
  | _ => None
  end.

(** A record of [df_annotations]: (tomo_id, coord_x, coord_y, coord_z). *)
Definition fact : Type := option nat * cell * cell * cell.

Definition df_annotations (m : gmap string nat) (df_labels : list label) : list fact :=
  (fun r => (map_key m (lbl_tomo_name r), lbl_x r, lbl_y r, lbl_z r)) <$> df_labels.

(** TRUNCATE TABLE annotations RESTART IDENTITY CASCADE. *)
Definition truncate_annotations (db : database) : database :=
  {| tomograms := tomograms db; tomograms_seq := tomograms_seq db;
     annotations := []; annotations_seq := 0;
     temp_tomograms := temp_tomograms db; schema_log := schema_log db |}.

(** What the database stores for the three coordinates of a record, when
    it takes all of them. *)
Definition stored (w : World) (r : fact) : option (Q * Q * Q) :=
  x ← coord_in w r.1.1.2; y ← coord_in w r.1.2; z ← coord_in w r.2;
  Some (x, y, z).

Definition insert_annotation (db : database) (tomo : option nat) (p : Q * Q * Q)
    : database :=
  {| tomograms := tomograms db; tomograms_seq := tomograms_seq db;
     annotations := annotations db ++
       [{| annotation_id := S (annotations_seq db); ann_tomo_id := tomo;
           coord_x := p.1.1; coord_y := p.1.2; coord_z := p.2 |}];
     annotations_seq := S (annotations_seq db);
     temp_tomograms := temp_tomograms db; schema_log := schema_log db |}.

(** The records of one INSERT, one after the other; [None] when the
    database does not take a coordinate. *)
Fixpoint insert_annotations (w : World) (rows : list fact) (db : database)
    : option database :=
  match rows with
  | [] => Some db
  | r :: rows' =>
      match stored w r with
      | Some p => insert_annotations w rows' (insert_annotation db r.1.1.1 p)
      | None => None
      end
  end.

(** A record has a coordinate of a uint64 column. *)
Definition has_uint64 (r : fact) : bool :=
  is_uint64 r.1.1.2 || is_uint64 r.1.2 || is_uint64 r.2.

(** Batches of at most [size] records; [fuel] bounds the number of
    batches. *)
Fixpoint chunks {A} (fuel size : nat) (l : list A) : list (list A) :=
  match fuel with
  | 0 => []
  | S fuel' =>
      match l with
      | [] => []
      | _ => take size l :: chunks fuel' size (drop size l)
      end
  end.

(** The INSERT of batch [k]: it is sent, then it raises or adds its
    rows. *)
Definition insert_chunk (w : World) (k : nat) (c : list fact) : M unit := fun s =>
  let s' := emit (ESql (SqlInsertAnnotations (length c))) s in
  match db_fault w (StLoad k) with
  | Some e => (Raise e, s')
  | None =>
      match insert_annotations w c (st_db s') with
      | Some db => (Ret tt, set_db db s')
      | None => (Raise (PyException (reject_text w "annotations")), s')
      end
  end.

Fixpoint load_chunks (w : World) (k : nat) (cs : list (list fact)) : M unit :=
  match cs with
  | [] => ret tt
  | c :: cs' =>
      insert_chunk w k c;;;
      load_chunks w (S k) cs'
  end.

(** [to_sql('annotations', if_exists='append', chunksize=...)]: the types of
    the columns are mapped first, which fails for uint64; then one INSERT
    per batch, [k] numbers the batches. *)
Definition to_sql_annotations (w : World) (rows : list fact) : M unit :=
  if existsb has_uint64 rows then raise (PyException MSG_UINT64)
  else load_chunks w 0 (chunks (length rows) CHUNKSIZE rows).

(** *** The run *)

Definition apply_schema (ddl : string) (db : database) : database :=
  {| tomograms := tomograms db; tomograms_seq := tomograms_seq db;
     annotations := annotations db; annotations_seq := annotations_seq db;
     temp_tomograms := temp_tomograms db; schema_log := schema_log db ++ [ddl] |}.

(** [Path.read_text()] of the schema file. *)
Definition read_schema (w : World) : M string :=
  tell (EReadText SQL_SCHEMA_PATH);;;
  match schema_sql w with
  | Some ddl => ret ddl
  | None => raise (PyException ("[Errno 2] No such file or directory: '" +:+ SQL_SCHEMA_PATH +:+ "'"))
  end.

Definition labels_exists (w : World) : M bool :=
  tell (EPathExists LABELS_CSV_PATH);;;
  ret (match labels_csv w with Some _ => true | None => false end).

(** [pd.read_csv(LABELS_CSV_PATH).rename(...)]: the frame. *)
Definition read_labels (w : World) : M csv_contents :=
  tell (EReadCsv LABELS_CSV_PATH);;;
  match labels_csv w with
  | Some (CsvMalformed msg) => raise (PyException msg)
  | Some df => ret df
  | None => raise (PyException ("[Errno 2] No such file or directory: '" +:+ LABELS_CSV_PATH +:+ "'"))
  end.

(** [df_labels['tomo_name'].unique()], before it is made unique. *)
Definition key_column (df_labels : csv_contents) : M (list cell) :=
  match df_labels with
  | CsvRows rows => ret (lbl_tomo_name <$> rows)
  | CsvNoCoords keys _ => ret keys
  | CsvNoKey e => raise e
  | CsvMalformed msg => raise (PyException msg)
  end.

(** [unique_tomos.to_sql('temp_tomograms', connection, if_exists='replace',
    index=False)]: the types of the columns are mapped first, which fails
    for uint64; then the table is replaced. *)
Definition to_sql_temp (w : World) (rows : list (cell * string)) : M unit :=
  if existsb (fun row => is_uint64 row.1) rows then raise (PyException MSG_UINT64)
  else execute w StStage (SqlStageTemp rows) (stage_temp rows).

(** The new column tomo_id and the selection
    [df_labels[['tomo_id', 'x', 'y', 'z']]]. *)
Definition select_facts (m : gmap string nat) (df_labels : csv_contents)
    : M (list fact) :=
  match df_labels with
  | CsvRows rows => ret (df_annotations m rows)
  | CsvNoCoords _ msg => raise (PyException msg)
  | CsvNoKey e => raise e
  | CsvMalformed msg => raise (PyException msg)
  end.

(** The body of [with engine.begin() as connection:].  The result tells
    whether the block was left by [return] ([true]) or by reaching its
    end ([false]). *)
Definition transaction (w : World) : M bool :=
  log INFO "Applying database schema...";;;
  ddl <- read_schema w;;
  execute w StSchema (SqlSchema ddl) (apply_schema ddl);;;
  present <- labels_exists w;;
  if negb present then
    log ERROR ("Source data file not found: " +:+ LABELS_CSV_PATH +:+ ". Aborting.");;;
    ret true
  else
    df_labels <- read_labels w;;
    keys <- key_column df_labels;;
    to_sql_temp w (unique_tomos keys);;;
    merge w;;;
    log INFO "Tomograms table synchronized.";;;
    m <- read_tomo_map w;;
    rows <- select_facts m df_labels;;
    log INFO "Clearing old annotations...";;;
    execute w StTruncate SqlTruncateAnnotations truncate_annotations;;;
    log INFO ("Loading " +:+ pretty (length rows) +:+ " new annotations...");;;
    to_sql_annotations w rows;;;
    ret false.

Definition MSG_COMPLETED : string := "ETL pipeline completed successfully.".

Definition database_url (user password host name : string) : string :=
  "postgresql://" +:+ user +:+ ":" +:+ password +:+ "@" +:+ host +:+ ":5432/" +:+ name.

(** The [try] block of [main]. *)
Definition main_try (w : World) : M unit :=
  wait_for_vault w 5 0;;;
  db_creds <- get_db_credentials_from_vault w;;
  DB_USER <- getitem db_creds "POSTGRES_USER";;
  DB_PASSWORD <- getitem db_creds "POSTGRES_PASSWORD";;
  DB_NAME <- getitem db_creds "POSTGRES_DB";;
  DB_HOST <- getenv_default w "DB_HOST" "db";;
  create_engine w (database_url DB_USER DB_PASSWORD DB_HOST DB_NAME);;;
  returned <- engine_begin w (transaction w);;
  if (returned : bool) then ret tt
  else log INFO MSG_COMPLETED.

(** The two [except] clauses of [main]. *)
Definition main_except (e : exn) : M unit :=
  match e with
  | OperationalError _ =>
      log ERROR ("Database connection failed: " +:+ str_exn e +:+
                 ". Ensure the 'db' container is running and healthy.");;;
      sys_exit 1
  | _ =>
      log ERROR ("An error occurred during the ETL process: " +:+ str_exn e);;;
      sys_exit 1
  end.

Definition main (w : World) : M unit :=
  log INFO "Starting ETL pipeline...";;;
  try_except (main_try w) main_except.

(** The process: the module-level [os.getenv] calls, then [main()]. *)
Definition program (w : World) : M unit :=
  getenv_default w "VAULT_ADDR" "http://vault:8200";;;
  getenv_default w "VAULT_TOKEN" "root";;;
  main w.

(** The status the process ends with: that of [sys.exit], or 0 when the
    script runs to its end.  An exception leaving the script (none can
    leave [main]) would give 1. *)
Definition exit_status {A} (r : result A) : Z :=
  match r with
  | Ret _ => 0
  | Raise _ => 1
  | SysExit c => c
  end.

End Etl.

(** ** src/query_tool.py

    The [visualize] subcommand (numpy, matplotlib) follows in a module of
    its own. *)

Module Query.

Definition SECRET_PATH : string := "cryoet".

Definition get_db_credentials_from_vault (w : World) : M (gmap string string) :=
  try_except
    (read_secret_version w SECRET_PATH)
    (fun e =>
       match e with
       | InvalidPath _ =>
           log ERROR "FATAL: Secrets not found in Vault. Please run the ETL script first to initialize them.";;;
           sys_exit 1
       | _ =>
           log ERROR ("FATAL: Could not retrieve secrets from Vault: " +:+ str_exn e);;;
           sys_exit 1
       end).

(** The module-level code: it runs when the script is loaded and leaves the
    engine in [ENGINE]. *)
Definition module_init (w : World) : M unit :=
  getenv_default w "VAULT_ADDR" "http://vault:8200";;;
  getenv_default w "VAULT_TOKEN" "root";;;
  try_except
    (wait_for_vault w 5 0;;;
     db_creds <- get_db_credentials_from_vault w;;
     DB_USER <- getitem db_creds "POSTGRES_USER";;
     DB_PASSWORD <- getitem db_creds "POSTGRES_PASSWORD";;
     DB_NAME <- getitem db_creds "POSTGRES_DB";;
     DB_HOST <- getenv_default w "DB_HOST" "db";;
     create_engine w (Etl.database_url DB_USER DB_PASSWORD DB_HOST DB_NAME))
    (fun e =>
       print Stderr ("Failed to establish database connection via Vault: " +:+ str_exn e);;;
       sys_exit 1).

(** A read-only statement on a fresh connection ([ENGINE.connect()] or
    [pd.read_sql(query, ENGINE)]). *)
Definition run_query {A} (w : World) (q : sql) (f : database -> A) : M A := fun s =>
  let s0 := emit EConnect s in
  match db_unreachable w with
  | Some msg => (Raise (OperationalError msg), s0)
  | None =>
      let s1 := emit (ESql q) s0 in
      match db_fault w StQuery with
      | Some e => (Raise e, s1)
      | None => (Ret (f (st_db s1)), s1)
      end
  end.

(** FROM annotations a JOIN tomograms t ON a.tomo_id = t.tomo_id. *)
Definition join_at (db : database) : list (annotation * tomogram) :=
  a ← annotations db; t ← tomograms db;
  if decide (ann_tomo_id a = Some (tomo_id t)) then [(a, t)] else [].

(** SELECT COUNT(a.annotation_id) ... WHERE t.tomo_name = :tomo_name. *)
Definition count_query (name : string) (db : database) : nat :=
  length (filter (fun p => tomo_name p.2 = name) (join_at db)).

(** [.scalar_one_or_none()]: the aggregate query has exactly one row. *)
Definition scalar_one_or_none (n : nat) : option nat := Some n.

(** Python's [result or 0]. *)
Definition or_zero (result : option nat) : nat :=
  match result with
  | Some n => if Nat.eqb n 0 then 0 else n
  | None => 0
  end.

Definition count_annotations (w : World) (tomo_name : string) : M unit :=
  result <- run_query w (SqlCount tomo_name)
              (fun db => scalar_one_or_none (count_query tomo_name db));;
  print Stdout ("Tomogram '" +:+ tomo_name +:+ "' has " +:+ pretty (or_zero result)
                +:+ " annotations.").

(** FROM tomograms t JOIN annotations a ON t.tomo_id = a.tomo_id. *)
Definition join_ta (db : database) : list (tomogram * annotation) :=
  t ← tomograms db; a ← annotations db;
  if decide (Some (tomo_id t) = ann_tomo_id a) then [(t, a)] else [].

(** ORDER BY annotation_count DESC. *)
Definition count_desc (g1 g2 : string * nat) : Prop := (g2.2 ≤ g1.2)%nat.

Global Instance count_desc_dec g1 g2 : Decision (count_desc g1 g2) :=
  decide (g2.2 ≤ g1.2)%nat.

(** The groups of GROUP BY t.tomo_name with their COUNT(a.annotation_id). *)
Definition groups (db : database) : list (string * nat) :=
  (fun n => (n, length (filter (fun p => tomo_name p.1 = n) (join_ta db))))
    <$> remove_dups ((fun p => tomo_name p.1) <$> join_ta db).

(** The order of the result: by count, descending; the query leaves the
    order among equal counts to the database, which is given by [rank]. *)
Definition rich_order (rank : string -> nat) (g1 g2 : string * nat) : Prop :=
  (g2.2 < g1.2 \/ (g2.2 = g1.2 /\ rank g1.1 ≤ rank g2.1))%nat.

Global Instance rich_order_dec rank g1 g2 : Decision (rich_order rank g1 g2).
Proof. unfold rich_order. apply _. Defined.

(** SELECT ... GROUP BY t.tomo_name HAVING COUNT(a.annotation_id) >
    :min_annotations ORDER BY annotation_count DESC. *)
Definition rich_query (rank : string -> nat) (min_annotations : Z) (db : database)
    : list (string * nat) :=
  merge_sort (rich_order rank)
    (filter (fun g => (min_annotations < Z.of_nat g.2)%Z) (groups db)).

Definition find_rich_tomograms (w : World) (min_annotations : Z) : M unit :=
  df <- run_query w (SqlRich min_annotations) (rich_query (tie_rank w) min_annotations);;
  match df with
  | [] => print Stdout ("No tomograms found with > " +:+ pretty min_annotations
                        +:+ " annotations.")
  | _ => tell (EPrintFrame df)
  end.

(** The arguments of the two subcommands. *)
Inductive command :=
| CountAnnotations (tomo_name : string)
| FindRichTomograms (min_annotations : Z).

(** What argparse makes of the command line; [CliCommand] is for the
    subcommands count-annotations and find-rich-tomograms. *)
Inductive cli :=
| CliCommand (args : command)
| CliHelp (text : string)           (* -h or --help *)
| CliError (text : string).         (* a command line that the parser refuses *)

(** [parser.parse_args()]: for --help the help is printed and the process
    exits with status 0; for a command line that the parser refuses, the
    usage and the error are printed to stderr and the process exits with
    status 2. *)
Definition parse_args (argv : cli) : M command :=
  match argv with
  | CliCommand args => ret args
  | CliHelp text => print Stdout text;;; sys_exit 0
  | CliError text => print Stderr text;;; sys_exit 2
  end.

Definition main (w : World) (argv : cli) : M unit :=
  args <- parse_args argv;;
  try_except
    (match args with
     | CountAnnotations n => count_annotations w n
     | FindRichTomograms m => find_rich_tomograms w m
     end)
    (fun e =>
       match e with
       | OperationalError _ =>
           print Stderr ("Database connection failed: " +:+ str_exn e);;;
           sys_exit 1
       | _ =>
           print Stderr ("A critical error occurred: " +:+ str_exn e);;;
           sys_exit 1
       end).

Definition program (w : World) (argv : cli) : M unit :=
  module_init w;;;
  main w argv.

End Query.

(** ** src/query_tool.py: the visualize subcommand

    [visualize_annotation] reads one row, loads a volume file and writes
    an image.  It is modelled on its own: the tables are only read, the
    file system, numpy and matplotlib are described by [Files], and the
    effects are collected in order. *)

Module Visualize.

(** The exceptions [visualize_annotation] and its caller tell apart. *)
Inductive vexn :=
| FileNotFoundError (msg : string)
| IndexError (msg : string)
| ValueError (msg : string)
| DbError (e : exn)               (* raised by the connection or the statement *)
| OtherError (msg : string).

(** [str(e)]. *)
Definition str_vexn (e : vexn) : string :=
  match e with
  | FileNotFoundError m | IndexError m | ValueError m | OtherError m => m
  | DbError e => str_exn e
  end.

Inductive vresult (A : Type) :=
| VRet (a : A)
| VRaise (e : vexn)
| VExit (code : Z).
Arguments VRet {A} a.
Arguments VRaise {A} e.
Arguments VExit {A} code.

Inductive effect :=
| FConnect
| FSelect (annotation_id : Z)
| FLoad (path : string)             (* np.load *)
| FPlot (z_slice : Z) (x y : Q)     (* the slice is drawn, the point marked *)
| FMkdir (path : string)
| FSaveFig (path : string)
| FPrint (out : stream) (msg : string).

(** What [np.load] finds. *)
Inductive volume_file :=
| VolMissing                        (* FileNotFoundError *)
| VolUnreadable (msg : string)      (* any other exception *)
| VolArray (shape : list nat).      (* an array of that shape *)

(** The file system and the plotting library during one run. *)
Record Files := {
  (* DATA_DIR / Path(p).with_suffix('.npy'), or the message of the
     ValueError that with_suffix raises *)
  npy_path : string -> string + string;
  np_load : string -> volume_file;
  plot_error : option vexn;         (* slicing or drawing raises *)
  mkdir_error : option vexn;        (* OUTPUT_DIR.mkdir raises *)
  savefig_error : option vexn       (* plt.savefig raises *)
}.

(** A computation: how it ends and the effects it had, in order. *)
Definition V (A : Type) : Type := vresult A * list effect.

Definition vret {A} (a : A) : V A := (VRet a, []).
Definition vraise {A} (e : vexn) : V A := (VRaise e, []).
Definition vexit {A} (code : Z) : V A := (VExit code, []).
Definition vtell (e : effect) : V unit := (VRet tt, [e]).

Definition vbind {A B} (m : V A) (k : A -> V B) : V B :=
  match m with
  | (VRet a, t) => let '(r, t') := k a in (r, t ++ t')
  | (VRaise e, t) => (VRaise e, t)
  | (VExit c, t) => (VExit c, t)
  end.

Definition vtry {A} (body : V A) (handler : vexn -> V A) : V A :=
  match body with
  | (VRaise e, t) => let '(r, t') := handler e in (r, t ++ t')
  | r => r
  end.

Local Notation "x <~ m ;; k" := (vbind m (fun x => k))
  (at level 100, m at next level, right associativity).
Local Notation "m ;;~ k" := (vbind m (fun _ => k))
  (at level 100, right associativity).

Definition vprint (out : stream) (msg : string) : V unit := vtell (FPrint out msg).

Definition DATA_DIR : string := "/app/data".
Definition OUTPUT_DIR : string := "/app/output".

(** SELECT t.raw_volume_path, a.coord_x, a.coord_y, a.coord_z FROM
    annotations a JOIN tomograms t ON a.tomo_id = t.tomo_id WHERE
    a.annotation_id = :aid, and [.first()] of the result. *)
Definition first_row (aid : Z) (db : database) : option (string * Q * Q * Q) :=
  head ((fun p : annotation * tomogram =>
           (raw_volume_path p.2, coord_x p.1, coord_y p.1, coord_z p.1))
          <$> filter (fun p : annotation * tomogram => Z.of_nat (annotation_id p.1) = aid)
                (Query.join_at db)).

(** [with ENGINE.connect() as conn: conn.execute(query, ...).first()]. *)
Definition select_first (w : World) (db : database) (aid : Z)
    : V (option (string * Q * Q * Q)) :=
  vtell FConnect;;~
  match db_unreachable w with
  | Some msg => vraise (DbError (OperationalError msg))
  | None =>
      vtell (FSelect aid);;~
      match db_fault w StQuery with
      | Some e => vraise (DbError e)
      | None => vret (first_row aid db)
      end
  end.

(** Python's [round] of a number to an integer: to the nearest, a tie to
    the even one. *)
Definition py_round (q : Q) : Z :=
  let n := QArith_base.Qnum q in
  let d := Z.pos (QArith_base.Qden q) in
  let f := (n / d)%Z in
  match (2 * (n mod d) ?= d)%Z with
  | Lt => f
  | Gt => (f + 1)%Z
  | Eq => if Z.even f then f else (f + 1)%Z
  end.

(** [str] of a tuple of integers, as [volume.shape] is printed. *)
Fixpoint py_tuple_items (l : list nat) : string :=
  match l with
  | [] => ""
  | [a] => pretty a
  | a :: rest => pretty a +:+ ", " +:+ py_tuple_items rest
  end.

Definition py_tuple (l : list nat) : string :=
  match l with
  | [a] => "(" +:+ pretty a +:+ ",)"
  | _ => "(" +:+ py_tuple_items l +:+ ")"
  end.

Definition out_of_bounds (z_slice : Z) (shape : list nat) : vexn :=
  IndexError ("Z-coordinate " +:+ pretty z_slice
              +:+ " is out of bounds for volume shape " +:+ py_tuple shape).

(** [np.load(volume_path_npy)]; the result is the shape of the array. *)
Definition load (f : Files) (path : string) : V (list nat) :=
  vtell (FLoad path);;~
  match np_load f path with
  | VolMissing => vraise (FileNotFoundError
                            ("[Errno 2] No such file or directory: '" +:+ path +:+ "'"))
  | VolUnreadable msg => vraise (OtherError msg)
  | VolArray shape => vret shape
  end.

(** [if not (0 <= z_slice < volume.shape[0]): raise IndexError(...)].  The
    chained comparison looks at [volume.shape[0]] only when [0 <= z_slice]
    holds. *)
Definition check_bounds (z_slice : Z) (shape : list nat) : V unit :=
  if (0 <=? z_slice)%Z then
    match shape with
    | [] => vraise (IndexError "tuple index out of range")
    | depth :: _ =>
        if (z_slice <? Z.of_nat depth)%Z then vret tt
        else vraise (out_of_bounds z_slice shape)
    end
  else vraise (out_of_bounds z_slice shape).

(** An effect that the outside may turn into an exception. *)
Definition attempt (e : effect) (error : option vexn) : V unit :=
  vtell e;;~
  match error with
  | Some x => vraise x
  | None => vret tt
  end.

Definition output_path (aid : Z) : string :=
  OUTPUT_DIR +:+ "/annotation_" +:+ pretty aid +:+ ".png".

Definition visualize_annotation (w : World) (f : Files) (db : database) (aid : Z)
    : V unit :=
  result <~ select_first w db aid;;
  match result with
  | None =>
      vprint Stderr ("Error: Annotation with ID " +:+ pretty aid +:+ " not found.")
  | Some (volume_path, x, y, z) =>
      match npy_path f volume_path with
      | inr msg => vraise (ValueError msg)
      | inl volume_path_npy =>
          vtry
            (shape <~ load f volume_path_npy;;
             let z_slice := py_round z in
             check_bounds z_slice shape;;~
             attempt (FPlot z_slice x y) (plot_error f);;~
             attempt (FMkdir OUTPUT_DIR) (mkdir_error f);;~
             attempt (FSaveFig (output_path aid)) (savefig_error f);;~
             vprint Stdout ("Image saved to: " +:+ output_path aid))
            (fun e =>
               match e with
               | FileNotFoundError _ =>
                   vprint Stderr ("Error: Volume file not found at '"
                                  +:+ volume_path_npy +:+ "'")
               | _ =>
                   vprint Stderr ("An error occurred during visualization: "
                                  +:+ str_vexn e)
               end)
      end
  end.

(** [main] for the parsed command [visualize --annotation-id aid]. *)
Definition main (w : World) (f : Files) (db : database) (aid : Z) : V unit :=
  vtry (visualize_annotation w f db aid)
    (fun e =>
       match e with
       | DbError (OperationalError msg) =>
           vprint Stderr ("Database connection failed: " +:+ msg);;~
           vexit 1
       | _ =>
           vprint Stderr ("A critical error occurred: " +:+ str_vexn e);;~
           vexit 1
       end).

End Visualize.

(** * Vocabulary of the statements *)

(** [emits es s]: [s] after the events [es], in order. *)
Definition emits (es : list event) (s : state) : state :=
  {| st_vault := st_vault s; st_db := st_db s; st_trace := st_trace s ++ es |}.

(** Membership of a substring, to read log messages. *)
Definition mentions (sub msg : string) : bool :=
  bool_decide (is_Some (String.index 0 sub msg)).

(** The three first-run variables. *)
Definition first_run_var (name : string) : bool :=
  bool_decide (name ∈ ["POSTGRES_USER"; "POSTGRES_PASSWORD"; "POSTGRES_DB"]).

(** Events of the first-run initialisation: reads of the three first-run
    variables and writes to the secret store. *)
Definition is_first_run_event (e : event) : bool :=
  match e with
  | EGetenv name => first_run_var name
  | EVaultWrite _ _ => true
  | _ => false
  end.

(** Events that reach the database. *)
Definition is_db_event (e : event) : bool :=
  match e with
  | EConnect | EBegin | ECommit | ERollback | ESql _ => true
  | _ => false
  end.

(** Health polls, sleeps, and how many events of a kind a trace has. *)
Definition is_health (e : event) : bool :=
  match e with EHealth => true | _ => false end.

Definition is_sleep (secs : nat) (e : event) : bool :=
  match e with ESleep n => Nat.eqb n secs | _ => false end.

Definition is_any_sleep (e : event) : bool :=
  match e with ESleep _ => true | _ => false end.

Definition count_events (p : event -> bool) (es : list event) : nat :=
  length (List.filter p es).

(** What [k] failed polls starting at loop index [i] leave in the trace. *)
Fixpoint failed_polls (i k : nat) : list event :=
  match k with
  | 0 => []
  | S k' =>
      [EHealth;
       ELog INFO ("Waiting for Vault to be ready... (" +:+ pretty (i + 1) +:+ "/5)");
       ESleep 2] ++ failed_polls (S i) k'
  end.

(** The first healthy response comes at poll [k], within the five
    attempts. *)
Definition vault_ready (w : World) (k : nat) : Prop :=
  k < 5 /\ (forall j, j < k -> health w j = Unhealthy) /\ health w k = Healthy.

(** The events of a process run before the readiness loop. *)
Definition etl_start : list event :=
  [EGetenv "VAULT_ADDR"; EGetenv "VAULT_TOKEN"; ELog INFO "Starting ETL pipeline..."].

(** What the first-run branch leaves in the trace before it decides. *)
Definition first_run_reads : list event :=
  [ELog WARNING "Secrets not found in Vault. This appears to be the first run.";
   ELog INFO "Attempting to write secrets to Vault...";
   EGetenv "POSTGRES_USER"; EGetenv "POSTGRES_PASSWORD"; EGetenv "POSTGRES_DB"].

(** What [os.getenv] gives for the three first-run variables. *)
Definition first_run_values (w : World) : list (option string) :=
  [environ w !! "POSTGRES_USER"; environ w !! "POSTGRES_PASSWORD";
   environ w !! "POSTGRES_DB"].

(** A computation that leaves the tables as they are, however it ends. *)
Definition keeps_db {A} (m : M A) : Prop :=
  forall s r s', m s = (r, s') -> st_db s' = st_db s.

(** Annotation [a] references a row of [tomograms]. *)
Definition resolves (db : database) (a : annotation) : Prop :=
  Exists (fun t => ann_tomo_id a = Some (tomo_id t)) (tomograms db).

(** Every annotation references a tomogram row. *)
Definition referential (db : database) : Prop :=
  Forall (resolves db) (annotations db).

(** The log line of a first run that has written the secret. *)
Definition MSG_SEEDED : string :=
  "Secrets successfully written to Vault. Please re-run the command.".

(** Writes to the secret store. *)
Definition is_vault_write (e : event) : bool :=
  match e with EVaultWrite _ _ => true | _ => false end.

Section EtlVocabulary.

Import Etl.

(** The names the table knows. *)
Definition names (db : database) : list string := tomo_name <$> tomograms db.

(** [new] holds only rows under names that [old] does not have. *)
Definition fresh_rows (old new : list tomogram) : Prop :=
  forall t, t ∈ new -> tomo_name t ∉ tomo_name <$> old.

(** The staged rows as the merge inserts them, when every key has a
    text. *)
Definition named_rows (rows : list (cell * string)) : list (string * string) :=
  omap (fun row => (fun n => (n, row.2)) <$> db_text row.1) rows.

(** The tables after the schema and the dimension merge of the keys. *)
Definition merged (burn : bool) (ddl : string) (keys : list cell) (db : database)
    : database :=
  foldl (insert_tomogram burn) (stage_temp (unique_tomos keys) (apply_schema ddl db))
    (named_rows (unique_tomos keys)).

(** The row written under the generated id [id] for a record with the
    mapped id [tomo] and the stored coordinates [p]. *)
Definition fact_row (id : nat) (r : option nat * (Q * Q * Q)) : annotation :=
  {| annotation_id := id; ann_tomo_id := r.1;
     coord_x := r.2.1.1; coord_y := r.2.1.2; coord_z := r.2.2 |}.

(** The records as the database stores them, when it takes them all. *)
Definition stored_facts (w : World) (rows : list fact)
    : option (list (option nat * (Q * Q * Q))) :=
  mapM (fun r => p ← stored w r; Some (r.1.1.1, p)) rows.

(** The tables after a complete load of [rows], when the database takes
    every record. *)
Definition loaded (w : World) (ddl : string) (rows : list label) (db : database)
    : option database :=
  let db2 := merged (serial_burn w) ddl (lbl_tomo_name <$> rows) db in
  insert_annotations w (df_annotations (tomo_map db2) rows) (truncate_annotations db2).

(** The same rows in every table and the same DDL; only the sequence of
    tomograms may differ. *)
Definition same_rows (db db' : database) : Prop :=
  tomograms db' = tomograms db
  /\ annotations db' = annotations db
  /\ annotations_seq db' = annotations_seq db
  /\ temp_tomograms db' = temp_tomograms db
  /\ schema_log db' = schema_log db.

(** The load can write the coordinate [c]: it is not of a uint64 column
    and the database has a number to store for it. *)
Definition coord_ok (w : World) (c : cell) : Prop :=
  is_uint64 c = false /\ is_Some (coord_in w c).

(** The load can write the row: its key is not NaN and not of a uint64
    column, and its coordinates can be written. *)
Definition loadable (w : World) (l : label) : Prop :=
  is_Some (db_text (lbl_tomo_name l)) /\ is_uint64 (lbl_tomo_name l) = false
  /\ coord_ok w (lbl_x l) /\ coord_ok w (lbl_y l) /\ coord_ok w (lbl_z l).

Global Instance loadable_dec w l : Decision (loadable w l).
Proof. unfold loadable, coord_ok. apply _. Defined.

(** What the annotation [a] references, for a row with the key [k]: the
    row of a string references the tomogram row of that name; the row of
    any other value references none. *)
Definition keyed_to (db : database) (k : cell) (a : annotation) : Prop :=
  match k with
  | CStr n =>
      exists t, t ∈ tomograms db /\ tomo_name t = n /\ ann_tomo_id a = Some (tomo_id t)
  | _ => ann_tomo_id a = None
  end.

(** The annotations table is the frame [rows]: one row per row of the
    frame, in its order and under the ids 1, 2, ...; each holds the
    numbers that the database stores for the three coordinates, x as
    coord_x, y as coord_y, z as coord_z, and references the tomogram of its
    key. *)
Definition holds_load (w : World) (rows : list label) (db : database) : Prop :=
  length (annotations db) = length rows
  /\ forall i l, rows !! i = Some l ->
       exists a,
         annotations db !! i = Some a
         /\ annotation_id a = S i
         /\ coord_in w (lbl_x l) = Some (coord_x a)
         /\ coord_in w (lbl_y l) = Some (coord_y a)
         /\ coord_in w (lbl_z l) = Some (coord_z a)
         /\ keyed_to db (lbl_tomo_name l) a.

(** [create_engine] accepts the URL made of these credentials. *)
Definition engine_accepts (w : World) (u p d : string) : Prop :=
  engine_error w (database_url u p (default "db" (environ w !! "DB_HOST")) d) = None.

(** What the run leaves in the trace after a commit. *)
Definition closing (returned : bool) : list event :=
  if returned then [ECommit] else [ECommit; ELog INFO MSG_COMPLETED].

(** The run committed the transaction body started in [s0], which ended
    in [s1] with result [b]. *)
Definition committed (w : World) (s s' : state) : Prop :=
  exists s0 b s1,
    st_db s0 = st_db s
    /\ transaction w s0 = (Ret b, s1)
    /\ st_db s' = st_db s1
    /\ st_trace s' = st_trace s1 ++ closing b.

(** The secret store holds a Credential Document with the three keys. *)
Definition credentials (s : state) (u p d : string) : Prop :=
  exists doc,
    st_vault s !! SECRET_PATH = Some doc
    /\ doc !! "POSTGRES_USER" = Some u
    /\ doc !! "POSTGRES_PASSWORD" = Some p
    /\ doc !! "POSTGRES_DB" = Some d.

(** The trace of a run up to the creation of the engine. *)
Definition connect_events (w : World) (k : nat) (u p d : string) : list event :=
  etl_start ++ failed_polls 0 k ++
  [EHealth; EVaultRead "cryoet"; EGetenv "DB_HOST";
   ECreateEngine (database_url u p (default "db" (environ w !! "DB_HOST")) d)].

(** The rest of [main_try] once the engine exists. *)
Definition load_block (w : World) : M unit :=
  returned <- engine_begin w (transaction w);;
  if (returned : bool) then ret tt else log INFO MSG_COMPLETED.

(** What the transaction leaves in the trace when the CSV is missing. *)
Definition missing_csv_events (ddl : string) : list event :=
  [EConnect; EBegin; ELog INFO "Applying database schema...";
   EReadText SQL_SCHEMA_PATH; ESql (SqlSchema ddl); EPathExists LABELS_CSV_PATH;
   ELog ERROR "Source data file not found: /app/data/labels.csv. Aborting.";
   ECommit].

(** The trace of a first run that seeds the secret store. *)
Definition seeding_events (k : nat) (doc : gmap string string) : list event :=
  etl_start ++ failed_polls 0 k ++ [EHealth; EVaultRead "cryoet"] ++ first_run_reads ++
  [EVaultWrite "cryoet" doc;
   ELog INFO "Secrets successfully written to Vault. Please re-run the command."].

End EtlVocabulary.

Section QueryVocabulary.

Import Query.

(** Some annotation references a tomogram row named [name]. *)
Definition has_annotation (db : database) (name : string) : Prop :=
  exists a t,
    a ∈ annotations db /\ t ∈ tomograms db
    /\ ann_tomo_id a = Some (tomo_id t) /\ tomo_name t = name.

(** 1 when [a] references [t] and [t] is named [n], else 0. *)
Definition joins (n : string) (a : annotation) (t : tomogram) : nat :=
  if decide (ann_tomo_id a = Some (tomo_id t) /\ tomo_name t = n) then 1 else 0.

(** COUNT(a.annotation_id) of the group of [n] in the query of
    [find_rich_tomograms]. *)
Definition group_count (n : string) (db : database) : nat :=
  length (filter (fun p => tomo_name p.1 = n) (join_ta db)).

(** What [find_rich_tomograms] prints for the frame [df]. *)
Definition rich_output (min_annotations : Z) (df : list (string * nat)) : event :=
  match df with
  | [] => EPrint Stdout ("No tomograms found with > " +:+ pretty min_annotations
                         +:+ " annotations.")
  | _ => EPrintFrame df
  end.

End QueryVocabulary.

(** ** Example worlds *)

(** A database whose coordinate columns are double precision: a double is
    stored as it is, a whole number below 2^53 in magnitude as well, and
    nothing else is taken. *)
Definition ex_coord_in (c : cell) : option Q :=
  match c with
  | CFloat x _ _ => Some x
  | CInt n => if (Z.abs n <? 2 ^ 53)%Z then Some (QArith_base.Qmake n 1) else None
  | _ => None
  end.

Definition ex_reject_text (table : string) : string :=
  "the database does not take a value for " +:+ table.

(** An annotation of tomogram [n] at integer coordinates. *)
Definition ex_point (n : string) (x y z : Z) : label :=
  {| lbl_tomo_name := CStr n; lbl_x := CInt x; lbl_y := CInt y; lbl_z := CInt z |}.

(** Three annotations on two tomograms. *)
Definition ex_labels : list label :=
  [ex_point "TS_1" 10 20 30; ex_point "TS_2" 1 2 3; ex_point "TS_1" 4 5 6].

(** Vault answers the first poll, nothing fails, the CSV has three rows. *)
Definition ex_world : World :=
  {| environ := ∅;
     health := fun _ => Healthy;
     vault_read_error := None;
     vault_write_error := None;
     db_unreachable := None;
     db_fault := fun _ => None;
     serial_burn := true;
     schema_sql := Some "CREATE TABLE IF NOT EXISTS tomograms ();";
     labels_csv := Some (CsvRows ex_labels);
     engine_error := fun _ => None; reject_text := ex_reject_text;
     coord_in := ex_coord_in; tie_rank := fun _ => 0 |}.

(** The same world without the CSV file. *)
Definition ex_world_no_csv : World :=
  {| environ := environ ex_world; health := health ex_world;
     vault_read_error := None; vault_write_error := None;
     db_unreachable := None; db_fault := db_fault ex_world;
     serial_burn := true; schema_sql := schema_sql ex_world;
     labels_csv := None;
     engine_error := fun _ => None; reject_text := ex_reject_text;
     coord_in := ex_coord_in; tie_rank := fun _ => 0 |}.

(** The same world with the first-run variables set. *)
Definition ex_world_env (user password db : string) : World :=
  {| environ := <["POSTGRES_DB" := db]>
                  (<["POSTGRES_PASSWORD" := password]>
                    (<["POSTGRES_USER" := user]> ∅));
     health := health ex_world;
     vault_read_error := None; vault_write_error := None;
     db_unreachable := None; db_fault := db_fault ex_world;
     serial_burn := true; schema_sql := schema_sql ex_world;
     labels_csv := labels_csv ex_world;
     engine_error := fun _ => None; reject_text := ex_reject_text;
     coord_in := ex_coord_in; tie_rank := fun _ => 0 |}.

(** The same world, where the insert of the first batch of annotations
    fails. *)
Definition ex_world_load_fails : World :=
  {| environ := environ ex_world; health := health ex_world;
     vault_read_error := None; vault_write_error := None;
     db_unreachable := None;
     db_fault := fun st =>
       match st with
       | StLoad 0 => Some (PyException "insert or update on table annotations violates foreign key constraint")
       | _ => None
       end;
     serial_burn := true; schema_sql := schema_sql ex_world;
     labels_csv := labels_csv ex_world;
     engine_error := fun _ => None; reject_text := ex_reject_text;
     coord_in := ex_coord_in; tie_rank := fun _ => 0 |}.

(** Vault never becomes healthy. *)
Definition ex_world_unhealthy : World :=
  {| environ := environ ex_world; health := fun _ => Unhealthy;
     vault_read_error := None; vault_write_error := None;
     db_unreachable := None; db_fault := db_fault ex_world;
     serial_burn := true; schema_sql := schema_sql ex_world;
     labels_csv := labels_csv ex_world;
     engine_error := fun _ => None; reject_text := ex_reject_text;
     coord_in := ex_coord_in; tie_rank := fun _ => 0 |}.

(** A Credential Document. *)
Definition ex_doc : gmap string string :=
  Etl.first_run_secret (Some "cryoet_user") (Some "s3cret") (Some "cryoet").

(** Before the first run: an empty secret store and empty tables. *)
Definition ex_fresh : state :=
  {| st_vault := ∅; st_db := empty_db; st_trace := [] |}.

(** The secret store holds the Credential Document; the tables are
    empty. *)
Definition ex_seeded : state :=
  {| st_vault := {[ "cryoet" := ex_doc ]}; st_db := empty_db; st_trace := [] |}.

(** A tomogram without annotations next to one with an annotation. *)
Definition ex_db_sparse : database :=
  {| tomograms :=
       [{| tomo_id := 1; tomo_name := "TS_1"; raw_volume_path := "volumes/TS_1.mrc" |};
        {| tomo_id := 2; tomo_name := "TS_3"; raw_volume_path := "volumes/TS_3.mrc" |}];
     tomograms_seq := 2;
     annotations :=
       [{| annotation_id := 1; ann_tomo_id := Some 1;
           coord_x := QArith_base.Qmake 10 1; coord_y := QArith_base.Qmake 20 1;
           coord_z := QArith_base.Qmake 30 1 |}];
     annotations_seq := 1;
     temp_tomograms := [];
     schema_log := [] |}.

(** The tables after a complete load of [ex_labels]. *)
Definition ex_loaded : state := (Etl.program ex_world ex_seeded).2.



(** ** Further vocabulary *)

(** Logged when an exception other than a connection failure reaches the
    handler of the ETL [main]. *)
Definition etl_error_log (msg : string) : event :=
  ELog ERROR ("An error occurred during the ETL process: " +:+ msg).

(** Logged when connecting to the database fails in the ETL [main]. *)
Definition etl_connection_log (msg : string) : event :=
  ELog ERROR ("Database connection failed: " +:+ msg +:+
              ". Ensure the 'db' container is running and healthy.").

(** The three keys of the Credential Document, in the order [main] reads
    them. *)
Definition credential_keys : list string :=
  ["POSTGRES_USER"; "POSTGRES_PASSWORD"; "POSTGRES_DB"].

(** Every run of [m], however it ends, takes a state to one that [R]
    relates to it. *)
Definition maintains {A} (R : state -> state -> Prop) (m : M A) : Prop :=
  forall s r s', m s = (r, s') -> R s s'.

(** How [m] can end: it raises only if [raises] holds, and a [sys.exit]
    carries a status in [codes]. *)
Definition ends_in {A} (raises : Prop) (codes : Z -> Prop) (m : M A) : Prop :=
  forall s r s', m s = (r, s') ->
    match r with
    | Ret _ => True
    | Raise _ => raises
    | SysExit c => codes c
    end.

(** Tables and secret store are the same in both states. *)
Definition same_data (s s' : state) : Prop :=
  st_db s' = st_db s /\ st_vault s' = st_vault s.

(** The secret store is the same, or a document was created at the path of
    the Credential Document, where there was none. *)
Definition store_step (s s' : state) : Prop :=
  st_vault s' = st_vault s
  \/ (st_vault s !! Etl.SECRET_PATH = None
      /\ exists doc, st_vault s' = <[Etl.SECRET_PATH := doc]> (st_vault s)).

(** The statuses the ETL script passes to [sys.exit]. *)
Definition etl_codes (c : Z) : Prop := c = 0%Z \/ c = 1%Z.

(** The only status the query tool passes to [sys.exit]. *)
Definition query_codes (c : Z) : Prop := c = 1%Z.

(** The trace of the query tool up to the creation of the engine. *)
Definition query_connect_events (w : World) (k : nat) (u p d : string) : list event :=
  [EGetenv "VAULT_ADDR"; EGetenv "VAULT_TOKEN"] ++ failed_polls 0 k ++
  [EHealth; EVaultRead "cryoet"; EGetenv "DB_HOST";
   ECreateEngine (Etl.database_url u p (default "db" (environ w !! "DB_HOST")) d)].

(** The statement a command of the query tool sends. *)
Definition command_sql (args : Query.command) : sql :=
  match args with
  | Query.CountAnnotations n => SqlCount n
  | Query.FindRichTomograms m => SqlRich m
  end.

(** What the handler of the query tool's [main] prints for exception
    [e]. *)
Definition query_error_line (e : exn) : event :=
  match e with
  | OperationalError msg => EPrint Stderr ("Database connection failed: " +:+ msg)
  | _ => EPrint Stderr ("A critical error occurred: " +:+ str_exn e)
  end.

(** The tomograms table has one row per name and one row per id, and no id
    beyond the last value drawn from the sequence. *)
Definition well_keyed (db : database) : Prop :=
  NoDup (tomo_name <$> tomograms db)
  /\ NoDup (tomo_id <$> tomograms db)
  /\ Forall (fun t => tomo_id t <= tomograms_seq db) (tomograms db).

(** How many rows of the CSV have the string [n] as their key. *)
Definition csv_count (n : string) (rows : list label) : nat :=
  length (filter (fun l => lbl_tomo_name l = CStr n) rows).

(** The trace of the transaction of a run over a CSV without rows. *)
Definition empty_load_events (ddl : string) : list event :=
  [EConnect; EBegin; ELog INFO "Applying database schema...";
   EReadText Etl.SQL_SCHEMA_PATH; ESql (SqlSchema ddl);
   EPathExists Etl.LABELS_CSV_PATH; EReadCsv Etl.LABELS_CSV_PATH;
   ESql (SqlStageTemp []); ESql SqlMergeTomograms;
   ELog INFO "Tomograms table synchronized."; ESql SqlSelectTomoMap;
   ELog INFO "Clearing old annotations..."; ESql SqlTruncateAnnotations;
   ELog INFO "Loading 0 new annotations..."; ECommit;
   ELog INFO Etl.MSG_COMPLETED].

(** The trace of the transaction of a run over a CSV that has the key
    column and lacks a coordinate column, in a database that takes every
    statement: the failure comes after the merge and the read of the
    mapping, and before the TRUNCATE. *)
Definition no_coords_events (ddl : string) (keys : list cell) (msg : string)
    : list event :=
  [EConnect; EBegin; ELog INFO "Applying database schema...";
   EReadText Etl.SQL_SCHEMA_PATH; ESql (SqlSchema ddl);
   EPathExists Etl.LABELS_CSV_PATH; EReadCsv Etl.LABELS_CSV_PATH;
   ESql (SqlStageTemp (Etl.unique_tomos keys)); ESql SqlMergeTomograms;
   ELog INFO "Tomograms table synchronized."; ESql SqlSelectTomoMap;
   ERollback; etl_error_log msg].

(** INSERT statements into annotations. *)
Definition is_insert (e : event) : bool :=
  match e with ESql (SqlInsertAnnotations _) => true | _ => false end.


(** No annotation has the id [aid]. *)
Definition unknown_annotation (aid : Z) (db : database) : Prop :=
  forall a, a ∈ annotations db -> Z.of_nat (annotation_id a) <> aid.

(** The line [visualize_annotation] prints for an exception raised while it
    handles the volume: the clause for [FileNotFoundError] shows the path of
    the volume, the general clause the text of the exception. *)
Definition visualize_error_line (npy : string) (e : Visualize.vexn) : Visualize.effect :=
  match e with
  | Visualize.FileNotFoundError _ =>
      Visualize.FPrint Stderr ("Error: Volume file not found at '" +:+ npy +:+ "'")
  | _ =>
      Visualize.FPrint Stderr ("An error occurred during visualization: "
                               +:+ Visualize.str_vexn e)
  end.

(** The effects of a [visualize] that saves its image. *)
Definition visualize_events (aid : Z) (npy : string) (x y z : Q) : list Visualize.effect :=
  [Visualize.FConnect; Visualize.FSelect aid; Visualize.FLoad npy;
   Visualize.FPlot (Visualize.py_round z) x y;
   Visualize.FMkdir Visualize.OUTPUT_DIR;
   Visualize.FSaveFig (Visualize.output_path aid);
   Visualize.FPrint Stdout ("Image saved to: " +:+ Visualize.output_path aid)].

(** The index [z_slice] is a plane of an array of that shape. *)
Definition in_bounds (z_slice : Z) (shape : list nat) : Prop :=
  exists depth rest, shape = depth :: rest /\ (0 <= z_slice < Z.of_nat depth)%Z.

(** ** Further example worlds *)

(** The read of the secret store is refused. *)
Definition ex_world_read_fails : World :=
  {| environ := environ ex_world; health := health ex_world;
     vault_read_error := Some "permission denied"; vault_write_error := None;
     db_unreachable := None; db_fault := db_fault ex_world;
     serial_burn := true; schema_sql := schema_sql ex_world;
     labels_csv := labels_csv ex_world;
     engine_error := fun _ => None; reject_text := ex_reject_text;
     coord_in := ex_coord_in; tie_rank := fun _ => 0 |}.

(** A first run with the variables set, where the write is refused. *)
Definition ex_world_write_fails : World :=
  {| environ := environ (ex_world_env "cryoet_user" "s3cret" "cryoet");
     health := health ex_world;
     vault_read_error := None; vault_write_error := Some "Vault is sealed";
     db_unreachable := None; db_fault := db_fault ex_world;
     serial_burn := true; schema_sql := schema_sql ex_world;
     labels_csv := labels_csv ex_world;
     engine_error := fun _ => None; reject_text := ex_reject_text;
     coord_in := ex_coord_in; tie_rank := fun _ => 0 |}.

(** The database does not accept connections. *)
Definition ex_world_db_down : World :=
  {| environ := environ ex_world; health := health ex_world;
     vault_read_error := None; vault_write_error := None;
     db_unreachable := Some "could not connect to server: Connection refused";
     db_fault := db_fault ex_world;
     serial_burn := true; schema_sql := schema_sql ex_world;
     labels_csv := labels_csv ex_world;
     engine_error := fun _ => None; reject_text := ex_reject_text;
     coord_in := ex_coord_in; tie_rank := fun _ => 0 |}.

(** Read-only statements fail. *)
Definition ex_world_query_fails : World :=
  {| environ := environ ex_world; health := health ex_world;
     vault_read_error := None; vault_write_error := None;
     db_unreachable := None;
     db_fault := fun st =>
       match st with
       | StQuery => Some (PyException "relation annotations does not exist")
       | _ => None
       end;
     serial_burn := true; schema_sql := schema_sql ex_world;
     labels_csv := labels_csv ex_world;
     engine_error := fun _ => None; reject_text := ex_reject_text;
     coord_in := ex_coord_in; tie_rank := fun _ => 0 |}.

(** Vault is unhealthy twice, then the health request raises. *)
Definition ex_world_health_raises : World :=
  {| environ := environ ex_world;
     health := fun j => if (j <? 2)%nat then Unhealthy else HealthError "Connection refused";
     vault_read_error := None; vault_write_error := None;
     db_unreachable := None; db_fault := db_fault ex_world;
     serial_burn := true; schema_sql := schema_sql ex_world;
     labels_csv := labels_csv ex_world;
     engine_error := fun _ => None; reject_text := ex_reject_text;
     coord_in := ex_coord_in; tie_rank := fun _ => 0 |}.

(** The CSV has a header and no rows; every insert of annotations would
    fail. *)
Definition ex_world_empty_csv : World :=
  {| environ := environ ex_world; health := health ex_world;
     vault_read_error := None; vault_write_error := None;
     db_unreachable := None;
     db_fault := fun st =>
       match st with
       | StLoad _ => Some (PyException "permission denied for table annotations")
       | _ => None
       end;
     serial_burn := true; schema_sql := schema_sql ex_world;
     labels_csv := Some (CsvRows []);
     engine_error := fun _ => None; reject_text := ex_reject_text;
     coord_in := ex_coord_in; tie_rank := fun _ => 0 |}.

(** DB_HOST carries a port of its own, so that the URL has two and
    [create_engine] cannot read the port. *)
Definition ex_world_bad_host : World :=
  {| environ := {[ "DB_HOST" := "db:5432" ]}; health := health ex_world;
     vault_read_error := None; vault_write_error := None;
     db_unreachable := None; db_fault := db_fault ex_world;
     serial_burn := true; schema_sql := schema_sql ex_world;
     labels_csv := labels_csv ex_world;
     engine_error := fun url =>
       if String.eqb url "postgresql://cryoet_user:s3cret@db:5432:5432/cryoet"
       then Some "invalid literal for int() with base 10: '5432:5432'" else None;
     reject_text := ex_reject_text;
     coord_in := ex_coord_in; tie_rank := fun _ => 0 |}.

Definition ex_quote : string := String (Ascii.ascii_of_nat 34) EmptyString.

(** The CSV has the columns tomo_id and x only. *)
Definition ex_world_no_coords : World :=
  {| environ := environ ex_world; health := health ex_world;
     vault_read_error := None; vault_write_error := None;
     db_unreachable := None; db_fault := db_fault ex_world;
     serial_burn := true; schema_sql := schema_sql ex_world;
     labels_csv :=
       Some (CsvNoCoords [CStr "TS_1"; CStr "TS_2"; CStr "TS_1"]
               (ex_quote +:+ "['y', 'z'] not in index" +:+ ex_quote));
     engine_error := fun _ => None; reject_text := ex_reject_text;
     coord_in := ex_coord_in; tie_rank := fun _ => 0 |}.


(** The secret store holds a document without the database name. *)
Definition ex_partial : state :=
  {| st_vault := {[ "cryoet" := <["POSTGRES_PASSWORD" := "s3cret"]>
                                  {[ "POSTGRES_USER" := "cryoet_user" ]} ]};
     st_db := empty_db; st_trace := [] |}.

(** [DATA_DIR / Path(p).with_suffix('.npy')] for a relative path that ends
    in ".mrc" or has no suffix; the empty path has no name to give a suffix
    to. *)
Definition ex_npy_path (p : string) : string + string :=
  let n := String.length p in
  if String.eqb p "" then inr "PosixPath('.') has an empty name"
  else if String.eqb (String.substring (n - 4) 4 p) ".mrc"
       then inl (Visualize.DATA_DIR +:+ "/" +:+ String.substring 0 (n - 4) p +:+ ".npy")
       else inl (Visualize.DATA_DIR +:+ "/" +:+ p +:+ ".npy").

(** Every volume is there as an array of the given shape, and nothing
    fails. *)
Definition ex_files (shape : list nat) : Visualize.Files :=
  {| Visualize.npy_path := ex_npy_path;
     Visualize.np_load := fun _ => Visualize.VolArray shape;
     Visualize.plot_error := None;
     Visualize.mkdir_error := None;
     Visualize.savefig_error := None |}.

(** No volume file is there. *)
Definition ex_files_missing : Visualize.Files :=
  {| Visualize.npy_path := ex_npy_path;
     Visualize.np_load := fun _ => Visualize.VolMissing;
     Visualize.plot_error := None;
     Visualize.mkdir_error := None;
     Visualize.savefig_error := None |}.
(** * Verification *)

(** ** Reading final states *)

Lemma emit_emits e s : emit e s = emits [e] s.
Proof. reflexivity. Qed.

Lemma emits_emits es1 es2 s : emits es2 (emits es1 s) = emits (es1 ++ es2) s.
Proof. unfold emits; simpl. by rewrite <- app_assoc. Qed.

Lemma emits_nil s : emits [] s = s.
Proof. destruct s; unfold emits; simpl. by rewrite app_nil_r. Qed.

Lemma set_db_emits d es s : set_db d (emits es s) = emits es (set_db d s).
Proof. reflexivity. Qed.

Lemma set_vault_emits v es s : set_vault v (emits es s) = emits es (set_vault v s).
Proof. reflexivity. Qed.

Lemma set_db_id s : set_db (st_db s) s = s.
Proof. by destruct s. Qed.

(** Brings a state expression to the form [emits es (set_... s)]. *)
Ltac norm_state :=
  rewrite ?emit_emits, ?set_db_emits, ?set_vault_emits, ?emits_emits; simpl app.

(** ** Stepping through a computation *)

Lemma bind_Ret {A B} (m : M A) (k : A -> M B) s a s1 :
  m s = (Ret a, s1) -> bind m k s = k a s1.
Proof. unfold bind. by intros ->. Qed.

Lemma bind_Raise {A B} (m : M A) (k : A -> M B) s e s1 :
  m s = (Raise e, s1) -> bind m k s = (Raise e, s1).
Proof. unfold bind. by intros ->. Qed.

Lemma bind_SysExit {A B} (m : M A) (k : A -> M B) s c s1 :
  m s = (SysExit c, s1) -> bind m k s = (SysExit c, s1).
Proof. unfold bind. by intros ->. Qed.

Lemma try_Ret {A} (m : M A) h s a s1 :
  m s = (Ret a, s1) -> try_except m h s = (Ret a, s1).
Proof. unfold try_except. by intros ->. Qed.

Lemma try_Raise {A} (m : M A) h s e s1 :
  m s = (Raise e, s1) -> try_except m h s = h e s1.
Proof. unfold try_except. by intros ->. Qed.

Lemma try_SysExit {A} (m : M A) h s c s1 :
  m s = (SysExit c, s1) -> try_except m h s = (SysExit c, s1).
Proof. unfold try_except. by intros ->. Qed.

(** ** The readiness loop *)

Lemma wait_ready_from (w : World) (n i k : nat) (s : state) :
  k < n ->
  (forall j, j < k -> health w (i + j) = Unhealthy) ->
  health w (i + k) = Healthy ->
  wait_for_vault w n i s = (Ret tt, emits (failed_polls i k ++ [EHealth]) s).
Proof.
  revert i k s. induction n as [|n IH]; intros i k s Hk Hbad Hok; [lia|].
  destruct k as [|k].
  - rewrite Nat.add_0_r in Hok.
    simpl. unfold bind, read_health_status, tell. by rewrite Hok.
  - pose proof (Hbad 0 ltac:(lia)) as H0. rewrite Nat.add_0_r in H0.
    cbn [wait_for_vault failed_polls].
    unfold bind at 1. unfold read_health_status, bind at 1, tell. rewrite H0.
    cbn [ret]. erewrite bind_Ret by reflexivity. erewrite bind_Ret by reflexivity.
    rewrite (IH (S i) k).
    + by norm_state.
    + lia.
    + intros j Hj. replace (S i + j) with (i + S j) by lia. apply Hbad. lia.
    + by replace (S i + k) with (i + S k) by lia.
Qed.

Lemma wait_unavailable_from (w : World) (n i : nat) (s : state) :
  (forall j, j < n -> health w (i + j) = Unhealthy) ->
  wait_for_vault w n i s
  = (Raise (PyException "Vault is not available."), emits (failed_polls i n) s).
Proof.
  revert i s. induction n as [|n IH]; intros i s Hbad.
  - simpl. by rewrite emits_nil.
  - pose proof (Hbad 0 ltac:(lia)) as H0. rewrite Nat.add_0_r in H0.
    cbn [wait_for_vault failed_polls].
    unfold bind at 1. unfold read_health_status, bind at 1, tell. rewrite H0.
    cbn [ret]. erewrite bind_Ret by reflexivity. erewrite bind_Ret by reflexivity.
    rewrite (IH (S i)).
    + by norm_state.
    + intros j Hj. replace (S i + j) with (i + S j) by lia. apply Hbad. lia.
Qed.

Lemma wait_ready (w : World) (k : nat) (s : state) :
  vault_ready w k ->
  wait_for_vault w 5 0 s = (Ret tt, emits (failed_polls 0 k ++ [EHealth]) s).
Proof. intros (Hk & Hbad & Hok). by apply wait_ready_from. Qed.

Lemma etl_program_start (w : World) (s : state) :
  Etl.program w s = try_except (Etl.main_try w) Etl.main_except (emits etl_start s).
Proof.
  unfold Etl.program, Etl.main.
  do 3 (erewrite bind_Ret by reflexivity). by norm_state.
Qed.

(** C7. The readiness loop polls the health endpoint once per attempt and
    sleeps 2 after each unhealthy answer; it stops at the first healthy
    answer; after five unhealthy answers in a row it raises "Vault is not
    available.", which ends the ETL process with status 1 before any
    database event. *)
Theorem C7_readiness_gate (w : World) (s : state) :
  (forall k, vault_ready w k ->
     wait_for_vault w 5 0 s = (Ret tt, emits (failed_polls 0 k ++ [EHealth]) s))
  /\ ((forall j, j < 5 -> health w j = Unhealthy) ->
      wait_for_vault w 5 0 s
      = (Raise (PyException "Vault is not available."), emits (failed_polls 0 5) s)
      /\ exists es,
          Etl.program w s = (SysExit 1, emits es s)
          /\ count_events is_health es = 5
          /\ count_events (is_sleep 2) es = 5
          /\ count_events is_any_sleep es = 5
          /\ forallb (fun e => negb (is_db_event e)) es = true).
Proof.
  split.
  - intros k Hk. by apply wait_ready.
  - intros Hbad.
    assert (Hw : forall s0, wait_for_vault w 5 0 s0
      = (Raise (PyException "Vault is not available."), emits (failed_polls 0 5) s0)).
    { intros s0. apply wait_unavailable_from. intros j Hj. by apply Hbad. }
    split; [apply Hw|].
    eexists. split.
    + rewrite etl_program_start.
      erewrite try_Raise.
      2:{ unfold Etl.main_try. erewrite bind_Raise by apply Hw. reflexivity. }
      unfold Etl.main_except. erewrite bind_Ret by reflexivity. unfold sys_exit.
      norm_state. reflexivity.
    + by vm_compute.
Qed.

Lemma failed_polls_no_db (i k : nat) :
  existsb is_db_event (failed_polls i k) = false.
Proof. revert i. induction k as [|k IH]; intros i; simpl; [done|apply IH]. Qed.

(** ** Credentials *)

(** A read that finds the document returns it, and that is all it does. *)
Lemma read_found (w : World) (s : state) (doc : gmap string string) :
  vault_read_error w = None ->
  st_vault s !! Etl.SECRET_PATH = Some doc ->
  Etl.get_db_credentials_from_vault w s = (Ret doc, emits [EVaultRead "cryoet"] s).
Proof.
  intros Hread Hdoc.
  unfold Etl.get_db_credentials_from_vault, try_except, read_secret_version, bind, tell.
  rewrite Hread. simpl. rewrite Hdoc. reflexivity.
Qed.

(** C5. When the Credential Document exists at the fixed path and the read
    does not fail, [get_db_credentials_from_vault] returns that document and
    its only effect is the read itself: whatever the environment holds, no
    first-run variable is read and nothing is written to the secret
    store. *)
Theorem C5_found_short_circuits (w : World) (s : state) (doc : gmap string string) :
  vault_read_error w = None ->
  st_vault s !! Etl.SECRET_PATH = Some doc ->
  Etl.get_db_credentials_from_vault w s = (Ret doc, emits [EVaultRead "cryoet"] s).
Proof.
  intros Hread Hdoc.
  unfold Etl.get_db_credentials_from_vault, try_except, read_secret_version, bind, tell.
  rewrite Hread. simpl. rewrite Hdoc. reflexivity.
Qed.

(** The read of a missing document raises [InvalidPath]. *)
Lemma read_not_found (w : World) (s : state) (path : string) :
  vault_read_error w = None ->
  st_vault s !! path = None ->
  read_secret_version w path s = (Raise (InvalidPath path), emits [EVaultRead path] s).
Proof.
  intros Hread Hdoc. unfold read_secret_version, bind, tell.
  rewrite Hread. simpl. by rewrite Hdoc.
Qed.

Lemma first_run_incomplete (w : World) (s : state) :
  all (first_run_values w) = false ->
  Etl.first_run_init w s
  = (SysExit 1, emits (first_run_reads ++ [ELog ERROR Etl.MSG_FIRST_RUN_ENV]) s).
Proof.
  intros Hall. unfold Etl.first_run_init.
  do 2 (erewrite bind_Ret by reflexivity).
  do 3 (erewrite bind_Ret by reflexivity).
  unfold first_run_values in Hall. rewrite Hall. cbn [negb].
  erewrite bind_SysExit; [|erewrite bind_Ret by reflexivity; reflexivity].
  by norm_state.
Qed.

Lemma first_run_seeds (w : World) (s : state) :
  all (first_run_values w) = true ->
  vault_write_error w = None ->
  let doc := Etl.first_run_secret (environ w !! "POSTGRES_USER")
               (environ w !! "POSTGRES_PASSWORD") (environ w !! "POSTGRES_DB") in
  Etl.first_run_init w s
  = (SysExit 0,
     emits (first_run_reads ++
            [EVaultWrite "cryoet" doc;
             ELog INFO "Secrets successfully written to Vault. Please re-run the command."])
       (set_vault (<["cryoet" := doc]> (st_vault s)) s)).
Proof.
  intros Hall Hwrite doc. unfold Etl.first_run_init.
  do 2 (erewrite bind_Ret by reflexivity).
  do 3 (erewrite bind_Ret by reflexivity).
  unfold first_run_values in Hall. rewrite Hall. cbn [negb].
  erewrite bind_Ret by reflexivity.
  erewrite try_SysExit.
  2:{ erewrite bind_Ret.
      2:{ unfold create_or_update_secret. erewrite bind_Ret by reflexivity.
          rewrite Hwrite. reflexivity. }
      erewrite bind_Ret by reflexivity. reflexivity. }
  by norm_state.
Qed.

Lemma all_false_of_absent (w : World) :
  environ w !! "POSTGRES_USER" = None \/
  environ w !! "POSTGRES_PASSWORD" = None \/
  environ w !! "POSTGRES_DB" = None ->
  all (first_run_values w) = false.
Proof.
  unfold all, first_run_values. simpl.
  intros [-> | [-> | ->]]; simpl; rewrite ?andb_false_r; done.
Qed.

Lemma all_true_of_nonempty (w : World) (u p d : string) :
  environ w !! "POSTGRES_USER" = Some u ->
  environ w !! "POSTGRES_PASSWORD" = Some p ->
  environ w !! "POSTGRES_DB" = Some d ->
  u <> "" -> p <> "" -> d <> "" ->
  all (first_run_values w) = true.
Proof.
  intros Eu Ep Ed Hu Hp Hd. unfold all, first_run_values. rewrite Eu, Ep, Ed. simpl.
  apply String.eqb_neq in Hu, Hp, Hd. by rewrite Hu, Hp, Hd.
Qed.

(** C6. On a first run (the secret is not found), when any of
    POSTGRES_USER, POSTGRES_PASSWORD, POSTGRES_DB is absent from the
    environment, [get_db_credentials_from_vault] logs the fatal message that
    names the three first-run variables and exits with status 1; no write to
    the secret store is attempted, and the process ends with status 1. *)
Theorem C6_missing_first_run_config (w : World) (s : state) (k : nat) :
  vault_read_error w = None ->
  st_vault s !! Etl.SECRET_PATH = None ->
  environ w !! "POSTGRES_USER" = None \/
  environ w !! "POSTGRES_PASSWORD" = None \/
  environ w !! "POSTGRES_DB" = None ->
  let es :=
    ([EVaultRead "cryoet"] ++ first_run_reads ++ [ELog ERROR Etl.MSG_FIRST_RUN_ENV])%list in
  Etl.get_db_credentials_from_vault w s = (SysExit 1, emits es s)
  /\ forallb (fun e => match e with EVaultWrite _ _ => false | _ => true end) es = true
  /\ mentions "FATAL" Etl.MSG_FIRST_RUN_ENV = true
  /\ mentions "POSTGRES_USER" Etl.MSG_FIRST_RUN_ENV = true
  /\ mentions "POSTGRES_PASSWORD" Etl.MSG_FIRST_RUN_ENV = true
  /\ mentions "POSTGRES_DB" Etl.MSG_FIRST_RUN_ENV = true
  /\ (vault_ready w k ->
      Etl.program w s
      = (SysExit 1, emits (etl_start ++ failed_polls 0 k ++ [EHealth] ++ es) s)
      /\ Etl.exit_status (Etl.program w s).1 <> 0%Z).
Proof.
  intros Hread Hdoc Habsent es.
  assert (Hcred : forall s0, st_vault s0 !! Etl.SECRET_PATH = None ->
            Etl.get_db_credentials_from_vault w s0 = (SysExit 1, emits es s0)).
  { intros s0 H0. unfold Etl.get_db_credentials_from_vault.
    erewrite try_Raise by (by apply read_not_found). cbn beta iota.
    rewrite first_run_incomplete by (by apply all_false_of_absent).
    by norm_state. }
  split; [by apply Hcred|].
  do 5 (split; [by vm_compute|]).
  intros Hk.
  assert (Hp : Etl.program w s
    = (SysExit 1, emits (etl_start ++ failed_polls 0 k ++ [EHealth] ++ es) s)).
  { rewrite etl_program_start.
    erewrite try_SysExit.
    2:{ unfold Etl.main_try. erewrite bind_Ret by (by apply wait_ready).
        erewrite bind_SysExit by (by apply Hcred). reflexivity. }
    norm_state. by rewrite <- !app_assoc. }
  split; [exact Hp|]. rewrite Hp. simpl. lia.
Qed.

Lemma first_run_write_fails (w : World) (s : state) (msg : string) :
  all (first_run_values w) = true ->
  vault_write_error w = Some msg ->
  let doc := Etl.first_run_secret (environ w !! "POSTGRES_USER")
               (environ w !! "POSTGRES_PASSWORD") (environ w !! "POSTGRES_DB") in
  Etl.first_run_init w s
  = (SysExit 1,
     emits (first_run_reads ++
            [EVaultWrite "cryoet" doc;
             ELog ERROR ("FATAL: Could not write secrets to Vault: " +:+ msg)]) s).
Proof.
  intros Hall Hwrite doc. unfold Etl.first_run_init.
  do 2 (erewrite bind_Ret by reflexivity).
  do 3 (erewrite bind_Ret by reflexivity).
  unfold first_run_values in Hall. rewrite Hall. cbn [negb].
  erewrite bind_Ret by reflexivity.
  erewrite try_Raise.
  2:{ erewrite bind_Raise; [reflexivity|].
      unfold create_or_update_secret. erewrite bind_Ret by reflexivity.
      rewrite Hwrite. reflexivity. }
  erewrite bind_Ret by reflexivity. unfold sys_exit.
  by norm_state.
Qed.

(** On a first run the ETL bootstrapper always reads the first-run
    variables. *)
Lemma etl_first_run_reads_env (w : World) (s : state) :
  vault_read_error w = None ->
  st_vault s !! Etl.SECRET_PATH = None ->
  exists c es v,
    Etl.get_db_credentials_from_vault w s = (SysExit c, emits es (set_vault v s))
    /\ existsb is_first_run_event es = true.
Proof.
  intros Hread Hdoc. unfold Etl.get_db_credentials_from_vault.
  erewrite try_Raise by (by apply read_not_found). cbn beta iota.
  destruct (all (first_run_values w)) eqn:Hall.
  - destruct (vault_write_error w) as [msg|] eqn:Hwrite.
    + rewrite (first_run_write_fails _ _ msg) by done.
      eexists 1%Z, _, (st_vault s). norm_state. split; [reflexivity|done].
    + rewrite first_run_seeds by done.
      eexists 0%Z, _, _. norm_state. split; [reflexivity|done].
  - rewrite first_run_incomplete by done.
    eexists 1%Z, _, (st_vault s). norm_state. split; [reflexivity|done].
Qed.

(** C10. In the query tool a Credential Document that is not found is
    fatal: [get_db_credentials_from_vault] logs and exits with status 1
    right after the read, so it reads no first-run variable and writes
    nothing to the secret store, and the process ends with status 1 before
    any database event; the ETL bootstrapper, in the same situation, does
    read the first-run variables. *)
Theorem C10_query_not_found_is_fatal (w : World) (s : state) (k : nat)
    (argv : Query.cli) :
  vault_read_error w = None ->
  st_vault s !! Query.SECRET_PATH = None ->
  let es :=
    [EVaultRead "cryoet";
     ELog ERROR "FATAL: Secrets not found in Vault. Please run the ETL script first to initialize them."] in
  Query.get_db_credentials_from_vault w s = (SysExit 1, emits es s)
  /\ existsb is_first_run_event es = false
  /\ (vault_ready w k ->
      Query.program w argv s
      = (SysExit 1,
         emits ([EGetenv "VAULT_ADDR"; EGetenv "VAULT_TOKEN"] ++
                failed_polls 0 k ++ [EHealth] ++ es) s))
  /\ (exists c es' v,
        Etl.get_db_credentials_from_vault w s = (SysExit c, emits es' (set_vault v s))
        /\ existsb is_first_run_event es' = true).
Proof.
  intros Hread Hdoc es.
  assert (Hcred : forall s0, st_vault s0 !! Query.SECRET_PATH = None ->
            Query.get_db_credentials_from_vault w s0 = (SysExit 1, emits es s0)).
  { intros s0 H0. unfold Query.get_db_credentials_from_vault.
    erewrite try_Raise by (by apply read_not_found). cbn beta iota.
    erewrite bind_Ret by reflexivity. unfold sys_exit. by norm_state. }
  split; [by apply Hcred|]. split; [done|]. split; [|by apply etl_first_run_reads_env].
  intros Hk. unfold Query.program, Query.module_init.
  erewrite bind_SysExit; [reflexivity|].
  do 2 (erewrite bind_Ret by reflexivity).
  erewrite try_SysExit.
  2:{ erewrite bind_Ret by (by apply wait_ready).
      erewrite bind_SysExit by (by apply Hcred). reflexivity. }
  norm_state. by rewrite <- !app_assoc.
Qed.

(** ** Dimension synchronisation *)

Section Dimension.

Import Etl.

(** Only a string is the same key as a string. *)
Lemma same_key_str (n : string) (c : cell) : same_key (CStr n) c = true -> c = CStr n.
Proof. destruct c; simpl; try done. by intros ->%String.eqb_eq. Qed.

Lemma same_key_str_refl (n : string) : same_key (CStr n) (CStr n) = true.
Proof. simpl. apply String.eqb_refl. Qed.

Lemma elem_of_unique_from (seen l : list cell) (x : cell) :
  x ∈ unique_from seen l -> x ∈ l.
Proof.
  revert seen. induction l as [|y l IH]; intros seen; simpl; [done|].
  destruct (existsb (same_key y) seen).
  - intros H%IH. by right.
  - intros [->|H%IH]%elem_of_cons; [by left|by right].
Qed.

Lemma elem_of_unique (l : list cell) (x : cell) : x ∈ unique l -> x ∈ l.
Proof. apply elem_of_unique_from. Qed.

(** A string of the column is one of its distinct values. *)
Lemma str_elem_of_unique_from (seen l : list cell) (n : string) :
  CStr n ∈ l -> existsb (same_key (CStr n)) seen = false ->
  CStr n ∈ unique_from seen l.
Proof.
  revert seen. induction l as [|y l IH]; intros seen; simpl; [by intros ?%elem_of_nil|].
  intros Hin Hseen. destruct (decide (y = CStr n)) as [->|Hne].
  - rewrite Hseen. by left.
  - assert (Hl : CStr n ∈ l).
    { apply elem_of_cons in Hin as [Heq|Hl]; [by destruct Hne|done]. }
    destruct (existsb (same_key y) seen); [by apply IH|].
    right. apply IH; [done|]. simpl. rewrite Hseen, orb_false_r.
    destruct (same_key (CStr n) y) eqn:E; [|done].
    by apply same_key_str in E.
Qed.

Lemma str_elem_of_unique (l : list cell) (n : string) :
  CStr n ∈ l -> CStr n ∈ unique l.
Proof. intros H. by apply str_elem_of_unique_from. Qed.





Lemma elem_of_named_rows (rows : list (cell * string)) (n path : string) :
  (n, path) ∈ named_rows rows <->
  exists k, (k, path) ∈ rows /\ db_text k = Some n.
Proof.
  unfold named_rows. rewrite list_elem_of_omap. split.
  - intros ([k p] & Hin & H). simpl in H.
    destruct (db_text k) as [n'|] eqn:E; [|done]. injection H as <- <-. by exists k.
  - intros (k & Hin & Hk). exists (k, path). split; [done|]. simpl. by rewrite Hk.
Qed.

Lemma insert_tomogram_known (burn : bool) (db : database) (row : string * string) :
  row.1 ∈ names db -> tomograms (insert_tomogram burn db row) = tomograms db.
Proof. intros Hin. unfold insert_tomogram. by rewrite decide_True. Qed.

Lemma insert_tomogram_others (burn : bool) (db : database) (row : string * string) :
  annotations (insert_tomogram burn db row) = annotations db
  /\ annotations_seq (insert_tomogram burn db row) = annotations_seq db
  /\ temp_tomograms (insert_tomogram burn db row) = temp_tomograms db
  /\ schema_log (insert_tomogram burn db row) = schema_log db.
Proof. unfold insert_tomogram. by case_decide. Qed.

Lemma insert_tomogram_seq (burn : bool) (db : database) (row : string * string) :
  tomograms_seq db <= tomograms_seq (insert_tomogram burn db row).
Proof. unfold insert_tomogram. case_decide; [destruct burn|]; simpl; lia. Qed.

(** The merge appends rows under fresh names and afterwards knows every
    staged name; it alters no row that was there. *)
Lemma merge_fold_extends (burn : bool) (rows : list (string * string)) (db : database) :
  exists new,
    tomograms (foldl (insert_tomogram burn) db rows) = tomograms db ++ new
    /\ fresh_rows (tomograms db) new
    /\ (forall r, r ∈ rows -> r.1 ∈ names (foldl (insert_tomogram burn) db rows)).
Proof.
  revert db. induction rows as [|row rows IH]; intros db; simpl.
  - exists []. rewrite app_nil_r. split; [done|]. split.
    + by intros t ?%elem_of_nil.
    + by intros r ?%elem_of_nil.
  - destruct (IH (insert_tomogram burn db row)) as (new & Heq & Hfresh & Hall).
    assert (Hmono : forall n, n ∈ names (insert_tomogram burn db row) ->
                      n ∈ names (foldl (insert_tomogram burn) (insert_tomogram burn db row) rows)).
    { intros n Hn. unfold names. rewrite Heq, fmap_app, elem_of_app. by left. }
    destruct (decide (row.1 ∈ names db)) as [Hin|Hnin].
    + rewrite insert_tomogram_known in Heq, Hfresh by done.
      exists new. split; [done|]. split; [done|].
      intros r [->|Hr]%elem_of_cons; [|by apply Hall].
      apply Hmono. unfold names. by rewrite insert_tomogram_known.
    + assert (Hins : tomograms (insert_tomogram burn db row)
                     = tomograms db ++
                       [{| tomo_id := S (tomograms_seq db); tomo_name := row.1;
                           raw_volume_path := row.2 |}]).
      { unfold insert_tomogram. by rewrite decide_False. }
      rewrite Hins in Heq, Hfresh. rewrite <- app_assoc in Heq.
      eexists. split; [exact Heq|]. split.
      * intros t [->%list_elem_of_singleton|Ht]%elem_of_app; [done|].
        intros Hold. apply (Hfresh t Ht). rewrite fmap_app, elem_of_app. by left.
      * intros r [->|Hr]%elem_of_cons; [|by apply Hall].
        apply Hmono. unfold names. rewrite Hins, fmap_app, elem_of_app.
        right. simpl. apply list_elem_of_singleton. done.
Qed.

Lemma merge_fold_others (burn : bool) (rows : list (string * string)) (db : database) :
  annotations (foldl (insert_tomogram burn) db rows) = annotations db
  /\ annotations_seq (foldl (insert_tomogram burn) db rows) = annotations_seq db
  /\ temp_tomograms (foldl (insert_tomogram burn) db rows) = temp_tomograms db
  /\ schema_log (foldl (insert_tomogram burn) db rows) = schema_log db.
Proof.
  revert db. induction rows as [|row rows IH]; intros db; simpl; [done|].
  destruct (IH (insert_tomogram burn db row)) as (-> & -> & -> & ->).
  apply insert_tomogram_others.
Qed.

Lemma merge_fold_seq (burn : bool) (rows : list (string * string)) (db : database) :
  tomograms_seq db <= tomograms_seq (foldl (insert_tomogram burn) db rows).
Proof.
  revert db. induction rows as [|row rows IH]; intros db; simpl; [done|].
  etrans; [apply (insert_tomogram_seq burn db row)|apply IH].
Qed.

(** Re-inserting names that are all present changes no row. *)
Lemma merge_fold_noop (burn : bool) (rows : list (string * string)) (db : database) :
  (forall r, r ∈ rows -> r.1 ∈ names db) ->
  tomograms (foldl (insert_tomogram burn) db rows) = tomograms db.
Proof.
  revert db. induction rows as [|row rows IH]; intros db Hall; simpl; [done|].
  assert (Hrow : row.1 ∈ names db) by (apply Hall; left).
  rewrite IH.
  - by apply insert_tomogram_known.
  - intros r Hr. unfold names. rewrite insert_tomogram_known by done.
    apply Hall. by right.
Qed.

(** A merge that ran to its end met no NULL key and inserted the staged
    rows one after the other. *)
Lemma merge_rows_true (burn : bool) (rows : list (cell * string)) (db db' : database) :
  merge_rows burn rows db = (db', true) ->
  db' = foldl (insert_tomogram burn) db (named_rows rows)
  /\ Forall (fun row => is_Some (db_text row.1)) rows.
Proof.
  revert db. induction rows as [|[k p] rows IH]; intros db; simpl.
  - intros [= <-]. by split.
  - unfold named_rows. simpl. destruct (db_text k) as [n|] eqn:E; simpl; [|done].
    intros [-> Hall]%IH. split; [done|]. constructor; [|done]. simpl. rewrite E. by eexists.
Qed.

Lemma merge_rows_ok (burn : bool) (rows : list (cell * string)) (db : database) :
  Forall (fun row => is_Some (db_text row.1)) rows ->
  merge_rows burn rows db = (foldl (insert_tomogram burn) db (named_rows rows), true).
Proof.
  revert db. induction rows as [|[k p] rows IH]; intros db Hall; simpl; [done|].
  apply Forall_cons in Hall as [[n Hn] Hall]. simpl in Hn.
  unfold named_rows. simpl. rewrite Hn. simpl. by apply IH.
Qed.

(** However the merge ends, the rows it leaves are the old ones followed
    by new ones, and the sequence has not gone back. *)
Lemma merge_rows_seq (burn : bool) (rows : list (cell * string)) (db : database) :
  tomograms_seq db <= tomograms_seq (merge_rows burn rows db).1.
Proof.
  revert db. induction rows as [|[k p] rows IH]; intros db; simpl; [done|].
  destruct (db_text k); simpl; [|lia].
  etrans; [apply (insert_tomogram_seq burn db)|apply IH].
Qed.

(** The mapping read back after the merge. *)
Lemma dict_zip_fold_lookup (pairs : list (string * nat)) (m : gmap string nat)
    (n : string) (v : nat) :
  foldl (fun m kv => <[kv.1 := kv.2]> m) m pairs !! n = Some v ->
  m !! n = Some v \/ (n, v) ∈ pairs.
Proof.
  revert m. induction pairs as [|[n' v'] pairs IH]; intros m; simpl; [by left|].
  intros [H|H]%IH; [|right; by right].
  destruct (decide (n' = n)) as [->|Hne].
  - rewrite lookup_insert_eq in H. injection H as ->. right. by left.
  - rewrite lookup_insert_ne in H by done. by left.
Qed.

Lemma dict_zip_fold_is_Some (pairs : list (string * nat)) (m : gmap string nat)
    (n : string) :
  is_Some (m !! n) \/ n ∈ pairs.*1 ->
  is_Some (foldl (fun m kv => <[kv.1 := kv.2]> m) m pairs !! n).
Proof.
  revert m. induction pairs as [|[n' v'] pairs IH]; intros m; simpl.
  - intros [H|H%elem_of_nil]; done.
  - intros [H|[->|H]%elem_of_cons]; apply IH.
    + left. destruct (decide (n' = n)) as [->|Hne].
      * rewrite lookup_insert_eq. by eexists.
      * by rewrite lookup_insert_ne.
    + left. simpl. rewrite lookup_insert_eq. by eexists.
    + by right.
Qed.

(** A name of the table is mapped, and only to the id of a row of the
    table under that name. *)
Lemma tomo_map_lookup (db : database) (n : string) :
  n ∈ names db ->
  exists t, t ∈ tomograms db /\ tomo_name t = n /\ tomo_map db !! n = Some (tomo_id t).
Proof.
  intros Hn. unfold tomo_map, dict_zip.
  destruct (dict_zip_fold_is_Some
              ((fun t => (tomo_name t, tomo_id t)) <$> tomograms db) ∅ n) as [v Hv].
  { right. rewrite <- list_fmap_compose. exact Hn. }
  destruct (dict_zip_fold_lookup _ _ _ _ Hv) as [H|H]; [by rewrite lookup_empty in H|].
  apply list_elem_of_fmap in H as (t & Heq & Ht).
  exists t. split; [done|]. rewrite Hv. by injection Heq as -> ->.
Qed.

(** The mapping knows nothing but the names of the table. *)
Lemma tomo_map_Some (db : database) (n : string) (id : nat) :
  tomo_map db !! n = Some id ->
  exists t, t ∈ tomograms db /\ tomo_name t = n /\ tomo_id t = id.
Proof.
  unfold tomo_map, dict_zip. intros Hv.
  destruct (dict_zip_fold_lookup _ _ _ _ Hv) as [H|H]; [by rewrite lookup_empty in H|].
  apply list_elem_of_fmap in H as (t & Heq & Ht).
  exists t. by injection Heq as -> ->.
Qed.

End Dimension.

(** ** Fact replacement *)

Section Facts.

Import Etl.

(** An INSERT that the database took added one row per record, in order,
    under consecutive ids, and touched nothing else. *)
Lemma insert_annotations_spec (w : World) (rows : list fact) (db db' : database) :
  insert_annotations w rows db = Some db' ->
  exists ps,
    stored_facts w rows = Some ps
    /\ annotations db'
       = annotations db ++ imap (fun i r => fact_row (S (annotations_seq db + i)) r) ps
    /\ annotations_seq db' = annotations_seq db + length rows
    /\ tomograms db' = tomograms db
    /\ tomograms_seq db' = tomograms_seq db
    /\ temp_tomograms db' = temp_tomograms db
    /\ schema_log db' = schema_log db.
Proof.
  unfold stored_facts. revert db. induction rows as [|r rows IH]; intros db; simpl.
  - intros [= <-]. exists []. rewrite app_nil_r. repeat split; try done; lia.
  - destruct (stored w r) as [p|] eqn:E; [|done]. cbn -[fact_row].
    intros (ps & -> & -> & -> & -> & -> & -> & ->)%IH. cbn -[fact_row].
    exists ((r.1.1.1, p) :: ps). split; [done|].
    rewrite <- app_assoc. cbn -[fact_row]. rewrite Nat.add_0_r.
    split; [|repeat split; lia].
    do 2 f_equal. apply imap_ext. intros i x _. cbn -[fact_row]. f_equal. lia.
Qed.

Lemma stored_facts_length (w : World) (rows : list fact) ps :
  stored_facts w rows = Some ps -> length ps = length rows.
Proof.
  unfold stored_facts. intros H. symmetry. by eapply length_mapM.
Qed.

Lemma stored_facts_lookup (w : World) (rows : list fact) ps (i : nat) (r : fact) :
  stored_facts w rows = Some ps -> rows !! i = Some r ->
  exists p, stored w r = Some p /\ ps !! i = Some (r.1.1.1, p).
Proof.
  unfold stored_facts. revert ps i. induction rows as [|r0 rows IH]; intros ps i; [done|].
  cbn. destruct (stored w r0) as [p0|] eqn:E0; [|done]. cbn.
  destruct (mapM _ rows) as [ps0|] eqn:E; [|done]. cbn. intros [= <-].
  destruct i as [|i]; cbn.
  - intros [= <-]. by exists p0.
  - intros Hi. by apply (IH ps0).
Qed.

Lemma insert_annotations_app (w : World) (rows1 rows2 : list fact) (db : database) :
  insert_annotations w (rows1 ++ rows2) db
  = insert_annotations w rows1 db ≫= insert_annotations w rows2.
Proof.
  revert db. induction rows1 as [|r rows1 IH]; intros db; simpl; [done|].
  destruct (stored w r); [apply IH|done].
Qed.

(** The database takes every record of a loadable frame. *)
Lemma insert_annotations_is_Some (w : World) (rows : list fact) (db : database) :
  Forall (fun r => is_Some (stored w r)) rows ->
  is_Some (insert_annotations w rows db).
Proof.
  revert db. induction rows as [|r rows IH]; intros db Hall; simpl; [by eexists|].
  apply Forall_cons in Hall as [[p ->] Hall]. by apply IH.
Qed.

(** The batches, put end to end, are the records. *)
Lemma concat_chunks {A} (fuel size : nat) (l : list A) :
  0 < size -> length l <= fuel -> concat (chunks fuel size l) = l.
Proof.
  intros Hsize. revert l. induction fuel as [|fuel IH]; intros l Hlen; simpl.
  - destruct l; [done|simpl in Hlen; lia].
  - destruct l as [|x l]; [done|].
    rewrite concat_cons, IH, take_drop; [done|].
    rewrite length_drop. simpl in *. lia.
Qed.

Lemma CHUNKSIZE_pos : 0 < CHUNKSIZE.
Proof. unfold CHUNKSIZE. apply Nat.ltb_lt. by vm_compute. Qed.

End Facts.

(** ** Inverting a computation that returned *)

Lemma bind_inv_Ret {A B} (m : M A) (k : A -> M B) s b s' :
  bind m k s = (Ret b, s') ->
  exists a s1, m s = (Ret a, s1) /\ k a s1 = (Ret b, s').
Proof.
  unfold bind. destruct (m s) as [[a|e|c] s1]; [by eauto| |]; intros [=].
Qed.

Lemma tell_inv (e : event) s r s' :
  tell e s = (r, s') -> r = Ret tt /\ s' = emit e s.
Proof. by intros [= <- <-]. Qed.

Lemma execute_inv_Ret (w : World) st q f s a s' :
  execute w st q f s = (Ret a, s') ->
  db_fault w st = None /\ st_db s' = f (st_db s) /\ st_vault s' = st_vault s.
Proof.
  unfold execute. destruct (db_fault w st); intros [=]; subst. done.
Qed.

Lemma execute_ok (w : World) st q f s :
  db_fault w st = None ->
  execute w st q f s = (Ret tt, set_db (f (st_db s)) (emit (ESql q) s)).
Proof. unfold execute. by intros ->. Qed.

Section Transaction.

Import Etl.

Lemma merge_inv_Ret (w : World) s a s' :
  merge w s = (Ret a, s') ->
  st_db s' = foldl (insert_tomogram (serial_burn w)) (st_db s)
               (named_rows (temp_tomograms (st_db s)))
  /\ Forall (fun row => is_Some (db_text row.1)) (temp_tomograms (st_db s))
  /\ st_vault s' = st_vault s.
Proof.
  unfold merge, merge_tomograms. destruct (db_fault w StMerge); [done|]. simpl.
  destruct (merge_rows _ _ _) as [db' []] eqn:E; simpl; intros [=]; subst.
  apply merge_rows_true in E as [-> Hall]. done.
Qed.

Lemma merge_ok (w : World) s :
  db_fault w StMerge = None ->
  Forall (fun row => is_Some (db_text row.1)) (temp_tomograms (st_db s)) ->
  merge w s
  = (Ret tt,
     set_db (foldl (insert_tomogram (serial_burn w)) (st_db s)
               (named_rows (temp_tomograms (st_db s))))
       (emit (ESql SqlMergeTomograms) s)).
Proof.
  intros Hok Hall. unfold merge, merge_tomograms. rewrite Hok. simpl.
  by rewrite merge_rows_ok.
Qed.

Lemma insert_chunk_inv_Ret (w : World) (k : nat) (c : list fact) s a s' :
  insert_chunk w k c s = (Ret a, s') ->
  insert_annotations w c (st_db s) = Some (st_db s') /\ st_vault s' = st_vault s.
Proof.
  unfold insert_chunk. destruct (db_fault w (StLoad k)); [done|]. simpl.
  destruct (insert_annotations w c (st_db s)) as [db|]; intros [=]; subst. done.
Qed.

Lemma insert_chunk_ok (w : World) (k : nat) (c : list fact) s db :
  db_fault w (StLoad k) = None ->
  insert_annotations w c (st_db s) = Some db ->
  insert_chunk w k c s
  = (Ret tt, set_db db (emit (ESql (SqlInsertAnnotations (length c))) s)).
Proof. unfold insert_chunk. intros -> H. simpl. by rewrite H. Qed.

Lemma load_chunks_Ret (w : World) (k : nat) (cs : list (list fact)) s a s' :
  load_chunks w k cs s = (Ret a, s') ->
  insert_annotations w (concat cs) (st_db s) = Some (st_db s')
  /\ st_vault s' = st_vault s.
Proof.
  revert k s. induction cs as [|c cs IH]; intros k s; simpl.
  - by intros [= _ <-].
  - intros (x & s1 & H1 & H2)%bind_inv_Ret.
    apply insert_chunk_inv_Ret in H1 as [Hdb Hv].
    apply IH in H2 as [H2 ->]. rewrite insert_annotations_app, Hdb. simpl. by split.
Qed.

Lemma load_chunks_ok (w : World) (k : nat) (cs : list (list fact)) s :
  (forall j, db_fault w (StLoad j) = None) ->
  Forall (fun r => is_Some (stored w r)) (concat cs) ->
  (load_chunks w k cs s).1 = Ret tt.
Proof.
  intros Hok. revert k s. induction cs as [|c cs IH]; intros k s Hall; simpl; [done|].
  simpl in Hall. apply Forall_app in Hall as [Hc Hcs].
  destruct (insert_annotations_is_Some w c (st_db s) Hc) as [db Hdb].
  erewrite bind_Ret by (by apply insert_chunk_ok). by apply IH.
Qed.

Lemma to_sql_temp_inv_Ret (w : World) rows s a s' :
  to_sql_temp w rows s = (Ret a, s') ->
  st_db s' = stage_temp rows (st_db s) /\ st_vault s' = st_vault s
  /\ Forall (fun row => is_uint64 row.1 = false) rows.
Proof.
  unfold to_sql_temp. destruct (existsb _ rows) eqn:E; [done|].
  intros (_ & ? & ?)%execute_inv_Ret. repeat split; [done..|].
  apply Forall_forall. intros row Hrow. apply not_true_is_false. intros Hu.
  assert (existsb (fun row => is_uint64 row.1) rows = true); [|congruence].
  apply existsb_exists. exists row. split; [by apply list_elem_of_In|done].
Qed.

(** The two ways in which the transaction body returns. *)
Lemma transaction_Ret (w : World) s b s' :
  transaction w s = (Ret b, s') ->
  st_vault s' = st_vault s /\
  exists ddl, schema_sql w = Some ddl /\
    ((b = true /\ labels_csv w = None /\ st_db s' = apply_schema ddl (st_db s))
     \/ (b = false /\ exists rows, labels_csv w = Some (CsvRows rows)
          /\ loaded w ddl rows (st_db s) = Some (st_db s'))).
Proof.
  unfold transaction. intros H.
  apply bind_inv_Ret in H as ([] & s1 & [_ ->]%tell_inv & H).
  apply bind_inv_Ret in H as (ddl & s2 & H2 & H).
  unfold read_schema in H2.
  apply bind_inv_Ret in H2 as ([] & s2' & [_ ->]%tell_inv & H2).
  destruct (schema_sql w) as [ddl'|] eqn:Hddl; [|by inversion H2].
  injection H2 as -> <-.
  apply bind_inv_Ret in H as ([] & s3 & (_ & Hdb3 & Hv3)%execute_inv_Ret & H).
  apply bind_inv_Ret in H as (present & s4 & H4 & H).
  unfold labels_exists in H4.
  apply bind_inv_Ret in H4 as ([] & s4' & [_ ->]%tell_inv & H4).
  injection H4 as <- <-.
  destruct (labels_csv w) as [csv|] eqn:Hcsv; simpl in H.
  - apply bind_inv_Ret in H as (df & s5 & H5 & H).
    unfold read_labels in H5.
    apply bind_inv_Ret in H5 as ([] & s5' & [_ ->]%tell_inv & H5).
    rewrite Hcsv in H5.
    apply bind_inv_Ret in H as (keys & s5k & Hk & H).
    apply bind_inv_Ret in H as ([] & s6 & (Hdb6 & Hv6 & _)%to_sql_temp_inv_Ret & H).
    apply bind_inv_Ret in H as ([] & s7 & (Hdb7 & _ & Hv7)%merge_inv_Ret & H).
    apply bind_inv_Ret in H as ([] & s8 & [_ ->]%tell_inv & H).
    apply bind_inv_Ret in H as (m & s9 & H9 & H).
    unfold read_tomo_map in H9.
    destruct (db_fault w StReadMap); [by inversion H9|].
    injection H9 as <- <-.
    apply bind_inv_Ret in H as (facts & s9f & Hf & H).
    destruct csv as [rows|msg|e|keys' msg];
      [|by inversion H5|injection H5 as <- <-; by inversion Hk
       |injection H5 as <- <-; by inversion Hf].
    injection H5 as <- <-. injection Hk as <- <-. injection Hf as <- <-.
    apply bind_inv_Ret in H as ([] & s10 & [_ ->]%tell_inv & H).
    apply bind_inv_Ret in H as ([] & s11 & (_ & Hdb11 & Hv11)%execute_inv_Ret & H).
    apply bind_inv_Ret in H as ([] & s12 & [_ ->]%tell_inv & H).
    apply bind_inv_Ret in H as ([] & s13 & H13 & H).
    unfold to_sql_annotations in H13.
    destruct (existsb has_uint64 _); [by inversion H13|].
    apply load_chunks_Ret in H13 as [Hdb13 Hv13].
    injection H as <- <-.
    rewrite concat_chunks in Hdb13 by (done || apply CHUNKSIZE_pos).
    simpl in *. split; [congruence|].
    exists ddl. split; [done|]. right. split; [done|]. exists rows. split; [done|].
    unfold loaded, merged. rewrite <- Hdb13, Hdb11, Hdb7, Hdb6, Hdb3. reflexivity.
  - apply bind_inv_Ret in H as ([] & s5 & [_ ->]%tell_inv & H).
    injection H as <- <-. simpl in *. split; [congruence|].
    exists ddl. split; [done|]. left. by rewrite Hdb3.
Qed.



End Transaction.

Section Completes.

Import Etl.

Lemma unique_tomos_in (keys : list cell) (row : cell * string) :
  row ∈ unique_tomos keys -> row.1 ∈ keys /\ row.2 = volume_path row.1.
Proof.
  unfold unique_tomos. intros (k & -> & Hk%elem_of_unique)%list_elem_of_fmap. done.
Qed.

Lemma existsb_false {A} (f : A -> bool) (l : list A) :
  Forall (fun x => f x = false) l -> existsb f l = false.
Proof.
  induction 1 as [|x l Hx _ IH]; simpl; [done|]. by rewrite Hx, IH.
Qed.

Lemma loadable_stored (w : World) (m : gmap string nat) (l : label) :
  loadable w l ->
  is_Some (stored w (map_key m (lbl_tomo_name l), lbl_x l, lbl_y l, lbl_z l))
  /\ has_uint64 (map_key m (lbl_tomo_name l), lbl_x l, lbl_y l, lbl_z l) = false.
Proof.
  intros (_ & _ & [Hux [x Hx]] & [Huy [y Hy]] & [Huz [z Hz]]). split.
  - unfold stored. simpl. rewrite Hx, Hy, Hz. by eexists.
  - unfold has_uint64. simpl. by rewrite Hux, Huy, Huz.
Qed.

(** With the files in place, a frame of loadable rows and a database that
    raises nowhere, the transaction body runs to its end. *)
Lemma transaction_completes (w : World) s ddl rows :
  schema_sql w = Some ddl ->
  labels_csv w = Some (CsvRows rows) ->
  Forall (loadable w) rows ->
  (forall st, db_fault w st = None) ->
  (transaction w s).1 = Ret false.
Proof.
  intros Hddl Hcsv Hrows Hok. unfold transaction.
  erewrite bind_Ret by reflexivity.
  erewrite bind_Ret.
  2:{ unfold read_schema. erewrite bind_Ret by reflexivity. rewrite Hddl. reflexivity. }
  erewrite bind_Ret by (by apply execute_ok).
  erewrite bind_Ret by reflexivity.
  rewrite Hcsv. cbn [negb].
  erewrite bind_Ret.
  2:{ unfold read_labels. erewrite bind_Ret by reflexivity. rewrite Hcsv. reflexivity. }
  erewrite bind_Ret by reflexivity.
  assert (Hkeys : forall row, row ∈ unique_tomos (lbl_tomo_name <$> rows) ->
            is_Some (db_text row.1) /\ is_uint64 row.1 = false).
  { intros row [(l & -> & Hl)%list_elem_of_fmap _]%unique_tomos_in.
    rewrite Forall_forall in Hrows. by destruct (Hrows l Hl) as (? & ? & _). }
  erewrite bind_Ret.
  2:{ unfold to_sql_temp. rewrite existsb_false.
      - by apply execute_ok.
      - apply Forall_forall. intros row Hrow. by apply Hkeys. }
  erewrite bind_Ret.
  2:{ apply merge_ok; [done|]. simpl. apply Forall_forall. intros row Hrow.
      by apply Hkeys. }
  erewrite bind_Ret by reflexivity.
  erewrite bind_Ret by (unfold read_tomo_map; rewrite Hok; reflexivity).
  erewrite bind_Ret by reflexivity.
  erewrite bind_Ret by reflexivity.
  erewrite bind_Ret by (by apply execute_ok).
  erewrite bind_Ret by reflexivity.
  unfold to_sql_annotations.
  match goal with
  | |- context [df_annotations ?m rows] => set (facts := df_annotations m rows)
  end.
  assert (Hfacts : Forall (fun r => is_Some (stored w r) /\ has_uint64 r = false) facts).
  { unfold facts, df_annotations. apply Forall_fmap. eapply Forall_impl; [exact Hrows|].
    intros l Hl. by apply loadable_stored. }
  rewrite existsb_false by (eapply Forall_impl; [exact Hfacts|]; by intros r1 [_ ?]).
  match goal with
  | |- (bind (load_chunks w 0 ?cs) _ ?s0).1 = _ =>
      pose proof (load_chunks_ok w 0 cs s0 (fun j => Hok (StLoad j))) as Hl;
      destruct (load_chunks w 0 cs s0) as [r0 s1] eqn:E
  end.
  simpl in Hl. rewrite Hl in E.
  - erewrite bind_Ret by exact E. reflexivity.
  - rewrite concat_chunks by (done || apply CHUNKSIZE_pos).
    eapply Forall_impl; [exact Hfacts|]. by intros r1 [? _].
Qed.

(** The transaction body when the CSV is missing. *)
Lemma transaction_missing_csv (w : World) s ddl :
  schema_sql w = Some ddl ->
  db_fault w StSchema = None ->
  labels_csv w = None ->
  transaction w s
  = (Ret true,
     emits [ELog INFO "Applying database schema..."; EReadText SQL_SCHEMA_PATH;
            ESql (SqlSchema ddl); EPathExists LABELS_CSV_PATH;
            ELog ERROR "Source data file not found: /app/data/labels.csv. Aborting."]
       (set_db (apply_schema ddl (st_db s)) s)).
Proof.
  intros Hddl Hok Hcsv. unfold transaction.
  erewrite bind_Ret by reflexivity.
  erewrite bind_Ret.
  2:{ unfold read_schema. erewrite bind_Ret by reflexivity. rewrite Hddl. reflexivity. }
  erewrite bind_Ret by (by apply execute_ok).
  erewrite bind_Ret by reflexivity.
  rewrite Hcsv. cbn [negb].
  erewrite bind_Ret by reflexivity. unfold ret.
  by norm_state.
Qed.

End Completes.

(** ** Computations that leave the tables alone *)

Create HintDb keeps discriminated.

Lemma keeps_db_ret {A} (a : A) : keeps_db (ret a).
Proof. by intros s r s' [= _ <-]. Qed.

Lemma keeps_db_raise {A} (e : exn) : keeps_db (@raise A e).
Proof. by intros s r s' [= _ <-]. Qed.

Lemma keeps_db_sys_exit {A} (c : Z) : keeps_db (@sys_exit A c).
Proof. by intros s r s' [= _ <-]. Qed.

Lemma keeps_db_tell (e : event) : keeps_db (tell e).
Proof. by intros s r s' [= _ <-]. Qed.

Lemma keeps_db_bind {A B} (m : M A) (k : A -> M B) :
  keeps_db m -> (forall a, keeps_db (k a)) -> keeps_db (bind m k).
Proof.
  intros Hm Hk s r s'. unfold bind.
  destruct (m s) as [[a|e|c] s1] eqn:E; apply Hm in E.
  - intros H%Hk. congruence.
  - intros [= _ <-]. done.
  - intros [= _ <-]. done.
Qed.

Lemma keeps_db_try {A} (m : M A) (h : exn -> M A) :
  keeps_db m -> (forall e, keeps_db (h e)) -> keeps_db (try_except m h).
Proof.
  intros Hm Hh s r s'. unfold try_except.
  destruct (m s) as [[a|e|c] s1] eqn:E; apply Hm in E.
  - intros [= _ <-]. done.
  - intros H%Hh. congruence.
  - intros [= _ <-]. done.
Qed.

Lemma keeps_db_if {A} (b : bool) (m1 m2 : M A) :
  keeps_db m1 -> keeps_db m2 -> keeps_db (if b then m1 else m2).
Proof. by destruct b. Qed.

Lemma keeps_db_log l msg : keeps_db (log l msg).
Proof. apply keeps_db_tell. Qed.

Lemma keeps_db_print out msg : keeps_db (print out msg).
Proof. apply keeps_db_tell. Qed.

Lemma keeps_db_sleep n : keeps_db (sleep n).
Proof. apply keeps_db_tell. Qed.

#[export] Hint Resolve keeps_db_ret keeps_db_raise keeps_db_sys_exit keeps_db_tell
  keeps_db_bind keeps_db_try keeps_db_if keeps_db_log keeps_db_print keeps_db_sleep
  : keeps.

Lemma keeps_db_create_engine w url : keeps_db (create_engine w url).
Proof.
  unfold create_engine. apply keeps_db_bind; [auto with keeps|].
  intros _. destruct (engine_error w url); auto with keeps.
Qed.

#[export] Hint Resolve keeps_db_create_engine : keeps.

Lemma keeps_db_getenv w name : keeps_db (getenv w name).
Proof. unfold getenv. auto with keeps. Qed.

Lemma keeps_db_getenv_default w name dflt : keeps_db (getenv_default w name dflt).
Proof. unfold getenv_default. auto with keeps. Qed.

Lemma keeps_db_getitem d key : keeps_db (getitem d key).
Proof. unfold getitem. destruct (d !! key); auto with keeps. Qed.

Lemma keeps_db_read_health_status w i : keeps_db (read_health_status w i).
Proof.
  unfold read_health_status. apply keeps_db_bind; [auto with keeps|].
  intros _. destruct (health w i); auto with keeps.
Qed.

Lemma keeps_db_read_secret_version w path : keeps_db (read_secret_version w path).
Proof.
  unfold read_secret_version. apply keeps_db_bind; [auto with keeps|].
  intros _. destruct (vault_read_error w); [auto with keeps|].
  intros s r s'. by destruct (st_vault s !! path); intros [= _ <-].
Qed.

Lemma keeps_db_create_or_update_secret w path doc :
  keeps_db (create_or_update_secret w path doc).
Proof.
  unfold create_or_update_secret. apply keeps_db_bind; [auto with keeps|].
  intros _. destruct (vault_write_error w); [auto with keeps|].
  by intros s r s' [= _ <-].
Qed.

#[export] Hint Resolve keeps_db_getenv keeps_db_getenv_default keeps_db_getitem
  keeps_db_read_health_status keeps_db_read_secret_version
  keeps_db_create_or_update_secret : keeps.

Lemma keeps_db_wait_for_vault w n i : keeps_db (wait_for_vault w n i).
Proof.
  revert i. induction n as [|n IH]; intros i; simpl; [auto with keeps|].
  apply keeps_db_bind; [auto with keeps|]. intros ok.
  apply keeps_db_if; auto with keeps.
Qed.

Lemma keeps_db_etl_credentials w : keeps_db (Etl.get_db_credentials_from_vault w).
Proof.
  unfold Etl.get_db_credentials_from_vault, Etl.first_run_init.
  apply keeps_db_try; [auto with keeps|].
  intros []; auto 20 with keeps.
Qed.

Lemma keeps_db_query_credentials w : keeps_db (Query.get_db_credentials_from_vault w).
Proof.
  unfold Query.get_db_credentials_from_vault.
  apply keeps_db_try; [auto with keeps|].
  intros []; auto with keeps.
Qed.

#[export] Hint Resolve keeps_db_wait_for_vault keeps_db_etl_credentials
  keeps_db_query_credentials : keeps.

(** One step of a sequence whose first computation leaves the tables
    alone: either the sequence stops there, or it goes on from a state
    with the same tables. *)
Lemma bind_peel {A B} (m : M A) (k : A -> M B) s r s' :
  keeps_db m ->
  bind m k s = (r, s') ->
  ((forall b, r <> Ret b) /\ st_db s' = st_db s)
  \/ (exists a s1, st_db s1 = st_db s /\ k a s1 = (r, s')).
Proof.
  intros Hm. unfold bind.
  destruct (m s) as [[a|e|c] s1] eqn:E; apply Hm in E.
  - intros H. right. by exists a, s1.
  - intros [= <- <-]. by left.
  - intros [= <- <-]. by left.
Qed.

Lemma same_rows_refl (db : database) : same_rows db db.
Proof. by repeat split. Qed.

Lemma same_rows_eq (db db' : database) : db' = db -> same_rows db db'.
Proof. intros ->. apply same_rows_refl. Qed.

(** [with engine.begin()] either commits what its body returned or leaves
    the rows of the tables as they were. *)
Lemma engine_begin_outcome {A} (w : World) (body : M A) s r s' :
  engine_begin w body s = (r, s') ->
  (exists a s1, r = Ret a /\ db_unreachable w = None
                /\ body (emit EBegin (emit EConnect s)) = (Ret a, s1)
                /\ s' = emit ECommit s1)
  \/ ((forall a, r <> Ret a) /\ same_rows (st_db s) (st_db s')).
Proof.
  unfold engine_begin. destruct (db_unreachable w).
  - intros [= <- <-]. right. split; [done|apply same_rows_refl].
  - destruct (body _) as [[a|e|c] s1] eqn:E; intros [= <- <-].
    + left. by exists a, s1.
    + right. by repeat split.
    + right. by repeat split.
Qed.

(** ** The ETL run as a whole *)

Section Run.

Import Etl.

Lemma main_try_outcome (w : World) s r s' :
  main_try w s = (r, s') ->
  ((forall a, r <> Ret a) /\ same_rows (st_db s) (st_db s'))
  \/ (r = Ret tt /\ committed w s s').
Proof.
  unfold main_try. intros H.
  apply bind_peel in H as [[Hr Hdb]|(_ & s1 & Hdb1 & H)];
    [left; split; [done|by apply same_rows_eq]| |auto with keeps].
  apply bind_peel in H as [[Hr Hdb]|(creds & s2 & Hdb2 & H)];
    [left; split; [done|apply same_rows_eq; congruence]| |auto with keeps].
  apply bind_peel in H as [[Hr Hdb]|(u & s3 & Hdb3 & H)];
    [left; split; [done|apply same_rows_eq; congruence]| |auto with keeps].
  apply bind_peel in H as [[Hr Hdb]|(p & s4 & Hdb4 & H)];
    [left; split; [done|apply same_rows_eq; congruence]| |auto with keeps].
  apply bind_peel in H as [[Hr Hdb]|(d & s5 & Hdb5 & H)];
    [left; split; [done|apply same_rows_eq; congruence]| |auto with keeps].
  apply bind_peel in H as [[Hr Hdb]|(h & s6 & Hdb6 & H)];
    [left; split; [done|apply same_rows_eq; congruence]| |auto with keeps].
  apply bind_peel in H as [[Hr Hdb]|(_ & s7 & Hdb7 & H)];
    [left; split; [done|apply same_rows_eq; congruence]| |auto with keeps].
  assert (Hdb : st_db s7 = st_db s) by congruence.
  clear Hdb1 Hdb2 Hdb3 Hdb4 Hdb5 Hdb6 Hdb7.
  unfold bind in H.
  destruct (engine_begin w (transaction w) s7) as [rb sb] eqn:E.
  apply engine_begin_outcome in E as [(b & s1' & -> & _ & Hbody & ->)|[Hr Hdb']].
  - right. destruct b.
    + injection H as <- <-. split; [done|].
      exists (emit EBegin (emit EConnect s7)), true, s1'. by repeat split.
    + injection H as <- <-. split; [done|].
      exists (emit EBegin (emit EConnect s7)), false, s1'. repeat split; try done.
      simpl. by rewrite <- app_assoc.
  - left. destruct rb as [a|e|c]; [by destruct (Hr a)| |];
      injection H as <- <-; (split; [done|by rewrite <- Hdb]).
Qed.

Lemma etl_program_outcome (w : World) s r s' :
  program w s = (r, s') ->
  (exists c, r = SysExit c /\ same_rows (st_db s) (st_db s'))
  \/ (r = Ret tt /\ committed w s s').
Proof.
  rewrite etl_program_start. unfold try_except.
  destruct (main_try w (emits etl_start s)) as [[[]|e|c] s1] eqn:E;
    apply main_try_outcome in E as [[Hr Hdb]|[Hr Hc]]; try done.
  - by destruct (Hr tt).
  - intros [= <- <-]. right. split; [done|].
    destruct Hc as (s0 & b & s2 & ? & ? & ? & ?). by exists s0, b, s2.
  - intros H. left. exists 1%Z.
    assert (Hl : forall msg, (log ERROR msg;;; @sys_exit unit 1) s1
                             = (SysExit 1, emit (ELog ERROR msg) s1)) by done.
    destruct e; unfold main_except in H; rewrite Hl in H; injection H as <- <-; done.
  - intros [= <- <-]. left. by exists c.
Qed.

End Run.
(** ** Referential integrity and the idempotent merge *)

Section Merged.

Import Etl.

Variables (burn : bool) (ddl : string) (keys : list cell) (db : database).

Let mrg : database := merged burn ddl keys db.

(** The merge knows the name of every staged row. *)
Lemma merged_knows (k : cell) (n : string) :
  k ∈ unique keys -> db_text k = Some n -> n ∈ names mrg.
Proof.
  intros Hk Hn. unfold mrg, merged.
  destruct (merge_fold_extends burn (named_rows (unique_tomos keys))
              (stage_temp (unique_tomos keys) (apply_schema ddl db))) as (_ & _ & _ & Hall).
  apply (Hall (n, volume_path k)).
  apply elem_of_named_rows. exists k. split; [|done].
  unfold unique_tomos. by apply (list_elem_of_fmap_2 (fun n => (n, volume_path n))).
Qed.

(** In particular it knows every string of the key column. *)
Lemma merged_knows_str (n : string) : CStr n ∈ keys -> n ∈ names mrg.
Proof. intros Hn. apply (merged_knows (CStr n)); [by apply str_elem_of_unique|done]. Qed.

(** The merge keeps every row that was there and adds rows under names that
    were not. *)
Lemma merged_extends :
  exists new,
    tomograms mrg = tomograms db ++ new
    /\ fresh_rows (tomograms db) new.
Proof.
  unfold mrg, merged.
  destruct (merge_fold_extends burn (named_rows (unique_tomos keys))
              (stage_temp (unique_tomos keys) (apply_schema ddl db)))
    as (new & Heq & Hfresh & _).
  exists new. by split.
Qed.

(** Merging keys whose names are all in the table changes no tomogram
    row. *)
Lemma merged_again :
  (forall k n, k ∈ unique keys -> db_text k = Some n -> n ∈ names db) ->
  tomograms mrg = tomograms db.
Proof.
  intros Hknown. unfold mrg, merged.
  rewrite merge_fold_noop; [done|].
  intros [n path] (k & Hk & Hn)%elem_of_named_rows. simpl.
  unfold unique_tomos in Hk. apply list_elem_of_fmap in Hk as (k' & [= -> ->] & Hk').
  by apply (Hknown k').
Qed.

Lemma merged_others :
  annotations mrg = annotations db
  /\ annotations_seq mrg = annotations_seq db
  /\ temp_tomograms mrg = unique_tomos keys
  /\ schema_log mrg = schema_log db ++ [ddl].
Proof.
  unfold mrg, merged.
  by destruct (merge_fold_others burn (named_rows (unique_tomos keys))
                 (stage_temp (unique_tomos keys) (apply_schema ddl db)))
    as (-> & -> & -> & ->).
Qed.

End Merged.

Section Loaded.

Import Etl.

Variables (w : World) (ddl : string) (rows : list label) (db db' : database).
Hypothesis Hload : loaded w ddl rows db = Some db'.

Let mrg : database := merged (serial_burn w) ddl (lbl_tomo_name <$> rows) db.

Lemma loaded_tomograms : tomograms db' = tomograms mrg.
Proof.
  unfold loaded in Hload. fold mrg in Hload.
  by apply insert_annotations_spec in Hload as (ps & _ & _ & _ & -> & _).
Qed.

Lemma loaded_annotations :
  exists ps,
    stored_facts w (df_annotations (tomo_map mrg) rows) = Some ps
    /\ annotations db' = imap (fun i r => fact_row (S i) r) ps.
Proof.
  unfold loaded in Hload. fold mrg in Hload.
  apply insert_annotations_spec in Hload as (ps & Hps & -> & _).
  by exists ps.
Qed.

Lemma loaded_annotations_seq : annotations_seq db' = length rows.
Proof.
  unfold loaded in Hload. fold mrg in Hload.
  apply insert_annotations_spec in Hload as (ps & _ & _ & -> & _).
  unfold df_annotations. by rewrite length_fmap.
Qed.

(** The [i]-th annotation of a complete load, for the [i]-th row. *)
Lemma loaded_lookup (i : nat) (l : label) :
  rows !! i = Some l ->
  exists p,
    stored w (map_key (tomo_map mrg) (lbl_tomo_name l), lbl_x l, lbl_y l, lbl_z l) = Some p
    /\ annotations db' !! i
       = Some (fact_row (S i) (map_key (tomo_map mrg) (lbl_tomo_name l), p)).
Proof.
  intros Hl. destruct loaded_annotations as (ps & Hps & ->).
  destruct (stored_facts_lookup w _ ps i
              (map_key (tomo_map mrg) (lbl_tomo_name l), lbl_x l, lbl_y l, lbl_z l) Hps)
    as (p & Hp & Hi).
  { unfold df_annotations. by rewrite list_lookup_fmap, Hl. }
  exists p. split; [done|]. by rewrite list_lookup_imap, Hi.
Qed.

Lemma loaded_length : length (annotations db') = length rows.
Proof.
  destruct loaded_annotations as (ps & Hps & ->).
  rewrite length_imap, (stored_facts_length _ _ _ Hps).
  unfold df_annotations. by rewrite length_fmap.
Qed.

(** Every annotation of a complete load comes from a row. *)
Lemma loaded_elem_of (a : annotation) :
  a ∈ annotations db' ->
  exists i l, rows !! i = Some l /\ annotations db' !! i = Some a.
Proof.
  intros (i & Hi)%list_elem_of_lookup_1.
  assert (Hlt : i < length rows).
  { rewrite <- loaded_length. by eapply lookup_lt_Some. }
  destruct (lookup_lt_is_Some_2 rows i Hlt) as [l Hl]. by exists i, l.
Qed.

(** The row of a string key is keyed to the tomogram row of that name. *)
Lemma loaded_key_str (l : label) (n : string) :
  l ∈ rows -> lbl_tomo_name l = CStr n ->
  exists t, t ∈ tomograms db' /\ tomo_name t = n
            /\ map_key (tomo_map mrg) (lbl_tomo_name l) = Some (tomo_id t).
Proof.
  intros Hl Hn. rewrite loaded_tomograms, Hn. simpl.
  apply tomo_map_lookup. apply merged_knows_str. rewrite <- Hn.
  by apply list_elem_of_fmap_2.
Qed.

(** After a complete load of a frame keyed by strings every annotation
    references a tomogram row. *)
Lemma loaded_referential :
  Forall (fun l => exists n, lbl_tomo_name l = CStr n) rows -> referential db'.
Proof.
  intros Hstr. unfold referential, resolves.
  apply Forall_forall. intros a (i & l & Hl & Ha)%loaded_elem_of.
  destruct (loaded_lookup i l Hl) as (p & _ & Hi).
  rewrite Ha in Hi. injection Hi as ->.
  rewrite Forall_forall in Hstr.
  destruct (Hstr l) as [n Hn]; [by eapply list_elem_of_lookup_2|].
  destruct (loaded_key_str l n) as (t & Ht & _ & Hmap);
    [by eapply list_elem_of_lookup_2|done|].
  apply Exists_exists. exists t. split; [done|]. by rewrite <- Hmap.
Qed.

(** What a complete load leaves in the annotations table. *)
Lemma loaded_holds_load : holds_load w rows db'.
Proof.
  split; [apply loaded_length|].
  intros i l Hl. destruct (loaded_lookup i l Hl) as (p & Hp & Hi).
  eexists. split; [exact Hi|]. split; [done|].
  unfold stored in Hp. simpl in Hp.
  destruct (coord_in w (lbl_x l)) as [x|]; [|done].
  destruct (coord_in w (lbl_y l)) as [y|]; [|done].
  destruct (coord_in w (lbl_z l)) as [z|]; [|done].
  injection Hp as <-. do 3 (split; [done|]).
  unfold keyed_to. destruct (lbl_tomo_name l) as [n| | | | | |] eqn:Hk; try done.
  destruct (loaded_key_str l n) as (t & Ht & Hn & Hmap);
    [by eapply list_elem_of_lookup_2|done|].
  exists t. split; [done|]. split; [done|]. simpl. by rewrite <- Hmap, Hk.
Qed.

End Loaded.

Section RunTheorems.

Import Etl.

(** What a committed run did to the tables. *)
Lemma committed_tables (w : World) (s s' : state) :
  committed w s s' ->
  exists ddl,
    (labels_csv w = None /\ st_db s' = apply_schema ddl (st_db s)
     /\ last (st_trace s') = Some ECommit)
    \/ (exists rows, labels_csv w = Some (CsvRows rows)
         /\ loaded w ddl rows (st_db s) = Some (st_db s')
         /\ last (st_trace s') = Some (ELog INFO MSG_COMPLETED)).
Proof.
  intros (s0 & b & s1 & Hdb0 & Htx & Hdb & Htrace).
  apply transaction_Ret in Htx as (_ & ddl & _ & [(-> & Hcsv & Hs1)|(-> & rows & Hcsv & Hs1)]);
    exists ddl.
  - left. repeat split; [done|congruence| ].
    rewrite Htrace. by rewrite last_app.
  - right. exists rows. repeat split; [done|congruence|].
    rewrite Htrace. by rewrite last_app.
Qed.

(** Any run keeps the tomogram rows that were there and adds rows only
    under names that were not. *)
Lemma run_extends_tomograms (w : World) (s s' : state) (r : result unit) :
  program w s = (r, s') ->
  exists new,
    tomograms (st_db s') = tomograms (st_db s) ++ new
    /\ fresh_rows (tomograms (st_db s)) new.
Proof.
  intros [(c & -> & (-> & _))|[-> Hc]]%etl_program_outcome.
  - exists []. rewrite app_nil_r. split; [done|]. by intros t ?%elem_of_nil.
  - apply committed_tables in Hc as (ddl & [(_ & -> & _)|(rows & _ & Hload & _)]).
    + exists []. rewrite app_nil_r. split; [done|]. by intros t ?%elem_of_nil.
    + rewrite (loaded_tomograms _ _ _ _ _ Hload). apply merged_extends.
Qed.

(** C2. After a run that returned normally, a further run on the same CSV
    input leaves the tomograms table exactly as the first run left it: the
    same rows with the same generated ids, and as many of them.  In any
    run, a tomo_name that is already present is not inserted again: the
    rows that were there stay as they are, and every added row has a name
    that was not there. *)
Theorem C2_dimension_merge_idempotent (w1 w2 : World) (s s1 s2 : state)
    (r1 r2 : result unit) :
  program w1 s = (r1, s1) ->
  program w2 s1 = (r2, s2) ->
  labels_csv w2 = labels_csv w1 ->
  r1 = Ret tt ->
  tomograms (st_db s2) = tomograms (st_db s1)
  /\ length (tomograms (st_db s2)) = length (tomograms (st_db s1))
  /\ (exists new,
        tomograms (st_db s1) = tomograms (st_db s) ++ new
        /\ fresh_rows (tomograms (st_db s)) new).
Proof.
  intros H1 H2 Hcsv ->.
  assert (Heq : tomograms (st_db s2) = tomograms (st_db s1)).
  { apply etl_program_outcome in H1 as [(c & [=] & _)|[_ Hc1]].
    apply committed_tables in Hc1 as (ddl1 & Hrun1).
    apply etl_program_outcome in H2 as [(c & _ & (-> & _))|[_ Hc2]]; [done|].
    apply committed_tables in Hc2 as (ddl2 & [(_ & -> & _)|(rows & Hcsv2 & Hload2 & _)]);
      [done|].
    destruct Hrun1 as [(Hnone & _)|(rows1 & Hcsv1 & Hload1 & _)]; [congruence|].
    assert (rows1 = rows) as -> by congruence.
    rewrite (loaded_tomograms _ _ _ _ _ Hload2).
    apply merged_again. intros k n Hk Hn. unfold names.
    rewrite (loaded_tomograms _ _ _ _ _ Hload1). by eapply merged_knows. }
  split; [done|]. split; [by rewrite Heq|].
  by eapply run_extends_tomograms.
Qed.

End RunTheorems.

(** ** Runs that reach the database *)

Section Forward.

Import Etl.

Lemma try_bind_Ret {A B} (m : M A) (k : A -> M B) h s a s1 :
  m s = (Ret a, s1) -> try_except (bind m k) h s = try_except (k a) h s1.
Proof. unfold try_except, bind. by intros ->. Qed.

Lemma connect_events_no_db w k u p d :
  existsb is_db_event (connect_events w k u p d) = false.
Proof.
  unfold connect_events. rewrite !existsb_app, failed_polls_no_db. reflexivity.
Qed.

Lemma create_engine_ok (w : World) (url : string) s :
  engine_error w url = None ->
  create_engine w url s = (Ret tt, emit (ECreateEngine url) s).
Proof. unfold create_engine. intros ->. reflexivity. Qed.

Lemma create_engine_fails (w : World) (url msg : string) s :
  engine_error w url = Some msg ->
  create_engine w url s = (Raise (PyException msg), emit (ECreateEngine url) s).
Proof. unfold create_engine. intros ->. reflexivity. Qed.

Lemma etl_program_connects (w : World) (s : state) (k : nat) (u p d : string) :
  vault_ready w k ->
  vault_read_error w = None ->
  credentials s u p d ->
  engine_accepts w u p d ->
  program w s
  = try_except (load_block w) main_except (emits (connect_events w k u p d) s).
Proof.
  intros Hk Hread (doc & Hdoc & Hu & Hp & Hd) Hurl.
  rewrite etl_program_start. unfold main_try.
  erewrite try_bind_Ret by (by apply wait_ready).
  erewrite try_bind_Ret by (by apply read_found).
  erewrite try_bind_Ret by (unfold getitem; rewrite Hu; reflexivity).
  erewrite try_bind_Ret by (unfold getitem; rewrite Hp; reflexivity).
  erewrite try_bind_Ret by (unfold getitem; rewrite Hd; reflexivity).
  erewrite try_bind_Ret by reflexivity.
  erewrite try_bind_Ret by (by apply create_engine_ok).
  norm_state. unfold connect_events. by rewrite <- !app_assoc.
Qed.

(** A run in a world without failures completes the load. *)
Lemma etl_program_completes (w : World) (s : state) (k : nat) (u p d ddl : string)
    (rows : list label) :
  vault_ready w k ->
  vault_read_error w = None ->
  credentials s u p d ->
  engine_accepts w u p d ->
  db_unreachable w = None ->
  schema_sql w = Some ddl ->
  labels_csv w = Some (CsvRows rows) ->
  Forall (loadable w) rows ->
  (forall st, db_fault w st = None) ->
  exists s',
    program w s = (Ret tt, s')
    /\ loaded w ddl rows (st_db s) = Some (st_db s')
    /\ st_vault s' = st_vault s
    /\ last (st_trace s') = Some (ELog INFO MSG_COMPLETED).
Proof.
  intros Hk Hread Hcred Hurl Hdb Hddl Hcsv Hrows Hok.
  rewrite (etl_program_connects w s k u p d) by done.
  set (s0 := emits (connect_events w k u p d) s).
  pose proof (transaction_completes w (emit EBegin (emit EConnect s0)) ddl rows
                Hddl Hcsv Hrows Hok) as Hret.
  destruct (transaction w (emit EBegin (emit EConnect s0))) as [r s1] eqn:E.
  simpl in Hret. subst r.
  pose proof E as (Hv & ddl' & Hddl' & [(? & _)|(_ & rows' & Hcsv' & Hs1)])%transaction_Ret;
    [done|].
  assert (ddl' = ddl) as -> by congruence.
  assert (rows' = rows) as -> by congruence.
  exists (emit (ELog INFO MSG_COMPLETED) (emit ECommit s1)).
  split.
  - unfold try_except, load_block, bind, engine_begin. rewrite Hdb, E. reflexivity.
  - split; [exact Hs1|]. split; [exact Hv|]. apply last_snoc.
Qed.

End Forward.

(** ** A missing CSV *)

Section MissingCsv.

Import Etl.

(** C1, as the code has it.  When the source CSV does not exist, no run
    writes or deletes a row of tomograms, annotations or the staging table.
    A run that gets as far as the database opens the transaction and
    executes the schema DDL before it looks for the file; it then logs that
    the file is missing, returns, and the transaction commits with the
    schema DDL as its only effect; the process ends with status 0. *)
Theorem C1_missing_csv_commits_schema_only (w : World) (s : state) (k : nat)
    (u p d ddl : string) :
  labels_csv w = None ->
  (forall r s', program w s = (r, s') ->
     tomograms (st_db s') = tomograms (st_db s)
     /\ annotations (st_db s') = annotations (st_db s)
     /\ temp_tomograms (st_db s') = temp_tomograms (st_db s))
  /\ (vault_ready w k -> vault_read_error w = None -> credentials s u p d ->
      engine_accepts w u p d ->
      db_unreachable w = None -> schema_sql w = Some ddl ->
      db_fault w StSchema = None ->
      program w s
      = (Ret tt,
         emits (connect_events w k u p d ++ missing_csv_events ddl)
           (set_db (apply_schema ddl (st_db s)) s))
      /\ exit_status (program w s).1 = 0%Z
      /\ schema_log (apply_schema ddl (st_db s)) = schema_log (st_db s) ++ [ddl]).
Proof.
  intros Hcsv. split.
  - intros r s' [(c & -> & (-> & -> & _ & -> & _))|[-> Hc]]%etl_program_outcome; [done|].
    apply committed_tables in Hc as (ddl' & [(_ & -> & _)|(rows & Hrows & _)]);
      [done|congruence].
  - intros Hk Hread Hcred Hurl Hdb Hddl Hok.
    assert (Hrun : program w s
      = (Ret tt,
         emits (connect_events w k u p d ++ missing_csv_events ddl)
           (set_db (apply_schema ddl (st_db s)) s))).
    { rewrite (etl_program_connects w s k u p d) by done.
      unfold try_except, load_block, bind, engine_begin. rewrite Hdb.
      rewrite (transaction_missing_csv w _ ddl) by done.
      unfold ret, missing_csv_events. by norm_state. }
    split; [exact Hrun|]. split; [by rewrite Hrun|done].
Qed.

End MissingCsv.

(** With the CSV missing, the run does open a transaction and does execute
    the schema DDL, which is committed: the tables are not left as they
    were, contrary to the "abort before opening any transaction" of the
    specification. *)
Lemma C1_counterexample :
  labels_csv ex_world_no_csv = None
  /\ (let s' := (Etl.program ex_world_no_csv ex_seeded).2 in
      existsb (fun e => match e with EBegin => true | _ => false end) (st_trace s') = true
      /\ existsb (fun e => match e with ESql (SqlSchema _) => true | _ => false end)
           (st_trace s') = true
      /\ existsb (fun e => match e with ECommit => true | _ => false end) (st_trace s') = true
      /\ schema_log (st_db s') = ["CREATE TABLE IF NOT EXISTS tomograms ();"]
      /\ st_db s' <> st_db ex_seeded).
Proof.
  split; [reflexivity|]. cbv zeta.
  repeat split; by vm_compute.
Qed.

(** ** First run, then re-run *)

(** The readiness loop touches neither the database nor the secret
    store. *)
Lemma wait_quiet (w : World) (n i : nat) (s : state) (r : result unit) (s' : state) :
  wait_for_vault w n i s = (r, s') ->
  exists es,
    s' = emits es s
    /\ existsb is_db_event es = false
    /\ existsb is_vault_write es = false.
Proof.
  revert i s. induction n as [|n IH]; intros i s; simpl.
  - intros [= _ <-]. exists []. by rewrite emits_nil.
  - unfold bind at 1. unfold read_health_status, bind at 1, tell.
    destruct (health w i) as [| |msg]; simpl.
    + intros [= _ <-]. by exists [EHealth].
    + erewrite bind_Ret by reflexivity. erewrite bind_Ret by reflexivity.
      intros (es & -> & Hdb & Hwr)%IH.
      eexists. norm_state. split; [reflexivity|]. by split.
    + intros [= _ <-]. by exists [EHealth].
Qed.

Section FirstRun.

Import Etl.

(** The document of the first run always has the three keys. *)
Lemma first_run_secret_keys (u p d : option string) :
  let doc := first_run_secret u p d in
  doc !! "POSTGRES_USER" = Some (default "" u)
  /\ doc !! "POSTGRES_PASSWORD" = Some (default "" p)
  /\ doc !! "POSTGRES_DB" = Some (default "" d).
Proof.
  unfold first_run_secret. simpl. repeat split; reflexivity.
Qed.

(** With the three variables set to non-empty values and a store that
    accepts the write, a first run does write the document. *)
Lemma first_run_writes (w : World) (s : state) (k : nat) (u p d : string) :
  vault_ready w k ->
  vault_read_error w = None ->
  st_vault s !! SECRET_PATH = None ->
  environ w !! "POSTGRES_USER" = Some u ->
  environ w !! "POSTGRES_PASSWORD" = Some p ->
  environ w !! "POSTGRES_DB" = Some d ->
  u <> "" -> p <> "" -> d <> "" ->
  vault_write_error w = None ->
  let doc := first_run_secret (Some u) (Some p) (Some d) in
  program w s
  = (SysExit 0,
     emits (seeding_events k doc) (set_vault (<["cryoet" := doc]> (st_vault s)) s)).
Proof.
  intros Hk Hread Hnone Hu Hp Hd Hu' Hp' Hd' Hwrite doc.
  rewrite etl_program_start.
  erewrite try_SysExit.
  2:{ unfold main_try. erewrite bind_Ret by (by apply wait_ready).
      erewrite bind_SysExit; [reflexivity|].
      unfold get_db_credentials_from_vault.
      erewrite try_Raise by (by apply read_not_found). cbn beta iota.
      rewrite first_run_seeds by (by eauto using all_true_of_nonempty).
      rewrite Hu, Hp, Hd. reflexivity. }
  unfold seeding_events. norm_state. by rewrite <- !app_assoc.
Qed.

(** A run that found no secret and left one in the store took the
    first-run branch to its end. *)
Lemma seeded_run (w : World) (s s1 : state) (r : result unit) :
  program w s = (r, s1) ->
  st_vault s !! SECRET_PATH = None ->
  is_Some (st_vault s1 !! SECRET_PATH) ->
  let doc := first_run_secret (environ w !! "POSTGRES_USER")
               (environ w !! "POSTGRES_PASSWORD") (environ w !! "POSTGRES_DB") in
  r = SysExit 0
  /\ all (first_run_values w) = true
  /\ exists es,
      s1 = emits es (set_vault (<["cryoet" := doc]> (st_vault s)) s)
      /\ existsb is_db_event es = false
      /\ last es = Some (ELog INFO MSG_SEEDED).
Proof.
  intros H Hnone Hsome doc.
  assert (Hcontra : forall es : list event,
            ~ is_Some (st_vault (emits es s) !! SECRET_PATH)).
  { intros es [x Hx]. simpl in Hx. congruence. }
  rewrite etl_program_start in H. unfold try_except, main_try in H.
  destruct (wait_for_vault w 5 0 (emits etl_start s)) as [rw sw] eqn:Ew.
  pose proof Ew as (es & -> & Hdb & _)%wait_quiet.
  destruct rw as [[]|e|c].
  - erewrite bind_Ret in H by exact Ew.
    destruct (vault_read_error w) as [msg|] eqn:Hread.
    + erewrite bind_Raise in H.
      2:{ unfold get_db_credentials_from_vault.
          erewrite try_Raise;
            [|unfold read_secret_version; erewrite bind_Ret by reflexivity;
              rewrite Hread; reflexivity].
          reflexivity. }
      injection H as <- <-. revert Hsome. norm_state. intros Hsome.
      by destruct (Hcontra _ Hsome).
    + unfold get_db_credentials_from_vault in H.
      destruct (all (first_run_values w)) eqn:Hall;
        [destruct (vault_write_error w) as [msg|] eqn:Hwrite|].
      * erewrite bind_SysExit in H.
        2:{ erewrite try_Raise by (by apply read_not_found). cbn beta iota.
            rewrite (first_run_write_fails _ _ msg) by done. reflexivity. }
        injection H as <- <-. revert Hsome. norm_state. intros Hsome.
        by destruct (Hcontra _ Hsome).
      * erewrite bind_SysExit in H.
        2:{ erewrite try_Raise by (by apply read_not_found). cbn beta iota.
            rewrite first_run_seeds by done. reflexivity. }
        injection H as <- <-. split; [done|]. split; [done|].
        eexists. norm_state. split; [reflexivity|]. split.
        -- cbn [existsb is_db_event orb]. rewrite existsb_app, Hdb. reflexivity.
        -- by rewrite !app_comm_cons, last_app.
      * erewrite bind_SysExit in H.
        2:{ erewrite try_Raise by (by apply read_not_found). cbn beta iota.
            rewrite first_run_incomplete by done. reflexivity. }
        injection H as <- <-. revert Hsome. norm_state. intros Hsome.
        by destruct (Hcontra _ Hsome).
  - erewrite bind_Raise in H by exact Ew.
    assert (Hl : forall msg st, (log ERROR msg;;; @sys_exit unit 1) st
                                = (SysExit 1, emit (ELog ERROR msg) st)) by done.
    destruct e; unfold main_except in H; rewrite Hl in H; injection H as <- <-;
      revert Hsome; norm_state; intros Hsome; by destruct (Hcontra _ Hsome).
  - erewrite bind_SysExit in H by exact Ew. injection H as <- <-.
    revert Hsome. norm_state. intros Hsome. by destruct (Hcontra _ Hsome).
Qed.

(** C4, as the code has it.  A first run (the secret is not found) that
    writes the Credential Document successfully ends the process by
    [sys.exit(0)] after the log line that asks for a re-run, with no
    database event in that run and the tables untouched; the three
    first-run variables were then all set, and the stored document holds
    them.  The status is 0, as for a run that loads.  A second run reads the
    stored document and, when nothing fails (Vault and database up, the
    URL accepted, the files in place, rows that the load can write), loads
    the frame: the annotations table then is the frame, row for row. *)
Theorem C4_first_run_then_rerun (w : World) (s s1 : state) (r : result unit) :
  program w s = (r, s1) ->
  st_vault s !! SECRET_PATH = None ->
  is_Some (st_vault s1 !! SECRET_PATH) ->
  let u := default "" (environ w !! "POSTGRES_USER") in
  let p := default "" (environ w !! "POSTGRES_PASSWORD") in
  let d := default "" (environ w !! "POSTGRES_DB") in
  let doc := first_run_secret (environ w !! "POSTGRES_USER")
               (environ w !! "POSTGRES_PASSWORD") (environ w !! "POSTGRES_DB") in
  r = SysExit 0
  /\ exit_status r = 0%Z
  /\ all (first_run_values w) = true
  /\ st_vault s1 !! SECRET_PATH = Some doc
  /\ st_db s1 = st_db s
  /\ (exists es,
        st_trace s1 = st_trace s ++ es
        /\ existsb is_db_event es = false
        /\ last es = Some (ELog INFO MSG_SEEDED))
  /\ (forall w2 k2 ddl rows,
        vault_ready w2 k2 -> vault_read_error w2 = None ->
        engine_accepts w2 u p d ->
        db_unreachable w2 = None -> schema_sql w2 = Some ddl ->
        labels_csv w2 = Some (CsvRows rows) ->
        Forall (loadable w2) rows ->
        (forall st, db_fault w2 st = None) ->
        get_db_credentials_from_vault w2 s1 = (Ret doc, emits [EVaultRead "cryoet"] s1)
        /\ exists s2,
            program w2 s1 = (Ret tt, s2)
            /\ exit_status (program w2 s1).1 = 0%Z
            /\ holds_load w2 rows (st_db s2)
            /\ last (st_trace s2) = Some (ELog INFO MSG_COMPLETED)).
Proof.
  intros H Hnone Hsome u p d doc.
  destruct (seeded_run w s s1 r H Hnone Hsome) as (-> & Hall & es & -> & Hdb & Hlast).
  assert (Hdoc : st_vault
                   (emits es (set_vault (<["cryoet" := doc]> (st_vault s)) s))
                 !! SECRET_PATH = Some doc).
  { simpl. apply lookup_insert_eq. }
  split; [done|]. split; [done|]. split; [done|]. split; [exact Hdoc|].
  split; [done|]. split; [by exists es|].
  intros w2 k2 ddl rows Hk2 Hread2 Hurl2 Hdb2 Hddl2 Hcsv2 Hrows2 Hok2.
  split; [by apply read_found|].
  destruct (first_run_secret_keys (environ w !! "POSTGRES_USER")
              (environ w !! "POSTGRES_PASSWORD") (environ w !! "POSTGRES_DB"))
    as (Ku & Kp & Kd).
  destruct (etl_program_completes w2 _ k2 _ _ _ ddl rows Hk2 Hread2
              (ex_intro _ doc (conj Hdoc (conj Ku (conj Kp Kd)))) Hurl2 Hdb2 Hddl2 Hcsv2
              Hrows2 Hok2)
    as (s2 & H2 & Hload & _ & Hlast2).
  exists s2. split; [done|].
  split; [exact (f_equal (fun x : result unit * state => exit_status x.1) H2)|].
  split; [|done]. by eapply loaded_holds_load.
Qed.

End FirstRun.

(** A first-run variable that is set to the empty string counts as missing:
    nothing is written and the process ends with status 1. *)
Lemma empty_first_run_value_is_fatal :
  let w := ex_world_env "cryoet_user" "" "cryoet" in
  environ w !! "POSTGRES_PASSWORD" = Some ""
  /\ (Etl.program w ex_fresh).1 = SysExit 1
  /\ st_vault (Etl.program w ex_fresh).2 !! Etl.SECRET_PATH = None.
Proof. cbv zeta. repeat split; by vm_compute. Qed.

(** ** The query tool *)

Section QueryTheorems.

Import Query.

Lemma elem_of_join_at (db : database) (a : annotation) (t : tomogram) :
  (a, t) ∈ join_at db <->
  a ∈ annotations db /\ t ∈ tomograms db /\ ann_tomo_id a = Some (tomo_id t).
Proof.
  unfold join_at. rewrite list_elem_of_bind. split.
  - intros (a' & (t' & Hin & Ht)%list_elem_of_bind & Ha).
    case_decide as Hid; [|by apply elem_of_nil in Hin].
    apply list_elem_of_singleton in Hin as [= -> ->]. done.
  - intros (Ha & Ht & Hid). exists a. split; [|done].
    apply list_elem_of_bind. exists t. split; [|done].
    rewrite decide_True by done. by apply list_elem_of_singleton.
Qed.

Lemma elem_of_join_ta (db : database) (t : tomogram) (a : annotation) :
  (t, a) ∈ join_ta db <->
  a ∈ annotations db /\ t ∈ tomograms db /\ ann_tomo_id a = Some (tomo_id t).
Proof.
  unfold join_ta. rewrite list_elem_of_bind. split.
  - intros (t' & (a' & Hin & Ha)%list_elem_of_bind & Ht).
    case_decide as Hid; [|by apply elem_of_nil in Hin].
    apply list_elem_of_singleton in Hin as [= -> ->]. done.
  - intros (Ha & Ht & Hid). exists t. split; [|done].
    apply list_elem_of_bind. exists a. split; [|done].
    rewrite decide_True by done. by apply list_elem_of_singleton.
Qed.

Lemma length_filter_zero {A} (P : A -> Prop) `{forall x, Decision (P x)} (l : list A) :
  length (filter P l) = 0 <-> forall x, x ∈ l -> ~ P x.
Proof.
  split.
  - intros Hlen%nil_length_inv x Hx HP. by eapply filter_nil_not_elem_of.
  - intros Hall. induction l as [|x l IH]; [done|].
    rewrite filter_cons_False by (apply Hall; left).
    apply IH. intros y Hy. apply Hall. by right.
Qed.

Lemma count_query_zero (db : database) (name : string) :
  count_query name db = 0 <-> ~ has_annotation db name.
Proof.
  unfold count_query. rewrite length_filter_zero. split.
  - intros Hall (a & t & Ha & Ht & Hid & Hn).
    apply (Hall (a, t)); [by apply elem_of_join_at|done].
  - intros Hnone [a t] (Ha & Ht & Hid)%elem_of_join_at Hn.
    apply Hnone. by exists a, t.
Qed.

(** C8. For a tomogram name that is unknown, or known but without
    annotations, the count query gives 0 and [count_annotations], when the
    database answers the query, prints that the tomogram has 0 annotations
    and returns normally; the process does not exit. *)
Theorem C8_count_unknown_is_zero (w : World) (s : state) (name : string) :
  db_unreachable w = None ->
  db_fault w StQuery = None ->
  name ∉ names (st_db s) \/ ~ has_annotation (st_db s) name ->
  let es := [EConnect; ESql (SqlCount name);
             EPrint Stdout ("Tomogram '" +:+ name +:+ "' has 0 annotations.")] in
  count_query name (st_db s) = 0
  /\ count_annotations w name s = (Ret tt, emits es s)
  /\ main w (CliCommand (CountAnnotations name)) s = (Ret tt, emits es s).
Proof.
  intros Hdb Hok Hname es.
  assert (Hzero : count_query name (st_db s) = 0).
  { apply count_query_zero. destruct Hname as [Hunknown|Hnone]; [|done].
    intros (a & t & _ & Ht & _ & <-). apply Hunknown.
    unfold names. by apply list_elem_of_fmap_2. }
  assert (Hrun : count_annotations w name s = (Ret tt, emits es s)).
  { unfold count_annotations.
    erewrite bind_Ret by (unfold run_query; rewrite Hdb, Hok; reflexivity).
    cbn [st_db emit]. rewrite Hzero. unfold print, tell. simpl. by norm_state. }
  split; [done|]. split; [done|].
  unfold main. erewrite bind_Ret by reflexivity. by erewrite try_Ret by exact Hrun.
Qed.

End QueryTheorems.

(** ** Counting over the two joins *)

Section JoinCount.

Import Query.

Lemma sum_list_with_ext {A} (f g : A -> nat) (l : list A) :
  (forall x, f x = g x) -> sum_list_with f l = sum_list_with g l.
Proof. intros Hfg. induction l as [|x l IH]; simpl; [done|]. by rewrite Hfg, IH. Qed.

Lemma sum_list_with_zero {A} (l : list A) : sum_list_with (fun _ => 0) l = 0.
Proof. by induction l. Qed.

Lemma sum_list_with_plus {A} (f g : A -> nat) (l : list A) :
  sum_list_with (fun x => f x + g x) l = sum_list_with f l + sum_list_with g l.
Proof. induction l as [|x l IH]; simpl; [done|]. rewrite IH. lia. Qed.

Lemma sum_list_with_swap {A B} (g : A -> B -> nat) (la : list A) (lb : list B) :
  sum_list_with (fun a => sum_list_with (g a) lb) la
  = sum_list_with (fun b => sum_list_with (fun a => g a b) la) lb.
Proof.
  induction la as [|a la IH]; simpl.
  - by rewrite sum_list_with_zero.
  - by rewrite IH, sum_list_with_plus.
Qed.

Lemma length_filter_bind {A B} (P : B -> Prop) `{forall x, Decision (P x)}
    (f : A -> list B) (l : list A) :
  length (filter P (l ≫= f)) = sum_list_with (fun x => length (filter P (f x))) l.
Proof.
  induction l as [|x l IH]; [done|].
  rewrite bind_cons, filter_app, length_app, IH. reflexivity.
Qed.

Lemma count_query_sum (n : string) (db : database) :
  count_query n db
  = sum_list_with (fun a => sum_list_with (joins n a) (tomograms db)) (annotations db).
Proof.
  unfold count_query, join_at. rewrite length_filter_bind.
  apply sum_list_with_ext. intros a. rewrite length_filter_bind.
  apply sum_list_with_ext. intros t. unfold joins.
  destruct (decide (ann_tomo_id a = Some (tomo_id t))) as [Hid|Hid].
  - rewrite filter_cons, filter_nil. simpl.
    destruct (decide (tomo_name t = n)) as [Hn|Hn].
    + by rewrite decide_True.
    + rewrite decide_False; [done|]. by intros [_ ?].
  - rewrite filter_nil, decide_False; [done|]. by intros [? _].
Qed.

Lemma group_count_sum (n : string) (db : database) :
  group_count n db
  = sum_list_with (fun t => sum_list_with (fun a => joins n a t) (annotations db))
      (tomograms db).
Proof.
  unfold group_count, join_ta. rewrite length_filter_bind.
  apply sum_list_with_ext. intros t. rewrite length_filter_bind.
  apply sum_list_with_ext. intros a. unfold joins.
  destruct (decide (Some (tomo_id t) = ann_tomo_id a)) as [Hid|Hid].
  - rewrite filter_cons, filter_nil. simpl.
    destruct (decide (tomo_name t = n)) as [Hn|Hn].
    + by rewrite decide_True.
    + rewrite decide_False; [done|]. by intros [_ ?].
  - rewrite filter_nil, decide_False; [done|]. by intros [? _].
Qed.

(** Both queries count the same thing. *)
Lemma group_count_count_query (n : string) (db : database) :
  group_count n db = count_query n db.
Proof. by rewrite group_count_sum, count_query_sum, sum_list_with_swap. Qed.

End JoinCount.

(** ** Rich tomograms *)

Section Rich.

Import Query.

Global Instance count_desc_total : Total count_desc.
Proof. intros g1 g2. unfold count_desc. lia. Qed.

Global Instance count_desc_trans : Transitive count_desc.
Proof. intros g1 g2 g3. unfold count_desc. lia. Qed.

Global Instance rich_order_total rank : Total (rich_order rank).
Proof. intros g1 g2. unfold rich_order. lia. Qed.

Global Instance rich_order_trans rank : Transitive (rich_order rank).
Proof. intros g1 g2 g3. unfold rich_order. lia. Qed.

Lemma rich_order_count_desc rank g1 g2 : rich_order rank g1 g2 -> count_desc g1 g2.
Proof. unfold rich_order, count_desc. lia. Qed.

Lemma StronglySorted_weaken {A} (R1 R2 : A -> A -> Prop) (l : list A) :
  (forall x y, R1 x y -> R2 x y) -> StronglySorted R1 l -> StronglySorted R2 l.
Proof.
  intros Himpl. induction 1 as [|x l _ IH Hall]; constructor; [done|].
  eapply Forall_impl; [exact Hall|]. intros y. apply Himpl.
Qed.

Lemma group_count_pos (n : string) (db : database) :
  0 < group_count n db <-> n ∈ (fun p => tomo_name p.1) <$> join_ta db.
Proof.
  split.
  - intros Hpos. destruct (decide (n ∈ (fun p => tomo_name p.1) <$> join_ta db)) as [|Hn];
      [done|].
    assert (group_count n db = 0); [|lia].
    apply length_filter_zero. intros p Hp Hname. apply Hn.
    apply list_elem_of_fmap. by exists p.
  - intros (p & Hname & Hp)%list_elem_of_fmap.
    destruct (decide (group_count n db = 0)) as [Hz|]; [|lia].
    destruct (proj1 (length_filter_zero _ _) Hz p Hp (eq_sym Hname)).
Qed.

Lemma elem_of_groups (db : database) (n : string) (c : nat) :
  (n, c) ∈ groups db <-> c = group_count n db /\ 0 < c.
Proof.
  unfold groups. rewrite list_elem_of_fmap. split.
  - intros (n' & [= -> ->] & Hn).
    apply (proj1 (elem_of_remove_dups _ _)) in Hn.
    split; [done|]. exact (proj2 (group_count_pos n' db) Hn).
  - intros [-> Hpos]. exists n. split; [done|].
    apply (proj2 (elem_of_remove_dups _ _)).
    exact (proj1 (group_count_pos n db) Hpos).
Qed.

Lemma groups_names (db : database) :
  (groups db).*1 = remove_dups ((fun p => tomo_name p.1) <$> join_ta db).
Proof.
  unfold groups.
  generalize (remove_dups ((fun p => tomo_name p.1) <$> join_ta db)). intros l.
  induction l as [|n l IH]; [done|]. simpl. f_equal. exact IH.
Qed.

(** C9, as the code has it.  [find_rich_tomograms] returns exactly the
    tomogram names that have at least one annotation and whose annotation
    count (the one [count_annotations] reports) is strictly greater than
    the minimum, each once and with that count, ordered by descending
    count. *)
Theorem C9_find_rich (w : World) (s : state) (min_annotations : Z) :
  let df := rich_query (tie_rank w) min_annotations (st_db s) in
  (forall n c,
     (n, c) ∈ df <->
     c = count_query n (st_db s) /\ 0 < c /\ (min_annotations < Z.of_nat c)%Z)
  /\ StronglySorted count_desc df
  /\ NoDup df.*1
  /\ (db_unreachable w = None -> db_fault w StQuery = None ->
      find_rich_tomograms w min_annotations s
      = (Ret tt,
         emits [EConnect; ESql (SqlRich min_annotations);
                rich_output min_annotations df] s)).
Proof.
  intros df. split; [|split; [|split]].
  - intros n c. unfold df, rich_query. rewrite merge_sort_Permutation.
    rewrite list_elem_of_filter, elem_of_groups, group_count_count_query. simpl.
    split; [by intros (? & ? & ?)|by intros (? & ? & ?)].
  - apply (StronglySorted_weaken (rich_order (tie_rank w))).
    + apply rich_order_count_desc.
    + apply Sorted_StronglySorted; [apply _|]. apply Sorted_merge_sort. apply _.
  - unfold df, rich_query. rewrite merge_sort_Permutation.
    apply (sublist_NoDup _ (groups (st_db s)).*1).
    + rewrite groups_names. apply NoDup_remove_dups.
    + apply fmap_sublist, sublist_filter.
  - intros Hdb Hok. unfold find_rich_tomograms.
    erewrite bind_Ret by (unfold run_query; rewrite Hdb, Hok; reflexivity).
    cbn [st_db emit]. fold df. unfold rich_output.
    destruct df; unfold print, tell; by norm_state.
Qed.

End Rich.

(** For a negative minimum the result is not "exactly the tomograms whose
    count is strictly greater": TS_3 has 0 annotations, 0 is strictly
    greater than -1, and TS_3 is not returned. *)
Lemma C9_counterexample :
  "TS_3" ∈ names ex_db_sparse
  /\ Query.count_query "TS_3" ex_db_sparse = 0
  /\ (-1 < Z.of_nat (Query.count_query "TS_3" ex_db_sparse))%Z
  /\ Query.rich_query (tie_rank ex_world) (-1) ex_db_sparse = [("TS_1", 1)]
  /\ ("TS_3", 0) ∉ Query.rich_query (tie_rank ex_world) (-1) ex_db_sparse.
Proof.
  assert (Hq : Query.rich_query (tie_rank ex_world) (-1) ex_db_sparse = [("TS_1", 1)]) by (by vm_compute).
  split; [|split; [|split; [|split]]].
  - unfold names. simpl. apply list_elem_of_further, list_elem_of_here.
  - reflexivity.
  - reflexivity.
  - exact Hq.
  - rewrite Hq. by intros [=]%list_elem_of_singleton.
Qed.

(** ** The theorems at the example worlds *)

Lemma ex_world_ready : vault_ready ex_world 0.
Proof. split; [lia|]. split; [intros j Hj; lia|reflexivity]. Qed.

Lemma ex_seeded_credentials (s : state) :
  st_vault s = st_vault ex_seeded -> credentials s "cryoet_user" "s3cret" "cryoet".
Proof. intros Hv. exists ex_doc. rewrite Hv. repeat split; reflexivity. Qed.

Lemma C1_witness :
  labels_csv ex_world_no_csv = None
  /\ Etl.exit_status (Etl.program ex_world_no_csv ex_seeded).1 = 0%Z
  /\ tomograms (st_db (Etl.program ex_world_no_csv ex_seeded).2) = [].
Proof.
  assert (Hcsv : labels_csv ex_world_no_csv = None) by reflexivity.
  destruct (C1_missing_csv_commits_schema_only ex_world_no_csv ex_seeded 0
              "cryoet_user" "s3cret" "cryoet"
              "CREATE TABLE IF NOT EXISTS tomograms ();" Hcsv) as [Hrows Hrun].
  split; [exact Hcsv|]. split.
  - apply Hrun; try reflexivity.
    + exact ex_world_ready.
    + by apply ex_seeded_credentials.
  - apply (Hrows _ _ (surjective_pairing _)).
Defined.

Lemma ex_labels_loadable : Forall (loadable ex_world) ex_labels.
Proof. apply (bool_decide_unpack _). by vm_compute. Qed.

Lemma C2_witness :
  Etl.program ex_world ex_seeded = (Ret tt, ex_loaded)
  /\ labels_csv ex_world = labels_csv ex_world
  /\ tomograms (st_db (Etl.program ex_world ex_loaded).2) = tomograms (st_db ex_loaded)
  /\ (tomo_id <$> tomograms (st_db (Etl.program ex_world ex_loaded).2)) = [1; 2].
Proof.
  assert (H1 : Etl.program ex_world ex_seeded = (Ret tt, ex_loaded)) by (by vm_compute).
  split; [exact H1|]. split; [reflexivity|].
  destruct (C2_dimension_merge_idempotent ex_world ex_world ex_seeded ex_loaded
              _ (Ret tt) _ H1 (surjective_pairing _) eq_refl eq_refl) as [Heq _].
  split; [exact Heq|]. rewrite Heq. by vm_compute.
Defined.


(** The exit status of the first run that writes the secret is not a
    distinguished one: a run that found the secret and loaded the CSV ends
    with the same status, 0. *)
Lemma C4_counterexample :
  let w := ex_world_env "cryoet_user" "s3cret" "cryoet" in
  st_vault ex_fresh !! Etl.SECRET_PATH = None
  /\ is_Some (st_vault (Etl.program w ex_fresh).2 !! Etl.SECRET_PATH)
  /\ existsb is_vault_write (st_trace (Etl.program w ex_fresh).2) = true
  /\ existsb is_db_event (st_trace (Etl.program w ex_fresh).2) = false
  /\ existsb is_vault_write (st_trace (Etl.program ex_world ex_seeded).2) = false
  /\ length (annotations (st_db (Etl.program ex_world ex_seeded).2)) = 3
  /\ Etl.exit_status (Etl.program w ex_fresh).1 = 0%Z
  /\ Etl.exit_status (Etl.program w ex_fresh).1
     = Etl.exit_status (Etl.program ex_world ex_seeded).1.
Proof.
  cbv zeta. split; [reflexivity|]. split; [by vm_compute; eexists|].
  repeat split; by vm_compute.
Qed.

Lemma C4_witness :
  let w := ex_world_env "cryoet_user" "s3cret" "cryoet" in
  st_vault ex_fresh !! Etl.SECRET_PATH = None
  /\ is_Some (st_vault (Etl.program w ex_fresh).2 !! Etl.SECRET_PATH)
  /\ (Etl.program w ex_fresh).1 = SysExit 0
  /\ st_db (Etl.program w ex_fresh).2 = st_db ex_fresh
  /\ Forall (loadable ex_world) ex_labels
  /\ (Etl.program ex_world (Etl.program w ex_fresh).2).1 = Ret tt
  /\ length (annotations (st_db (Etl.program ex_world (Etl.program w ex_fresh).2).2)) = 3.
Proof.
  intros w.
  assert (Hsome : is_Some (st_vault (Etl.program w ex_fresh).2 !! Etl.SECRET_PATH))
    by (by vm_compute; eexists).
  destruct (C4_first_run_then_rerun w ex_fresh _ _ (surjective_pairing _) eq_refl Hsome)
    as (Hr & _ & _ & _ & Hdb & _ & Hagain).
  split; [reflexivity|]. split; [exact Hsome|]. split; [exact Hr|]. split; [exact Hdb|].
  split; [exact ex_labels_loadable|].
  destruct (Hagain ex_world 0 "CREATE TABLE IF NOT EXISTS tomograms ();" ex_labels
              ex_world_ready eq_refl eq_refl eq_refl eq_refl eq_refl ex_labels_loadable
              (fun _ => eq_refl))
    as (_ & s2 & -> & _ & [Hlen _] & _).
  split; [reflexivity|exact Hlen].
Defined.

Lemma C5_witness :
  vault_read_error ex_world = None
  /\ st_vault ex_seeded !! Etl.SECRET_PATH = Some ex_doc
  /\ Etl.get_db_credentials_from_vault ex_world ex_seeded
     = (Ret ex_doc, emits [EVaultRead "cryoet"] ex_seeded).
Proof.
  split; [reflexivity|]. split; [reflexivity|].
  apply C5_found_short_circuits; reflexivity.
Defined.

Lemma C6_witness :
  vault_read_error ex_world = None
  /\ st_vault ex_fresh !! Etl.SECRET_PATH = None
  /\ environ ex_world !! "POSTGRES_USER" = None
  /\ (Etl.get_db_credentials_from_vault ex_world ex_fresh).1 = SysExit 1
  /\ (Etl.program ex_world ex_fresh).1 = SysExit 1.
Proof.
  destruct (C6_missing_first_run_config ex_world ex_fresh 0 eq_refl eq_refl
              (or_introl eq_refl)) as (Hcred & _ & _ & _ & _ & _ & Hrun).
  split; [reflexivity|]. split; [reflexivity|]. split; [reflexivity|].
  split; [by rewrite Hcred|].
  destruct (Hrun ex_world_ready) as [-> _]. reflexivity.
Defined.

Lemma C7_witness :
  vault_ready ex_world 0
  /\ wait_for_vault ex_world 5 0 ex_fresh = (Ret tt, emits [EHealth] ex_fresh)
  /\ (forall j, j < 5 -> health ex_world_unhealthy j = Unhealthy)
  /\ (Etl.program ex_world_unhealthy ex_seeded).1 = SysExit 1.
Proof.
  split; [exact ex_world_ready|]. split.
  - destruct (C7_readiness_gate ex_world ex_fresh) as [Hok _].
    exact (Hok 0 ex_world_ready).
  - split; [reflexivity|].
    destruct (C7_readiness_gate ex_world_unhealthy ex_seeded) as [_ Hbad].
    destruct (Hbad (fun j _ => eq_refl)) as (_ & es & -> & _). reflexivity.
Defined.

Lemma C8_witness :
  db_unreachable ex_world = None
  /\ db_fault ex_world StQuery = None
  /\ ("TS_9" ∉ names (st_db ex_loaded))
  /\ Query.count_annotations ex_world "TS_9" ex_loaded
     = (Ret tt,
        emits [EConnect; ESql (SqlCount "TS_9");
               EPrint Stdout "Tomogram 'TS_9' has 0 annotations."] ex_loaded).
Proof.
  assert (Hunknown : "TS_9" ∉ names (st_db ex_loaded)).
  { apply (bool_decide_unpack _). by vm_compute. }
  split; [reflexivity|]. split; [reflexivity|]. split; [exact Hunknown|].
  apply (C8_count_unknown_is_zero ex_world ex_loaded "TS_9" eq_refl eq_refl
           (or_introl Hunknown)).
Defined.

Lemma C9_witness :
  ("TS_1", 2) ∈ Query.rich_query (tie_rank ex_world) 0 (st_db ex_loaded)
  /\ StronglySorted Query.count_desc (Query.rich_query (tie_rank ex_world) 0 (st_db ex_loaded)).
Proof.
  destruct (C9_find_rich ex_world ex_loaded 0) as (Hin & Hsorted & _).
  split; [|exact Hsorted].
  apply Hin. split; [by vm_compute|]. split; lia.
Defined.

Lemma C10_witness :
  vault_read_error ex_world = None
  /\ st_vault ex_fresh !! Query.SECRET_PATH = None
  /\ (Query.get_db_credentials_from_vault ex_world ex_fresh).1 = SysExit 1
  /\ st_vault (Query.get_db_credentials_from_vault ex_world ex_fresh).2 = st_vault ex_fresh
  /\ (Query.program ex_world (Query.CliCommand (Query.CountAnnotations "TS_1")) ex_fresh).1 = SysExit 1.
Proof.
  destruct (C10_query_not_found_is_fatal ex_world ex_fresh 0
              (Query.CliCommand (Query.CountAnnotations "TS_1")) eq_refl eq_refl) as (Hcred & _ & Hrun & _).
  split; [reflexivity|]. split; [reflexivity|].
  rewrite Hcred, (Hrun ex_world_ready). repeat split; reflexivity.
Defined.

(** * Further properties of the code *)

(** ** Failures before the transaction *)

Lemma failed_polls_without (p : event -> bool) (i k : nat) :
  p EHealth = false ->
  (forall msg, p (ELog INFO msg) = false) ->
  (forall n, p (ESleep n) = false) ->
  existsb p (failed_polls i k) = false.
Proof.
  intros Hh Hl Hs. revert i. induction k as [|k IH]; intros i; simpl; [done|].
  by rewrite Hh, Hl, Hs, IH.
Qed.

Lemma failed_polls_no_first_run (i k : nat) :
  existsb is_first_run_event (failed_polls i k) = false.
Proof. by apply failed_polls_without. Qed.

(** X1. In the ETL script a failure of the Vault read other than "path not
    found" is not treated as a first run: the exception leaves
    [get_db_credentials_from_vault] as it is, [main] logs it and the process
    ends with status 1, with no first-run variable read, nothing written to
    the store and no database event. *)
Theorem etl_read_failure_is_fatal (w : World) (s : state) (k : nat) (msg : string) :
  vault_ready w k ->
  vault_read_error w = Some msg ->
  let es := etl_start ++ failed_polls 0 k ++
            [EHealth; EVaultRead "cryoet"; etl_error_log msg] in
  Etl.get_db_credentials_from_vault w s
  = (Raise (PyException msg), emits [EVaultRead "cryoet"] s)
  /\ Etl.program w s = (SysExit 1, emits es s)
  /\ existsb is_first_run_event es = false
  /\ existsb is_db_event es = false.
Proof.
  intros Hk Hread es.
  assert (Hcred : forall s0, Etl.get_db_credentials_from_vault w s0
                  = (Raise (PyException msg), emits [EVaultRead "cryoet"] s0)).
  { intros s0. unfold Etl.get_db_credentials_from_vault.
    erewrite try_Raise;
      [|unfold read_secret_version; erewrite bind_Ret by reflexivity;
        rewrite Hread; reflexivity].
    reflexivity. }
  split; [apply Hcred|]. split.
  - rewrite etl_program_start.
    erewrite try_Raise.
    2:{ unfold Etl.main_try. erewrite bind_Ret by (by apply wait_ready).
        erewrite bind_Raise by apply Hcred. reflexivity. }
    unfold Etl.main_except. erewrite bind_Ret by reflexivity. unfold sys_exit.
    unfold es, etl_error_log. norm_state. by rewrite <- !app_assoc.
  - unfold es. rewrite !existsb_app, failed_polls_no_first_run, failed_polls_no_db.
    by split.
Qed.

(** X2. On a first run with the three variables set to non-empty values, a
    write to the secret store that fails is fatal: the cause is logged, the
    process ends with status 1, the store is as it was and no database event
    happened. *)
Theorem etl_write_failure_is_fatal (w : World) (s : state) (k : nat)
    (u p d msg : string) :
  vault_ready w k ->
  vault_read_error w = None ->
  st_vault s !! Etl.SECRET_PATH = None ->
  environ w !! "POSTGRES_USER" = Some u ->
  environ w !! "POSTGRES_PASSWORD" = Some p ->
  environ w !! "POSTGRES_DB" = Some d ->
  u <> "" -> p <> "" -> d <> "" ->
  vault_write_error w = Some msg ->
  let es := etl_start ++ failed_polls 0 k ++ [EHealth; EVaultRead "cryoet"] ++
            first_run_reads ++
            [EVaultWrite "cryoet" (Etl.first_run_secret (Some u) (Some p) (Some d));
             ELog ERROR ("FATAL: Could not write secrets to Vault: " +:+ msg)] in
  Etl.program w s = (SysExit 1, emits es s)
  /\ existsb is_db_event es = false.
Proof.
  intros Hk Hread Hnone Hu Hp Hd Hu' Hp' Hd' Hwrite es. split.
  - rewrite etl_program_start.
    erewrite try_SysExit.
    2:{ unfold Etl.main_try. erewrite bind_Ret by (by apply wait_ready).
        erewrite bind_SysExit; [reflexivity|].
        unfold Etl.get_db_credentials_from_vault.
        erewrite try_Raise by (by apply read_not_found). cbn beta iota.
        rewrite (first_run_write_fails _ _ msg)
          by (by eauto using all_true_of_nonempty).
        rewrite Hu, Hp, Hd. reflexivity. }
    unfold es. norm_state. by rewrite <- !app_assoc.
  - unfold es. rewrite !existsb_app, failed_polls_no_db. reflexivity.
Qed.

(** X3. When the database cannot be reached, the ETL run makes one
    connection attempt, begins no transaction and sends no statement; the
    [OperationalError] gets the dedicated log line and the process ends with
    status 1, the tables and the store being as they were. *)
Theorem etl_database_unreachable (w : World) (s : state) (k : nat)
    (u p d msg : string) :
  vault_ready w k ->
  vault_read_error w = None ->
  credentials s u p d ->
  engine_accepts w u p d ->
  db_unreachable w = Some msg ->
  Etl.program w s
  = (SysExit 1,
     emits (connect_events w k u p d ++ [EConnect; etl_connection_log msg]) s)
  /\ count_events is_db_event
       (connect_events w k u p d ++ [EConnect; etl_connection_log msg]) = 1.
Proof.
  intros Hk Hread Hcred Hurl Hdb. split.
  - rewrite (etl_program_connects w s k u p d) by done.
    erewrite try_Raise.
    2:{ unfold load_block. erewrite bind_Raise; [reflexivity|].
        unfold engine_begin. rewrite Hdb. reflexivity. }
    unfold Etl.main_except. erewrite bind_Ret by reflexivity. unfold sys_exit.
    unfold etl_connection_log. by norm_state.
  - unfold count_events. rewrite List.filter_app, length_app.
    pose proof (connect_events_no_db w k u p d) as Hno.
    assert (Hnil : List.filter is_db_event (connect_events w k u p d) = []).
    { generalize dependent (connect_events w k u p d). intros l.
      induction l as [|e l IH]; simpl; [done|].
      destruct (is_db_event e); simpl; [done|]. exact IH. }
    rewrite Hnil. reflexivity.
Qed.

(** X4. A Credential Document that lacks one of the three keys is fatal:
    the [KeyError] of the first missing key is logged and the process ends
    with status 1 before the engine is created, so without any database
    event. *)
Theorem etl_incomplete_document (w : World) (s : state) (k : nat)
    (doc : gmap string string) :
  vault_ready w k ->
  vault_read_error w = None ->
  st_vault s !! Etl.SECRET_PATH = Some doc ->
  doc !! "POSTGRES_USER" = None \/ doc !! "POSTGRES_PASSWORD" = None
    \/ doc !! "POSTGRES_DB" = None ->
  exists key,
    key ∈ credential_keys
    /\ doc !! key = None
    /\ Etl.program w s
       = (SysExit 1,
          emits (etl_start ++ failed_polls 0 k ++
                 [EHealth; EVaultRead "cryoet"; etl_error_log ("'" +:+ key +:+ "'")]) s).
Proof.
  intros Hk Hread Hdoc Hmissing.
  assert (Hstart : forall key,
            Etl.main_try w (emits etl_start s)
            = (Raise (KeyError key),
               emits [EVaultRead "cryoet"]
                 (emits (failed_polls 0 k ++ [EHealth]) (emits etl_start s))) ->
            Etl.program w s
            = (SysExit 1,
               emits (etl_start ++ failed_polls 0 k ++
                      [EHealth; EVaultRead "cryoet";
                       etl_error_log ("'" +:+ key +:+ "'")]) s)).
  { intros key Htry. rewrite etl_program_start.
    erewrite try_Raise by exact Htry.
    unfold Etl.main_except. erewrite bind_Ret by reflexivity. unfold sys_exit.
    unfold etl_error_log. norm_state. by rewrite <- !app_assoc. }
  destruct (doc !! "POSTGRES_USER") as [u|] eqn:Hu.
  - destruct (doc !! "POSTGRES_PASSWORD") as [p|] eqn:Hp.
    + destruct (doc !! "POSTGRES_DB") as [d|] eqn:Hd.
      { by destruct Hmissing as [?|[?|?]]. }
      exists "POSTGRES_DB". split; [unfold credential_keys; repeat constructor|]. split; [done|].
      apply Hstart. unfold Etl.main_try.
      erewrite bind_Ret by (by apply wait_ready).
      erewrite bind_Ret by (by apply read_found).
      erewrite bind_Ret by (unfold getitem; rewrite Hu; reflexivity).
      erewrite bind_Ret by (unfold getitem; rewrite Hp; reflexivity).
      erewrite bind_Raise by (unfold getitem; rewrite Hd; reflexivity).
      reflexivity.
    + exists "POSTGRES_PASSWORD". split; [unfold credential_keys; repeat constructor|]. split; [done|].
      apply Hstart. unfold Etl.main_try.
      erewrite bind_Ret by (by apply wait_ready).
      erewrite bind_Ret by (by apply read_found).
      erewrite bind_Ret by (unfold getitem; rewrite Hu; reflexivity).
      erewrite bind_Raise by (unfold getitem; rewrite Hp; reflexivity).
      reflexivity.
  - exists "POSTGRES_USER". split; [unfold credential_keys; repeat constructor|]. split; [done|].
    apply Hstart. unfold Etl.main_try.
    erewrite bind_Ret by (by apply wait_ready).
    erewrite bind_Ret by (by apply read_found).
    erewrite bind_Raise by (unfold getitem; rewrite Hu; reflexivity).
    reflexivity.
Qed.

(** ** A health request that raises *)

Lemma wait_raises_from (w : World) (n i k : nat) (msg : string) (s : state) :
  k < n ->
  (forall j, j < k -> health w (i + j) = Unhealthy) ->
  health w (i + k) = HealthError msg ->
  wait_for_vault w n i s
  = (Raise (PyException msg), emits (failed_polls i k ++ [EHealth]) s).
Proof.
  revert i k s. induction n as [|n IH]; intros i k s Hk Hbad Herr; [lia|].
  destruct k as [|k].
  - rewrite Nat.add_0_r in Herr.
    simpl. unfold bind, read_health_status, tell. by rewrite Herr.
  - pose proof (Hbad 0 ltac:(lia)) as H0. rewrite Nat.add_0_r in H0.
    cbn [wait_for_vault failed_polls].
    unfold bind at 1. unfold read_health_status, bind at 1, tell. rewrite H0.
    cbn [ret]. erewrite bind_Ret by reflexivity. erewrite bind_Ret by reflexivity.
    rewrite (IH (S i) k).
    + by norm_state.
    + lia.
    + intros j Hj. replace (S i + j) with (i + S j) by lia. apply Hbad. lia.
    + by replace (S i + k) with (i + S k) by lia.
Qed.

(** X5. The readiness loop retries only on an unhealthy answer.  When the
    health request itself raises at poll [k], the loop is left at once: no
    sleep follows, no further poll is made, the cause is logged and the ETL
    process ends with status 1 although attempts were left. *)
Theorem etl_health_error_is_not_retried (w : World) (s : state) (k : nat)
    (msg : string) :
  k < 5 ->
  (forall j, j < k -> health w j = Unhealthy) ->
  health w k = HealthError msg ->
  let es := etl_start ++ failed_polls 0 k ++ [EHealth; etl_error_log msg] in
  wait_for_vault w 5 0 s
  = (Raise (PyException msg), emits (failed_polls 0 k ++ [EHealth]) s)
  /\ Etl.program w s = (SysExit 1, emits es s)
  /\ count_events is_health es = S k
  /\ count_events is_any_sleep es = k.
Proof.
  intros Hk Hbad Herr es.
  assert (Hw : forall s0, wait_for_vault w 5 0 s0
            = (Raise (PyException msg), emits (failed_polls 0 k ++ [EHealth]) s0)).
  { intros s0. by apply wait_raises_from. }
  split; [apply Hw|]. split.
  - rewrite etl_program_start.
    erewrite try_Raise.
    2:{ unfold Etl.main_try. erewrite bind_Raise by apply Hw. reflexivity. }
    unfold Etl.main_except. erewrite bind_Ret by reflexivity. unfold sys_exit.
    unfold es, etl_error_log. norm_state. by rewrite <- !app_assoc.
  - assert (Hcount : forall i n,
              count_events is_health (failed_polls i n) = n
              /\ count_events is_any_sleep (failed_polls i n) = n).
    { intros i n. revert i. induction n as [|n IH]; intros i; [done|].
      destruct (IH (S i)) as [Hh Hs]. unfold count_events in *. simpl.
      by rewrite Hh, Hs. }
    unfold es, count_events. rewrite !List.filter_app, !length_app.
    destruct (Hcount 0 k) as [Hh Hs]. unfold count_events in Hh, Hs.
    rewrite Hh, Hs. simpl. lia.
Qed.

(** ** What every step maintains *)

Section Maintains.

Variable R : state -> state -> Prop.
Hypothesis R_refl : forall s, R s s.
Hypothesis R_trans : forall s1 s2 s3, R s1 s2 -> R s2 s3 -> R s1 s3.
Hypothesis R_emit : forall e s, R s (emit e s).

Lemma maintains_ret {A} (a : A) : maintains R (ret a).
Proof. intros s r s' [= _ <-]. apply R_refl. Qed.

Lemma maintains_raise {A} (e : exn) : maintains R (@raise A e).
Proof. intros s r s' [= _ <-]. apply R_refl. Qed.

Lemma maintains_sys_exit {A} (c : Z) : maintains R (@sys_exit A c).
Proof. intros s r s' [= _ <-]. apply R_refl. Qed.

Lemma maintains_tell (e : event) : maintains R (tell e).
Proof. intros s r s' [= _ <-]. apply R_emit. Qed.

Lemma maintains_bind {A B} (m : M A) (k : A -> M B) :
  maintains R m -> (forall a, maintains R (k a)) -> maintains R (bind m k).
Proof.
  intros Hm Hk s r s'. unfold bind.
  destruct (m s) as [[a|e|c] s1] eqn:E; apply Hm in E.
  - intros H%Hk. by eapply R_trans.
  - by intros [= _ <-].
  - by intros [= _ <-].
Qed.

Lemma maintains_try {A} (m : M A) (h : exn -> M A) :
  maintains R m -> (forall e, maintains R (h e)) -> maintains R (try_except m h).
Proof.
  intros Hm Hh s r s'. unfold try_except.
  destruct (m s) as [[a|e|c] s1] eqn:E; apply Hm in E.
  - by intros [= _ <-].
  - intros H%Hh. by eapply R_trans.
  - by intros [= _ <-].
Qed.

Lemma maintains_if {A} (b : bool) (m1 m2 : M A) :
  maintains R m1 -> maintains R m2 -> maintains R (if b then m1 else m2).
Proof. by destruct b. Qed.

Lemma maintains_log l msg : maintains R (log l msg).
Proof. apply maintains_tell. Qed.

Lemma maintains_print out msg : maintains R (print out msg).
Proof. apply maintains_tell. Qed.

Lemma maintains_sleep n : maintains R (sleep n).
Proof. apply maintains_tell. Qed.

Local Hint Resolve maintains_ret maintains_raise maintains_sys_exit maintains_tell
  maintains_bind maintains_try maintains_if maintains_log maintains_print
  maintains_sleep : core.

Lemma maintains_create_engine w url : maintains R (create_engine w url).
Proof.
  unfold create_engine. apply maintains_bind; [auto|].
  intros _. destruct (engine_error w url); auto.
Qed.

Local Hint Resolve maintains_create_engine : core.

Lemma maintains_getenv w name : maintains R (getenv w name).
Proof. unfold getenv. auto. Qed.

Lemma maintains_getenv_default w name dflt : maintains R (getenv_default w name dflt).
Proof. unfold getenv_default. auto. Qed.

Lemma maintains_getitem d key : maintains R (getitem d key).
Proof. unfold getitem. destruct (d !! key); auto. Qed.

Lemma maintains_read_health_status w i : maintains R (read_health_status w i).
Proof.
  unfold read_health_status. apply maintains_bind; [auto|].
  intros _. destruct (health w i); auto.
Qed.

Lemma maintains_read_secret_version w path : maintains R (read_secret_version w path).
Proof.
  unfold read_secret_version. apply maintains_bind; [auto|].
  intros _. destruct (vault_read_error w); [auto|].
  intros s r s'. destruct (st_vault s !! path); intros [= _ <-]; apply R_refl.
Qed.

Local Hint Resolve maintains_getenv maintains_getenv_default maintains_getitem
  maintains_read_health_status maintains_read_secret_version : core.

Lemma maintains_wait_for_vault w n i : maintains R (wait_for_vault w n i).
Proof.
  revert i. induction n as [|n IH]; intros i; simpl; [auto|].
  apply maintains_bind; [auto|]. intros ok. apply maintains_if; auto.
Qed.

Lemma maintains_run_query {A} w q (f : database -> A) :
  maintains R (Query.run_query w q f).
Proof.
  intros s r s'. unfold Query.run_query.
  destruct (db_unreachable w); [intros [= _ <-]; apply R_emit|].
  destruct (db_fault w StQuery); intros [= _ <-];
    (eapply R_trans; [apply R_emit|apply R_emit]).
Qed.

Local Hint Resolve maintains_wait_for_vault maintains_run_query : core.

(** The whole query tool consists of such steps. *)
Lemma maintains_query_program w argv : maintains R (Query.program w argv).
Proof.
  unfold Query.program, Query.module_init, Query.main, Query.parse_args,
    Query.get_db_credentials_from_vault, Query.count_annotations,
    Query.find_rich_tomograms.
  apply maintains_bind.
  - apply maintains_bind; [auto|]. intros _. apply maintains_bind; [auto|].
    intros _. apply maintains_try; [|auto].
    apply maintains_bind; [auto|]. intros _. apply maintains_bind.
    + apply maintains_try; [auto|]. intros []; auto.
    + auto 10.
  - intros _. apply maintains_bind; [destruct argv; auto|].
    intros args. apply maintains_try.
    + destruct args; apply maintains_bind; auto.
      intros df. destruct df; auto.
    + intros []; auto.
Qed.

(** Steps of the load, for a relation that allows every change of the
    tables in which the sequence of tomograms does not go back. *)
Hypothesis R_db : forall d s,
  tomograms_seq (st_db s) <= tomograms_seq d -> R s (set_db d s).

Lemma maintains_execute w st q f :
  (forall db, tomograms_seq (f db) = tomograms_seq db) ->
  maintains R (execute w st q f).
Proof.
  intros Hf s r s'. unfold execute.
  destruct (db_fault w st); intros [= _ <-]; [apply R_emit|].
  eapply R_trans; [apply R_emit|apply R_db]. simpl. by rewrite Hf.
Qed.

Local Hint Resolve maintains_execute : core.

Lemma maintains_merge w : maintains R (Etl.merge w).
Proof.
  intros s r s'. unfold Etl.merge.
  destruct (db_fault w StMerge); [intros [= _ <-]; apply R_emit|]. simpl.
  assert (Hseq : tomograms_seq (st_db s)
                 <= tomograms_seq (Etl.merge_tomograms (serial_burn w) (st_db s)).1)
    by apply merge_rows_seq.
  destruct (Etl.merge_tomograms (serial_burn w) (st_db s)) as [db []]; simpl in *;
    intros [= _ <-]; (eapply R_trans; [apply R_emit|by apply R_db]).
Qed.

Lemma maintains_insert_chunk w k c : maintains R (Etl.insert_chunk w k c).
Proof.
  intros s r s'. unfold Etl.insert_chunk.
  destruct (db_fault w (StLoad k)); [intros [= _ <-]; apply R_emit|]. simpl.
  destruct (Etl.insert_annotations w c (st_db s)) as [db|] eqn:E;
    intros [= _ <-]; [|apply R_emit].
  eapply R_trans; [apply R_emit|apply R_db]. simpl.
  apply insert_annotations_spec in E as (ps & _ & _ & _ & _ & -> & _). done.
Qed.

Local Hint Resolve maintains_merge maintains_insert_chunk : core.

Lemma maintains_load_chunks w k cs : maintains R (Etl.load_chunks w k cs).
Proof. revert k. induction cs as [|c cs IH]; intros k; simpl; auto. Qed.

Local Hint Resolve maintains_load_chunks : core.

Lemma maintains_transaction w : maintains R (Etl.transaction w).
Proof.
  unfold Etl.transaction, Etl.read_schema, Etl.labels_exists, Etl.read_labels,
    Etl.key_column, Etl.to_sql_temp, Etl.select_facts, Etl.to_sql_annotations.
  apply maintains_bind; [auto|]. intros _.
  apply maintains_bind.
  { apply maintains_bind; [auto|]. intros _. destruct (schema_sql w); auto. }
  intros ddl. apply maintains_bind; [auto|]. intros _.
  apply maintains_bind; [auto|]. intros present.
  apply maintains_if; [auto|].
  apply maintains_bind.
  { apply maintains_bind; [auto|]. intros _.
    destruct (labels_csv w) as [[]|]; auto. }
  intros df. apply maintains_bind; [destruct df; auto|]. intros keys.
  apply maintains_bind; [apply maintains_if; auto|]. intros _.
  apply maintains_bind; [auto|]. intros _.
  apply maintains_bind; [auto|]. intros _.
  apply maintains_bind.
  { intros s r s'. unfold Etl.read_tomo_map.
    destruct (db_fault w StReadMap); intros [= _ <-]; apply R_emit. }
  intros m. apply maintains_bind; [destruct df; auto|]. intros facts.
  apply maintains_bind; [auto|]. intros _.
  apply maintains_bind; [auto|]. intros _.
  apply maintains_bind; [auto|]. intros _.
  apply maintains_bind; [apply maintains_if; auto|]. auto.
Qed.

Lemma maintains_engine_begin {A} w (body : M A) :
  maintains R body -> maintains R (engine_begin w body).
Proof.
  intros Hbody s r s'. unfold engine_begin.
  destruct (db_unreachable w); [intros [= _ <-]; apply R_emit|].
  destruct (body _) as [[a|e|c] s1] eqn:E; apply Hbody in E; intros [= _ <-];
    (eapply R_trans; [apply R_emit|]); (eapply R_trans; [apply R_emit|]);
    (eapply R_trans; [exact E|]).
  - apply R_emit.
  - eapply R_trans; [apply (R_db (rollback (st_db s) (st_db s1))); done|apply R_emit].
  - eapply R_trans; [apply (R_db (rollback (st_db s) (st_db s1))); done|apply R_emit].
Qed.

(** The ETL run, given what the credential step does. *)
Lemma maintains_etl_program w :
  maintains R (Etl.get_db_credentials_from_vault w) ->
  maintains R (Etl.program w).
Proof.
  intros Hcred. unfold Etl.program, Etl.main, Etl.main_try, Etl.main_except.
  apply maintains_bind; [auto|]. intros _. apply maintains_bind; [auto|].
  intros _. apply maintains_bind; [auto|]. intros _.
  apply maintains_try; [|intros []; auto].
  apply maintains_bind; [auto|]. intros _.
  apply maintains_bind; [exact Hcred|]. intros creds.
  apply maintains_bind; [auto|]. intros u.
  apply maintains_bind; [auto|]. intros p.
  apply maintains_bind; [auto|]. intros d.
  apply maintains_bind; [auto|]. intros h.
  apply maintains_bind; [auto|]. intros _.
  apply maintains_bind.
  - apply maintains_engine_begin, maintains_transaction.
  - intros []; auto.
Qed.

End Maintains.

(** ** The query tool only reads *)

(** X6. The query tool is read-only: whatever the world, the command line
    and the outcome, a run of the tool leaves the tables and the secret
    store exactly as they were. *)
Theorem query_tool_is_read_only (w : World) (argv : Query.cli) (s : state) :
  st_db (Query.program w argv s).2 = st_db s
  /\ st_vault (Query.program w argv s).2 = st_vault s.
Proof.
  apply (maintains_query_program same_data) with (w := w) (argv := argv) (r := (Query.program w argv s).1).
  - by intros s0.
  - intros s1 s2 s3 [? ?] [? ?]. split; congruence.
  - by intros e s0.
  - apply surjective_pairing.
Qed.

(** ** The secret store under the ETL run *)

Lemma store_step_refl (s : state) : store_step s s.
Proof. by left. Qed.

Lemma store_step_trans (s1 s2 s3 : state) :
  store_step s1 s2 -> store_step s2 s3 -> store_step s1 s3.
Proof.
  intros [H12|(Hnone & doc & H12)] [H23|(Hnone' & doc' & H23)].
  - left. congruence.
  - right. rewrite <- H12. split; [done|]. by exists doc'.
  - right. split; [done|]. exists doc. congruence.
  - rewrite H12, lookup_insert_eq in Hnone'. discriminate.
Qed.

Lemma store_step_credentials (w : World) :
  maintains store_step (Etl.get_db_credentials_from_vault w).
Proof.
  intros s r s' H. destruct (vault_read_error w) as [msg|] eqn:Hread.
  - unfold Etl.get_db_credentials_from_vault in H.
    erewrite try_Raise in H;
      [|unfold read_secret_version; erewrite bind_Ret by reflexivity;
        rewrite Hread; reflexivity].
    injection H as _ <-. by left.
  - destruct (st_vault s !! Etl.SECRET_PATH) as [doc|] eqn:Hdoc.
    + rewrite (read_found w s doc) in H by done.
      injection H as _ <-. by left.
    + unfold Etl.get_db_credentials_from_vault in H.
      erewrite try_Raise in H by (by apply read_not_found). cbn beta iota in H.
      destruct (all (first_run_values w)) eqn:Hall;
        [destruct (vault_write_error w) as [msg|] eqn:Hwrite|].
      * rewrite (first_run_write_fails _ _ msg) in H by done.
        injection H as _ <-. by left.
      * rewrite first_run_seeds in H by done. injection H as _ <-.
        right. split; [exact Hdoc|]. by eexists.
      * rewrite first_run_incomplete in H by done. injection H as _ <-. by left.
Qed.

(** X7. The ETL run never overwrites a secret.  It leaves the secret
    store as it is, except that it may create the Credential Document when
    there was none; a store that holds the document is unchanged by any
    run, and no other path of the store is ever touched. *)
Theorem etl_store_is_written_once (w : World) (s : state) :
  let s' := (Etl.program w s).2 in
  store_step s s'
  /\ (is_Some (st_vault s !! Etl.SECRET_PATH) -> st_vault s' = st_vault s)
  /\ (forall path, path <> Etl.SECRET_PATH -> st_vault s' !! path = st_vault s !! path).
Proof.
  intros s'.
  assert (Hstep : store_step s s').
  { apply (maintains_etl_program store_step store_step_refl store_step_trans)
      with (w := w) (r := (Etl.program w s).1).
    - by left.
    - by left.
    - apply store_step_credentials.
    - apply surjective_pairing. }
  split; [exact Hstep|]. split.
  - intros [doc Hdoc]. destruct Hstep as [?|(Hnone & _)]; [done|congruence].
  - intros path Hpath. destruct Hstep as [->|(_ & doc & ->)]; [done|].
    by rewrite lookup_insert_ne.
Qed.

(** ** How the processes end *)

Section EndsIn.

Variable codes : Z -> Prop.

Lemma ends_weaken {A} (raises raises' : Prop) (m : M A) :
  (raises -> raises') -> ends_in raises codes m -> ends_in raises' codes m.
Proof.
  intros Himp Hm s r s' H. specialize (Hm s r s' H). destruct r; auto.
Qed.

Lemma ends_ret {A} raises (a : A) : ends_in raises codes (ret a).
Proof. by intros s r s' [= <- _]. Qed.

Lemma ends_raise {A} (e : exn) : ends_in True codes (@raise A e).
Proof. by intros s r s' [= <- _]. Qed.

Lemma ends_sys_exit {A} raises (c : Z) : codes c -> ends_in raises codes (@sys_exit A c).
Proof. by intros Hc s r s' [= <- _]. Qed.

Lemma ends_tell raises (e : event) : ends_in raises codes (tell e).
Proof. by intros s r s' [= <- _]. Qed.

Lemma ends_bind {A B} raises (m : M A) (k : A -> M B) :
  ends_in raises codes m -> (forall a, ends_in raises codes (k a)) ->
  ends_in raises codes (bind m k).
Proof.
  intros Hm Hk s r s'. unfold bind.
  destruct (m s) as [[a|e|c] s1] eqn:E; apply Hm in E.
  - apply Hk.
  - by intros [= <- _].
  - by intros [= <- _].
Qed.

(** A handler that covers every exception decides whether [try] can
    raise. *)
Lemma ends_try {A} raises (m : M A) (h : exn -> M A) :
  ends_in True codes m -> (forall e, ends_in raises codes (h e)) ->
  ends_in raises codes (try_except m h).
Proof.
  intros Hm Hh s r s'. unfold try_except.
  destruct (m s) as [[a|e|c] s1] eqn:E; apply Hm in E.
  - by intros [= <- _].
  - apply Hh.
  - by intros [= <- _].
Qed.

Lemma ends_if {A} raises (b : bool) (m1 m2 : M A) :
  ends_in raises codes m1 -> ends_in raises codes m2 ->
  ends_in raises codes (if b then m1 else m2).
Proof. by destruct b. Qed.

Lemma ends_log raises l msg : ends_in raises codes (log l msg).
Proof. apply ends_tell. Qed.

Lemma ends_print raises out msg : ends_in raises codes (print out msg).
Proof. apply ends_tell. Qed.

Lemma ends_sleep raises n : ends_in raises codes (sleep n).
Proof. apply ends_tell. Qed.

Local Hint Resolve ends_ret ends_raise ends_sys_exit ends_tell ends_bind ends_try
  ends_if ends_log ends_print ends_sleep : core.

Lemma ends_create_engine w url : ends_in True codes (create_engine w url).
Proof.
  unfold create_engine. apply ends_bind; [auto|].
  intros _. destruct (engine_error w url); auto.
Qed.

Local Hint Resolve ends_create_engine : core.

Lemma ends_getenv raises w name : ends_in raises codes (getenv w name).
Proof. unfold getenv. auto. Qed.

Lemma ends_getenv_default raises w name dflt :
  ends_in raises codes (getenv_default w name dflt).
Proof. unfold getenv_default. auto. Qed.

Lemma ends_getitem d key : ends_in True codes (getitem d key).
Proof. unfold getitem. destruct (d !! key); auto. Qed.

Lemma ends_read_health_status w i : ends_in True codes (read_health_status w i).
Proof.
  unfold read_health_status. apply ends_bind; [auto|].
  intros _. destruct (health w i); auto.
Qed.

Lemma ends_read_secret_version w path : ends_in True codes (read_secret_version w path).
Proof.
  unfold read_secret_version. apply ends_bind; [auto|].
  intros _. destruct (vault_read_error w); [auto|].
  intros s r s'. by destruct (st_vault s !! path); intros [= <- _].
Qed.

Lemma ends_create_or_update_secret w path doc :
  ends_in True codes (create_or_update_secret w path doc).
Proof.
  unfold create_or_update_secret. apply ends_bind; [auto|].
  intros _. destruct (vault_write_error w); [auto|].
  by intros s r s' [= <- _].
Qed.

Local Hint Resolve ends_getenv ends_getenv_default ends_getitem
  ends_read_health_status ends_read_secret_version
  ends_create_or_update_secret : core.

Lemma ends_wait_for_vault w n i : ends_in True codes (wait_for_vault w n i).
Proof.
  revert i. induction n as [|n IH]; intros i; simpl; [auto|].
  apply ends_bind; [auto|]. intros ok. apply ends_if; auto.
Qed.

Lemma ends_execute w st q f : ends_in True codes (execute w st q f).
Proof. intros s r s'. unfold execute. by destruct (db_fault w st); intros [= <- _]. Qed.

Lemma ends_run_query {A} w q (f : database -> A) :
  ends_in True codes (Query.run_query w q f).
Proof.
  intros s r s'. unfold Query.run_query.
  destruct (db_unreachable w); [by intros [= <- _]|].
  by destruct (db_fault w StQuery); intros [= <- _].
Qed.

Lemma ends_merge w : ends_in True codes (Etl.merge w).
Proof.
  intros s r s'. unfold Etl.merge.
  destruct (db_fault w StMerge); [by intros [= <- _]|]. simpl.
  by destruct (Etl.merge_tomograms _ _) as [db []]; simpl; intros [= <- _].
Qed.

Lemma ends_insert_chunk w k c : ends_in True codes (Etl.insert_chunk w k c).
Proof.
  intros s r s'. unfold Etl.insert_chunk.
  destruct (db_fault w (StLoad k)); [by intros [= <- _]|]. simpl.
  by destruct (Etl.insert_annotations _ _ _); intros [= <- _].
Qed.

Local Hint Resolve ends_wait_for_vault ends_execute ends_run_query ends_merge
  ends_insert_chunk : core.

Lemma ends_load_chunks w k cs : ends_in True codes (Etl.load_chunks w k cs).
Proof. revert k. induction cs as [|c cs IH]; intros k; simpl; auto. Qed.

Local Hint Resolve ends_load_chunks : core.

Lemma ends_transaction w : ends_in True codes (Etl.transaction w).
Proof.
  unfold Etl.transaction, Etl.read_schema, Etl.labels_exists, Etl.read_labels,
    Etl.key_column, Etl.to_sql_temp, Etl.select_facts, Etl.to_sql_annotations.
  apply ends_bind; [auto|]. intros _.
  apply ends_bind.
  { apply ends_bind; [auto|]. intros _. destruct (schema_sql w); auto. }
  intros ddl. apply ends_bind; [auto|]. intros _.
  apply ends_bind; [auto|]. intros present.
  apply ends_if; [auto|].
  apply ends_bind.
  { apply ends_bind; [auto|]. intros _. destruct (labels_csv w) as [[]|]; auto. }
  intros df. apply ends_bind; [destruct df; auto|]. intros keys.
  apply ends_bind; [apply ends_if; auto|]. intros _.
  apply ends_bind; [auto|]. intros _.
  apply ends_bind; [auto|]. intros _.
  apply ends_bind.
  { intros s r s'. unfold Etl.read_tomo_map.
    by destruct (db_fault w StReadMap); intros [= <- _]. }
  intros m. apply ends_bind; [destruct df; auto|]. intros facts.
  apply ends_bind; [auto|]. intros _.
  apply ends_bind; [auto|]. intros _.
  apply ends_bind; [auto|]. intros _.
  apply ends_bind; [apply ends_if; auto|]. auto.
Qed.

Lemma ends_engine_begin {A} w (body : M A) :
  ends_in True codes body -> ends_in True codes (engine_begin w body).
Proof.
  intros Hbody s r s'. unfold engine_begin.
  destruct (db_unreachable w); [by intros [= <- _]|].
  destruct (body _) as [[a|e|c] s1] eqn:E; apply Hbody in E; by intros [= <- _].
Qed.

End EndsIn.

(** X8. The ETL process never ends with an uncaught exception: for every
    world and start state it either returns from [main] or ends by
    [sys.exit] with status 0 or 1, so that its exit status is 0 or 1. *)
Theorem etl_exit_status_is_0_or_1 (w : World) (s : state) :
  let r := (Etl.program w s).1 in
  (r = Ret tt \/ r = SysExit 0 \/ r = SysExit 1)
  /\ (Etl.exit_status r = 0%Z \/ Etl.exit_status r = 1%Z).
Proof.
  intros r.
  assert (Hends : ends_in False etl_codes (Etl.program w)).
  { unfold Etl.program, Etl.main, Etl.main_try, Etl.main_except,
      Etl.get_db_credentials_from_vault, Etl.first_run_init.
    apply ends_bind; [apply ends_getenv_default|]. intros _.
    apply ends_bind; [apply ends_getenv_default|]. intros _.
    apply ends_bind; [apply ends_log|]. intros _.
    apply ends_try.
    - apply ends_bind; [apply ends_wait_for_vault|]. intros _.
      apply ends_bind.
      { apply ends_try; [apply ends_read_secret_version|].
        intros e. destruct e; try apply ends_raise.
        apply ends_bind; [apply ends_log|]. intros _.
        apply ends_bind; [apply ends_log|]. intros _.
        apply ends_bind; [apply ends_getenv|]. intros u.
        apply ends_bind; [apply ends_getenv|]. intros p.
        apply ends_bind; [apply ends_getenv|]. intros d.
        apply ends_bind.
        { apply ends_if; [|apply ends_ret].
          apply ends_bind; [apply ends_log|]. intros _.
          apply ends_sys_exit. by right. }
        intros _. apply ends_try.
        - apply ends_bind; [apply ends_create_or_update_secret|]. intros _.
          apply ends_bind; [apply ends_log|]. intros _.
          apply ends_sys_exit. by left.
        - intros e. apply ends_bind; [apply ends_log|]. intros _.
          apply ends_sys_exit. by right. }
      intros creds.
      apply ends_bind; [apply ends_getitem|]. intros u.
      apply ends_bind; [apply ends_getitem|]. intros p.
      apply ends_bind; [apply ends_getitem|]. intros d.
      apply ends_bind; [apply ends_getenv_default|]. intros h.
      apply ends_bind; [apply ends_create_engine|]. intros _.
      apply ends_bind; [apply ends_engine_begin, ends_transaction|].
      intros []; [apply ends_ret|apply ends_log].
    - intros e. destruct e; (apply ends_bind; [apply ends_log|]); intros _;
        apply ends_sys_exit; by right. }
  specialize (Hends s r (Etl.program w s).2 (surjective_pairing _)).
  destruct r as [[]|e|c]; [by split; left|done|].
  destruct Hends as [->| ->]; split; auto.
Qed.

(** The code of the query tool calls [sys.exit] with status 1 only and
    lets no exception escape: so it is at load time, *)
Lemma query_init_ends (w : World) : ends_in False query_codes (Query.module_init w).
Proof.
  unfold Query.module_init, Query.get_db_credentials_from_vault.
  apply ends_bind; [apply ends_getenv_default|]. intros _.
  apply ends_bind; [apply ends_getenv_default|]. intros _.
  apply ends_try.
  - apply ends_bind; [apply ends_wait_for_vault|]. intros _.
    apply ends_bind.
    { apply ends_try; [apply ends_read_secret_version|].
      intros e. destruct e; (apply ends_bind; [apply ends_log|]); intros _;
        by apply ends_sys_exit. }
    intros creds.
    apply ends_bind; [apply ends_getitem|]. intros u.
    apply ends_bind; [apply ends_getitem|]. intros p.
    apply ends_bind; [apply ends_getitem|]. intros d.
    apply ends_bind; [apply ends_getenv_default|]. intros h.
    apply ends_create_engine.
  - intros e. apply ends_bind; [apply ends_print|]. intros _.
    by apply ends_sys_exit.
Qed.

(** and so it is in [main] once the command line is parsed. *)
Lemma query_command_ends (w : World) (args : Query.command) :
  ends_in False query_codes (Query.main w (Query.CliCommand args)).
Proof.
  unfold Query.main, Query.parse_args, Query.count_annotations,
    Query.find_rich_tomograms.
  apply ends_bind; [apply ends_ret|]. intros args'. apply ends_try.
  - destruct args'.
    + apply ends_bind; [apply ends_run_query|]. intros n. apply ends_print.
    + apply ends_bind; [apply ends_run_query|]. intros df.
      destruct df; [apply ends_print|apply ends_tell].
  - intros e. destruct e; (apply ends_bind; [apply ends_print|]); intros _;
      by apply ends_sys_exit.
Qed.

(** X9. The query tool never ends with an uncaught exception, and its exit
    status is decided in this order: a failure at load time (Vault, the
    secret, the URL) ends the process with status 1 whatever the command
    line is; after that argparse ends it with status 0 for --help and with
    status 2 for a command line that it refuses; a parsed command
    (count-annotations or find-rich-tomograms) either runs to its end
    (status 0) or ends with status 1. *)
Theorem query_exit_status (w : World) (argv : Query.cli) (s : state) :
  let init := (Query.module_init w s).1 in
  let r := (Query.program w argv s).1 in
  (init = Ret tt \/ init = SysExit 1)
  /\ (init = SysExit 1 -> r = SysExit 1)
  /\ (init = Ret tt ->
      match argv with
      | Query.CliCommand _ => r = Ret tt \/ r = SysExit 1
      | Query.CliHelp _ => r = SysExit 0
      | Query.CliError _ => r = SysExit 2
      end).
Proof.
  intros init r. unfold r, init, Query.program, bind.
  pose proof (query_init_ends w s) as Hinit.
  destruct (Query.module_init w s) as [[[]|e|c] s1] eqn:E;
    specialize (Hinit _ _ eq_refl); simpl in *; [|done|].
  - split; [by left|]. split; [done|]. intros _.
    destruct argv as [args|text|text]; [|done..].
    pose proof (query_command_ends w args s1) as Hmain.
    destruct (Query.main w (Query.CliCommand args) s1) as [[[]|e|c] s2];
      specialize (Hmain _ _ eq_refl); simpl in *; [by left|done|].
    right. by rewrite Hmain.
  - rewrite Hinit. split; [by right|]. by split.
Qed.

(** ** Failures of the query tool *)

(** X10. When Vault stays unhealthy for the five polls, the query tool
    prints the failure on stderr at load time and ends with status 1: the
    command is never dispatched, the secret store is not read and no
    database event happens. *)
Theorem query_vault_unavailable (w : World) (argv : Query.cli) (s : state) :
  (forall j, j < 5 -> health w j = Unhealthy) ->
  let es := [EGetenv "VAULT_ADDR"; EGetenv "VAULT_TOKEN"] ++ failed_polls 0 5 ++
            [EPrint Stderr
               "Failed to establish database connection via Vault: Vault is not available."] in
  Query.program w argv s = (SysExit 1, emits es s)
  /\ existsb is_db_event es = false
  /\ existsb (fun e => match e with EVaultRead _ => true | _ => false end) es = false.
Proof.
  intros Hbad es. split; [|by vm_compute].
  unfold Query.program, Query.module_init.
  erewrite bind_SysExit; [reflexivity|].
  do 2 (erewrite bind_Ret by reflexivity).
  erewrite try_Raise.
  2:{ erewrite bind_Raise; [reflexivity|].
      apply wait_unavailable_from. intros j Hj. by apply Hbad. }
  erewrite bind_Ret by reflexivity. unfold sys_exit, es.
  norm_state. by rewrite <- ?app_assoc.
Qed.

Lemma query_program_connects (w : World) (argv : Query.cli) (s : state)
    (k : nat) (u p d : string) :
  vault_ready w k ->
  vault_read_error w = None ->
  credentials s u p d ->
  engine_accepts w u p d ->
  Query.program w argv s
  = Query.main w argv (emits (query_connect_events w k u p d) s).
Proof.
  intros Hk Hread (doc & Hdoc & Hu & Hp & Hd) Hurl.
  unfold Query.program, Query.module_init.
  erewrite bind_Ret; [reflexivity|].
  do 2 (erewrite bind_Ret by reflexivity).
  erewrite try_Ret; [reflexivity|].
  erewrite bind_Ret by (by apply wait_ready).
  erewrite bind_Ret.
  2:{ unfold Query.get_db_credentials_from_vault.
      erewrite try_Ret; [reflexivity|].
      unfold read_secret_version. erewrite bind_Ret by reflexivity.
      rewrite Hread. unfold Query.SECRET_PATH. simpl.
      change "cryoet" with Etl.SECRET_PATH. rewrite Hdoc. reflexivity. }
  erewrite bind_Ret by (unfold getitem; rewrite Hu; reflexivity).
  erewrite bind_Ret by (unfold getitem; rewrite Hp; reflexivity).
  erewrite bind_Ret by (unfold getitem; rewrite Hd; reflexivity).
  erewrite bind_Ret by reflexivity.
  rewrite create_engine_ok by exact Hurl.
  unfold query_connect_events.
  norm_state. by rewrite <- !app_assoc.
Qed.

(** X11. A command of the query tool that cannot be answered is fatal.
    When the database cannot be reached, the one connection attempt is
    followed by "Database connection failed: ..." on stderr; when the
    statement itself raises, the line is the one the handler has for that
    exception; either way nothing is printed on stdout and the process ends
    with status 1. *)
Theorem query_command_failure (w : World) (args : Query.command) (s : state)
    (k : nat) (u p d : string) :
  vault_ready w k ->
  vault_read_error w = None ->
  credentials s u p d ->
  engine_accepts w u p d ->
  (forall msg, db_unreachable w = Some msg ->
     Query.program w (Query.CliCommand args) s
     = (SysExit 1,
        emits (query_connect_events w k u p d ++
               [EConnect; EPrint Stderr ("Database connection failed: " +:+ msg)]) s))
  /\ (forall e, db_unreachable w = None -> db_fault w StQuery = Some e ->
        Query.program w (Query.CliCommand args) s
        = (SysExit 1,
           emits (query_connect_events w k u p d ++
                  [EConnect; ESql (command_sql args); query_error_line e]) s)).
Proof.
  intros Hk Hread Hcred Hurl. split.
  - intros msg Hdb. rewrite (query_program_connects w _ s k u p d) by done.
    unfold Query.main. erewrite bind_Ret by reflexivity.
    destruct args; unfold Query.count_annotations, Query.find_rich_tomograms;
      (erewrite try_Raise;
        [|erewrite bind_Raise; [reflexivity|];
          unfold Query.run_query; rewrite Hdb; reflexivity]);
      cbn beta iota; erewrite bind_Ret by reflexivity; unfold sys_exit;
      by norm_state.
  - intros e Hdb Hfault. rewrite (query_program_connects w _ s k u p d) by done.
    unfold Query.main. erewrite bind_Ret by reflexivity.
    destruct args; unfold Query.count_annotations, Query.find_rich_tomograms;
      (erewrite try_Raise;
        [|erewrite bind_Raise; [reflexivity|];
          unfold Query.run_query; rewrite Hdb, Hfault; reflexivity]);
      destruct e; cbn beta iota; erewrite bind_Ret by reflexivity;
      unfold sys_exit; by norm_state.
Qed.

(** ** Keys of the tomograms table *)

Section Keys.

Import Etl.

Lemma insert_tomogram_well_keyed (burn : bool) (db : database) (row : string * string) :
  well_keyed db -> well_keyed (insert_tomogram burn db row).
Proof.
  intros (Hnames & Hids & Hseq). unfold insert_tomogram, well_keyed.
  case_decide as Hin; simpl.
  - split; [done|]. split; [done|].
    eapply Forall_impl; [exact Hseq|]. intros t Ht. simpl in Ht. destruct burn; lia.
  - rewrite !fmap_app. simpl. split; [|split].
    + apply NoDup_app. split; [done|]. split; [|apply NoDup_singleton].
      intros n Hn ->%list_elem_of_singleton. done.
    + apply NoDup_app. split; [done|]. split; [|apply NoDup_singleton].
      intros i Hi ->%list_elem_of_singleton.
      apply list_elem_of_fmap in Hi as (t & Hid & Ht).
      rewrite Forall_forall in Hseq. specialize (Hseq t Ht). simpl in Hseq. lia.
    + apply Forall_app. split.
      * eapply Forall_impl; [exact Hseq|]. intros t Ht. simpl in Ht. lia.
      * apply Forall_singleton. simpl. lia.
Qed.

Lemma merge_fold_well_keyed (burn : bool) (rows : list (string * string)) (db : database) :
  well_keyed db -> well_keyed (foldl (insert_tomogram burn) db rows).
Proof.
  revert db. induction rows as [|row rows IH]; intros db Hdb; simpl; [done|].
  by apply IH, insert_tomogram_well_keyed.
Qed.

Lemma loaded_well_keyed (w : World) (ddl : string) (rows : list label)
    (db db' : database) :
  loaded w ddl rows db = Some db' -> well_keyed db -> well_keyed db'.
Proof.
  intros Hload Hdb. unfold loaded in Hload.
  apply insert_annotations_spec in Hload as (ps & _ & _ & _ & Ht & Hs & _).
  unfold well_keyed. rewrite Ht, Hs. cbn [truncate_annotations tomograms tomograms_seq].
  unfold merged. by apply merge_fold_well_keyed.
Qed.

(** No run takes the sequence of tomograms back, however it ends. *)
Lemma etl_program_seq (w : World) (s s' : state) (r : result unit) :
  program w s = (r, s') -> tomograms_seq (st_db s) <= tomograms_seq (st_db s').
Proof.
  apply (maintains_etl_program
           (fun s s' => tomograms_seq (st_db s) <= tomograms_seq (st_db s'))).
  - done.
  - intros s1 s2 s3 ? ?. by etrans.
  - done.
  - by intros d s0 ?.
  - intros s0 r0 s0' H. apply keeps_db_etl_credentials in H. by rewrite H.
Qed.

(** X12. Every ETL run keeps the keys of the tomograms table sound: if the
    table had one row per name, one row per id and no id beyond the
    sequence, then so it has after the run, whatever the CSV holds and
    however the run ends.  The generated ids therefore never clash. *)
Theorem etl_keeps_tomogram_keys (w : World) (s : state) :
  well_keyed (st_db s) -> well_keyed (st_db (program w s).2).
Proof.
  intros Hdb.
  pose proof (etl_program_seq w s _ _ (surjective_pairing _)) as Hseq.
  destruct (etl_program_outcome w s _ _ (surjective_pairing _))
    as [(c & _ & (Ht & _))|[_ Hc]].
  - destruct Hdb as (Hnames & Hids & Hle). unfold well_keyed. rewrite Ht.
    split; [done|]. split; [done|].
    eapply Forall_impl; [exact Hle|]. intros t Hid. simpl in Hid. lia.
  - apply committed_tables in Hc as (ddl & [(_ & -> & _)|(rows & _ & Hload & _)]).
    + exact Hdb.
    + by eapply loaded_well_keyed.
Qed.

Lemma insert_tomogram_fresh (burn : bool) (db : database) (row : string * string) :
  row.1 ∉ names db ->
  tomograms (insert_tomogram burn db row)
  = tomograms db ++ [{| tomo_id := S (tomograms_seq db); tomo_name := row.1;
                        raw_volume_path := row.2 |}].
Proof. intros Hin. unfold insert_tomogram. by rewrite decide_False. Qed.

(** New rows come from the staged rows and get ids beyond the sequence. *)
Lemma merge_fold_new_rows (burn : bool) (rows : list (string * string)) (db : database) :
  exists new,
    tomograms (foldl (insert_tomogram burn) db rows) = tomograms db ++ new
    /\ (forall t, t ∈ new ->
          (tomo_name t, raw_volume_path t) ∈ rows /\ tomograms_seq db < tomo_id t)
    /\ tomograms_seq db <= tomograms_seq (foldl (insert_tomogram burn) db rows).
Proof.
  revert db. induction rows as [|row rows IH]; intros db; simpl.
  - exists []. rewrite app_nil_r. split; [done|]. split; [|done].
    by intros t ?%elem_of_nil.
  - destruct (IH (insert_tomogram burn db row)) as (new & Heq & Hnew & Hseq).
    pose proof (insert_tomogram_seq burn db row) as Hle.
    destruct (decide (row.1 ∈ names db)) as [Hin|Hin].
    + rewrite insert_tomogram_known in Heq by done.
      exists new. split; [done|]. split; [|lia].
      intros t Ht. destruct (Hnew t Ht) as [Hrow Hid]. split; [by right|lia].
    + rewrite insert_tomogram_fresh in Heq by done.
      rewrite <- app_assoc in Heq. eexists. split; [exact Heq|]. split; [|lia].
      intros t [->%list_elem_of_singleton|Ht]%elem_of_app.
      * simpl. split; [|lia]. destruct row. left.
      * destruct (Hnew t Ht) as [Hrow Hid]. split; [by right|lia].
Qed.

(** X13. The tomograms table only grows, and what a run adds is derived
    from the key column of the CSV: every row that a run adds is appended
    after the rows that were there and has a generated id greater than
    every value the sequence had given before; some row of the CSV has a
    key whose database text is the name of the added row, and the path of
    the added row is "volumes/" + str(key) + ".mrc" for that key as pandas
    holds it.  For a key that is a string this is "volumes/<name>.mrc"; for
    the float 1.0 the name is '1' and the path "volumes/1.0.mrc". *)
Theorem etl_new_tomograms (w : World) (s : state) :
  let s' := (program w s).2 in
  exists new,
    tomograms (st_db s') = tomograms (st_db s) ++ new
    /\ forall t, t ∈ new ->
         tomograms_seq (st_db s) < tomo_id t
         /\ exists rows l,
              labels_csv w = Some (CsvRows rows) /\ l ∈ rows
              /\ db_text (lbl_tomo_name l) = Some (tomo_name t)
              /\ raw_volume_path t = "volumes/" +:+ py_str (lbl_tomo_name l) +:+ ".mrc"
              /\ (forall n, lbl_tomo_name l = CStr n ->
                    tomo_name t = n
                    /\ raw_volume_path t = "volumes/" +:+ tomo_name t +:+ ".mrc").
Proof.
  intros s'.
  destruct (etl_program_outcome w s _ _ (surjective_pairing _))
    as [(c & _ & (Hdb & _))|[_ Hc]].
  { exists []. fold s' in Hdb. rewrite Hdb, app_nil_r. split; [done|].
    by intros t ?%elem_of_nil. }
  apply committed_tables in Hc as (ddl & [(_ & Hdb & _)|(rows & Hcsv & Hload & _)]);
    fold s' in Hdb || fold s' in Hload.
  { rewrite Hdb. exists []. rewrite app_nil_r. split; [done|].
    by intros t ?%elem_of_nil. }
  rewrite (loaded_tomograms _ _ _ _ _ Hload). unfold merged.
  destruct (merge_fold_new_rows (serial_burn w)
              (named_rows (unique_tomos (lbl_tomo_name <$> rows)))
              (stage_temp (unique_tomos (lbl_tomo_name <$> rows))
                 (apply_schema ddl (st_db s))))
    as (new & Heq & Hnew & _).
  exists new. split; [exact Heq|].
  intros t Ht. destruct (Hnew t Ht) as [Hrow Hid]. simpl in Hid.
  apply elem_of_named_rows in Hrow as (k & Hk & Hn).
  unfold unique_tomos in Hk.
  apply list_elem_of_fmap in Hk as (k' & [= <- Hpath] & Hin).
  apply elem_of_unique, list_elem_of_fmap in Hin as (l & -> & Hl).
  split; [exact Hid|]. exists rows, l.
  split; [done|]. split; [done|]. split; [done|]. split; [exact Hpath|].
  intros n Hstr. rewrite Hstr in Hn, Hpath. simpl in Hn. injection Hn as <-.
  by split.
Qed.

End Keys.

(** ** What a completed load leaves in the annotations table *)

Section Snapshot.

Import Etl.

(** X14. A completed load replaces the annotations by the frame that
    pandas read from the CSV, row for row: whatever the table held before,
    it ends with as many rows as the frame has; its i-th row has the id
    i+1 and holds, as coord_x, coord_y and coord_z, the numbers that the
    database stores for the x, y and z of the i-th row of the frame.  When
    the key of that row is a string, the annotation has the tomo_id of a
    tomogram row of that name; when it is anything else (a number, a
    boolean), the annotation has no tomo_id. *)
Theorem etl_load_replaces_annotations (w : World) (s s' : state) (rows : list label) :
  program w s = (Ret tt, s') ->
  labels_csv w = Some (CsvRows rows) ->
  length (annotations (st_db s')) = length rows
  /\ forall i l, rows !! i = Some l ->
       exists a,
         annotations (st_db s') !! i = Some a
         /\ annotation_id a = S i
         /\ coord_in w (lbl_x l) = Some (coord_x a)
         /\ coord_in w (lbl_y l) = Some (coord_y a)
         /\ coord_in w (lbl_z l) = Some (coord_z a)
         /\ match lbl_tomo_name l with
            | CStr n =>
                exists t, t ∈ tomograms (st_db s') /\ tomo_name t = n
                          /\ ann_tomo_id a = Some (tomo_id t)
            | _ => ann_tomo_id a = None
            end.
Proof.
  intros Hrun Hcsv.
  apply etl_program_outcome in Hrun as [(c & [=] & _)|[_ Hc]].
  apply committed_tables in Hc as (ddl & [(Hnone & _)|(rows' & Hcsv' & Hload & _)]);
    [congruence|].
  assert (rows' = rows) as -> by congruence.
  exact (loaded_holds_load _ _ _ _ _ Hload).
Qed.

End Snapshot.

(** ** From the CSV to the counts of the query tool *)

Section RoundTrip.

Import Query.

Lemma sum_list_with_ext_in {A} (f g : A -> nat) (l : list A) :
  (forall x, x ∈ l -> f x = g x) -> sum_list_with f l = sum_list_with g l.
Proof.
  induction l as [|x l IH]; intros Hfg; simpl; [done|].
  rewrite Hfg by left. rewrite IH; [done|]. intros y Hy. apply Hfg. by right.
Qed.

Lemma sum_list_with_imap {A B} (F : B -> nat) (G : A -> nat) (f : nat -> A -> B)
    (l : list A) :
  (forall i x, x ∈ l -> F (f i x) = G x) ->
  sum_list_with F (imap f l) = sum_list_with G l.
Proof.
  revert f. induction l as [|x l IH]; intros f Hf; simpl; [done|].
  rewrite Hf by left. rewrite IH; [done|]. intros i y Hy. apply Hf. by right.
Qed.

Lemma sum_list_with_fmap {A B} (F : B -> nat) (g : A -> B) (l : list A) :
  sum_list_with F (g <$> l) = sum_list_with (fun x => F (g x)) l.
Proof. induction l as [|x l IH]; [done|]. simpl. f_equal. exact IH. Qed.

Lemma sum_list_with_indicator {A} (P : A -> Prop) `{forall x, Decision (P x)}
    (l : list A) :
  sum_list_with (fun x => if decide (P x) then 1 else 0) l = length (filter P l).
Proof.
  induction l as [|x l IH]; simpl; [done|].
  rewrite filter_cons. destruct (decide (P x)); simpl; by rewrite IH.
Qed.

(** With one row per id, an annotation joins the one tomogram it
    references. *)
Lemma sum_joins_unique (ts : list tomogram) (n : string) (a : annotation)
    (t0 : tomogram) :
  NoDup (tomo_id <$> ts) ->
  t0 ∈ ts ->
  ann_tomo_id a = Some (tomo_id t0) ->
  sum_list_with (joins n a) ts = if decide (tomo_name t0 = n) then 1 else 0.
Proof.
  intros Hnd Hin Ha.
  assert (Hother : forall t, tomo_id t <> tomo_id t0 -> joins n a t = 0).
  { intros t Hne. unfold joins. rewrite decide_False; [done|].
    intros [Hid _]. congruence. }
  induction ts as [|t ts IH]; [by apply elem_of_nil in Hin|].
  rewrite fmap_cons in Hnd. apply NoDup_cons in Hnd as [Hnotin Hnd]. simpl.
  apply elem_of_cons in Hin as [->|Hin].
  - rewrite (sum_list_with_ext_in _ (fun _ => 0)), sum_list_with_zero.
    + unfold joins. rewrite Nat.add_0_r.
      destruct (decide (tomo_name t = n)) as [Hn|Hn].
      * by rewrite decide_True.
      * rewrite decide_False; [done|]. by intros [_ ?].
    + intros t' Ht'. apply Hother. intros Heq. apply Hnotin. rewrite <- Heq.
      by apply list_elem_of_fmap_2.
  - rewrite Hother, IH by (done || (intros Heq; apply Hnotin; rewrite Heq;
                                      by apply list_elem_of_fmap_2)).
    done.
Qed.

Lemma sum_list_with_mapM {A B} (f : A -> option B) (F : B -> nat) (G : A -> nat)
    (l : list A) (l' : list B) :
  mapM f l = Some l' ->
  (forall x y, x ∈ l -> f x = Some y -> F y = G x) ->
  sum_list_with F l' = sum_list_with G l.
Proof.
  revert l'. induction l as [|x l IH]; intros l'; cbn.
  - by intros [= <-].
  - destruct (f x) as [y|] eqn:E; [|done]. cbn.
    destruct (mapM f l) as [ys|] eqn:E'; [|done]. cbn. intros [= <-] Hfg. cbn.
    rewrite (Hfg x y) by (done || left). f_equal.
    apply IH; [done|]. intros x' y' Hx'. apply Hfg. by right.
Qed.

(** After a load into a soundly keyed table, the count of a name is the
    number of rows of the frame that have this string as their key. *)
Lemma count_query_loaded (w : World) (ddl : string) (rows : list label)
    (db db' : database) (n : string) :
  loaded w ddl rows db = Some db' ->
  well_keyed db ->
  count_query n db' = csv_count n rows.
Proof.
  intros Hload Hdb. rewrite count_query_sum.
  destruct (loaded_well_keyed _ _ _ _ _ Hload Hdb) as (_ & Hids & _).
  destruct (loaded_annotations _ _ _ _ _ Hload) as (ps & Hps & ->).
  set (mrg := merged (serial_burn w) ddl (lbl_tomo_name <$> rows) db) in *.
  rewrite (sum_list_with_imap _
             (fun r => sum_list_with (joins n (fact_row 0 r)) (tomograms db')))
    by done.
  unfold stored_facts, Etl.df_annotations in Hps.
  pose (zero := QArith_base.Qmake 0 1).
  rewrite (sum_list_with_mapM _ _
             (fun r : Etl.fact =>
                sum_list_with
                  (joins n (fact_row 0 (r.1.1.1, (zero, zero, zero)))) (tomograms db'))
             _ _ Hps).
  2:{ intros r y _ Hy. destruct (Etl.stored w r); [|done]. by injection Hy as <-. }
  rewrite sum_list_with_fmap. cbn [fst].
  rewrite (sum_list_with_ext_in _
             (fun l => if decide (lbl_tomo_name l = CStr n) then 1 else 0)).
  - apply sum_list_with_indicator.
  - intros l Hl. destruct (lbl_tomo_name l) as [n'| | | | | |] eqn:Hk;
      try (rewrite decide_False by done;
           rewrite (sum_list_with_ext _ (fun _ => 0)), sum_list_with_zero; [done|];
           intros t; unfold joins; rewrite decide_False; [done|]; by intros [? _]).
    destruct (loaded_key_str _ _ _ _ _ Hload l n' Hl Hk) as (t & Ht & Hname & Hmap).
    rewrite Hk in Hmap. cbn [Etl.map_key] in *.
    rewrite (sum_joins_unique _ _ _ t) by done. rewrite Hname.
    destruct (decide (n' = n)) as [->|Hne]; [by rewrite decide_True|].
    rewrite decide_False; [done|]. by intros [= ?].
Qed.

Lemma or_zero_Some (n : nat) : or_zero (Some n) = n.
Proof. unfold or_zero. by destruct n. Qed.

(** X15. From the CSV to [count_annotations]: after a completed load into
    a soundly keyed table, the query tool reports for every name exactly
    the number of rows of the frame that have this string as their key: 0
    for a name the CSV does not have, and 0 as well for the name '7' when
    pandas read the key column as numbers. *)
Theorem count_annotations_after_load (w : World) (s s' : state) (rows : list label)
    (wq : World) (name : string) :
  Etl.program w s = (Ret tt, s') ->
  labels_csv w = Some (CsvRows rows) ->
  well_keyed (st_db s) ->
  db_unreachable wq = None ->
  db_fault wq StQuery = None ->
  count_annotations wq name s'
  = (Ret tt,
     emits [EConnect; ESql (SqlCount name);
            EPrint Stdout ("Tomogram '" +:+ name +:+ "' has "
                           +:+ pretty (csv_count name rows) +:+ " annotations.")] s')
  /\ (Forall (fun l => forall n, lbl_tomo_name l <> CStr n) rows ->
      csv_count name rows = 0).
Proof.
  intros Hrun Hcsv Hkeys Hdb Hok.
  apply etl_program_outcome in Hrun as [(c & [=] & _)|[_ Hc]].
  apply committed_tables in Hc as (ddl & [(Hnone & _)|(rows' & Hcsv' & Hload & _)]);
    [congruence|].
  assert (rows' = rows) as -> by congruence.
  split.
  - unfold count_annotations.
    erewrite bind_Ret by (unfold run_query; rewrite Hdb, Hok; reflexivity).
    cbn [st_db emit]. rewrite (count_query_loaded _ _ _ _ _ _ Hload) by done.
    unfold scalar_one_or_none. rewrite or_zero_Some.
    unfold print, tell. by norm_state.
  - intros Hnum. unfold csv_count. apply length_filter_zero.
    intros l Hl Hn. rewrite Forall_forall in Hnum. by apply (Hnum l Hl name).
Qed.

(** Membership in the result of the rich-tomograms query. *)
Lemma elem_of_rich_query (rank : string -> nat) (db : database) (min_annotations : Z)
    (n : string) (c : nat) :
  (n, c) ∈ rich_query rank min_annotations db <->
  c = count_query n db /\ 0 < c /\ (min_annotations < Z.of_nat c)%Z.
Proof.
  unfold rich_query. rewrite merge_sort_Permutation.
  rewrite list_elem_of_filter, elem_of_groups, group_count_count_query. simpl.
  split; [by intros (? & ? & ?)|by intros (? & ? & ?)].
Qed.

(** X16. From the CSV to [find_rich_tomograms]: after a completed load
    into a soundly keyed table, the result holds exactly the names with
    more rows of the frame under that string than the minimum (and at least
    one), each with its number of rows, in whatever order the database
    returns names of equal count. *)
Theorem find_rich_after_load (w : World) (s s' : state) (rows : list label)
    (rank : string -> nat) (min_annotations : Z) (n : string) (c : nat) :
  Etl.program w s = (Ret tt, s') ->
  labels_csv w = Some (CsvRows rows) ->
  well_keyed (st_db s) ->
  (n, c) ∈ rich_query rank min_annotations (st_db s') <->
  c = csv_count n rows /\ 0 < c /\ (min_annotations < Z.of_nat c)%Z.
Proof.
  intros Hrun Hcsv Hkeys.
  apply etl_program_outcome in Hrun as [(c' & [=] & _)|[_ Hc]].
  apply committed_tables in Hc as (ddl & [(Hnone & _)|(rows' & Hcsv' & Hload & _)]);
    [congruence|].
  assert (rows' = rows) as -> by congruence.
  by rewrite elem_of_rich_query, (count_query_loaded _ _ _ _ _ _ Hload).
Qed.

(** X17. [find_rich_tomograms] prints the "No tomograms found" line
    exactly when no name has a count above the minimum; in particular it
    does so for every minimum, negative ones included, when the annotations
    table is empty. *)
Theorem find_rich_none (w : World) (s : state) (min_annotations : Z) :
  db_unreachable w = None ->
  db_fault w StQuery = None ->
  let none :=
    (Ret tt,
     emits [EConnect; ESql (SqlRich min_annotations);
            EPrint Stdout ("No tomograms found with > " +:+ pretty min_annotations
                           +:+ " annotations.")] s) in
  (find_rich_tomograms w min_annotations s = none <->
   forall n, 0 < count_query n (st_db s) ->
             (Z.of_nat (count_query n (st_db s)) <= min_annotations)%Z)
  /\ (annotations (st_db s) = [] -> find_rich_tomograms w min_annotations s = none).
Proof.
  intros Hdb Hok none.
  assert (Hrun : find_rich_tomograms w min_annotations s
                 = (Ret tt,
                    emits [EConnect; ESql (SqlRich min_annotations);
                           rich_output min_annotations
                             (rich_query (tie_rank w) min_annotations (st_db s))] s)).
  { unfold find_rich_tomograms.
    erewrite bind_Ret by (unfold run_query; rewrite Hdb, Hok; reflexivity).
    cbn [st_db emit]. unfold rich_output.
    destruct (rich_query (tie_rank w) min_annotations (st_db s)); unfold print, tell;
      by norm_state. }
  assert (Hiff : find_rich_tomograms w min_annotations s = none <->
                 rich_query (tie_rank w) min_annotations (st_db s) = []).
  { rewrite Hrun. unfold none. split.
    - intros [= Heq]. apply app_inv_head in Heq.
      destruct (rich_query (tie_rank w) min_annotations (st_db s)); [done|discriminate].
    - by intros ->. }
  assert (Hempty : rich_query (tie_rank w) min_annotations (st_db s) = [] <->
                   forall n, 0 < count_query n (st_db s) ->
                             (Z.of_nat (count_query n (st_db s)) <= min_annotations)%Z).
  { split.
    - intros Hnil n Hpos.
      destruct (decide (min_annotations < Z.of_nat (count_query n (st_db s)))%Z)
        as [Hlt|]; [|lia].
      assert (Hin : (n, count_query n (st_db s)) ∈ rich_query (tie_rank w) min_annotations (st_db s))
        by (by apply elem_of_rich_query).
      rewrite Hnil in Hin. by apply elem_of_nil in Hin.
    - intros Hall. destruct (rich_query (tie_rank w) min_annotations (st_db s)) as [|[n c] df] eqn:E;
        [done|].
      assert (Hin : (n, c) ∈ rich_query (tie_rank w) min_annotations (st_db s)) by (rewrite E; left).
      apply elem_of_rich_query in Hin as (-> & Hpos & Hlt).
      specialize (Hall n Hpos). lia. }
  split; [by rewrite Hiff, Hempty|].
  intros Hnil. apply Hiff, Hempty. intros n Hpos.
  assert (count_query n (st_db s) = 0); [|lia].
  rewrite count_query_sum, Hnil. reflexivity.
Qed.

End RoundTrip.

(** ** Edge cases of the load *)

Section LoadEdges.

Import Etl.

(** X18. A CSV without rows is loaded like any other: the run completes
    with status 0, the annotations table is emptied and its id sequence
    reset, the tomogram rows stay, and no INSERT into annotations is sent,
    so that a database that would reject inserts does not make this run
    fail. *)
Theorem etl_empty_csv (w : World) (s : state) (k : nat) (u p d ddl : string) :
  vault_ready w k ->
  vault_read_error w = None ->
  credentials s u p d ->
  engine_accepts w u p d ->
  db_unreachable w = None ->
  schema_sql w = Some ddl ->
  labels_csv w = Some (CsvRows []) ->
  (forall st, (forall j, st <> StLoad j) -> db_fault w st = None) ->
  let s' := (program w s).2 in
  program w s
  = (Ret tt,
     emits (connect_events w k u p d ++ empty_load_events ddl)
       (set_db (truncate_annotations (stage_temp [] (apply_schema ddl (st_db s)))) s))
  /\ annotations (st_db s') = []
  /\ annotations_seq (st_db s') = 0
  /\ tomograms (st_db s') = tomograms (st_db s)
  /\ existsb is_insert (connect_events w k u p d ++ empty_load_events ddl) = false.
Proof.
  intros Hk Hread Hcred Hurl Hdb Hddl Hcsv Hok s'.
  assert (Hrun : program w s
    = (Ret tt,
       emits (connect_events w k u p d ++ empty_load_events ddl)
         (set_db (truncate_annotations (stage_temp [] (apply_schema ddl (st_db s)))) s))).
  { rewrite (etl_program_connects w s k u p d) by done.
    erewrite try_Ret; [reflexivity|].
    unfold load_block. erewrite bind_Ret.
    2:{ unfold engine_begin. rewrite Hdb.
        match goal with
        | |- match transaction w ?s0 with _ => _ end = _ =>
            assert (Htx : transaction w s0
              = (Ret false,
                 emits [ELog INFO "Applying database schema...";
                        EReadText SQL_SCHEMA_PATH; ESql (SqlSchema ddl);
                        EPathExists LABELS_CSV_PATH; EReadCsv LABELS_CSV_PATH;
                        ESql (SqlStageTemp []); ESql SqlMergeTomograms;
                        ELog INFO "Tomograms table synchronized.";
                        ESql SqlSelectTomoMap;
                        ELog INFO "Clearing old annotations...";
                        ESql SqlTruncateAnnotations;
                        ELog INFO "Loading 0 new annotations..."]
                   (set_db (truncate_annotations
                              (stage_temp [] (apply_schema ddl (st_db s)))) s0)))
        end.
        { unfold transaction.
          erewrite bind_Ret by reflexivity.
          erewrite bind_Ret.
          2:{ unfold read_schema. erewrite bind_Ret by reflexivity.
              rewrite Hddl. reflexivity. }
          erewrite bind_Ret by (by apply execute_ok, Hok).
          erewrite bind_Ret by reflexivity.
          rewrite Hcsv. cbn [negb].
          erewrite bind_Ret.
          2:{ unfold read_labels. erewrite bind_Ret by reflexivity.
              rewrite Hcsv. reflexivity. }
          erewrite bind_Ret by reflexivity.
          erewrite bind_Ret by (by apply execute_ok, Hok).
          erewrite bind_Ret by (apply merge_ok; [by apply Hok|constructor]).
          erewrite bind_Ret by reflexivity.
          erewrite bind_Ret
            by (unfold read_tomo_map; rewrite Hok by done; reflexivity).
          erewrite bind_Ret by reflexivity.
          erewrite bind_Ret by reflexivity.
          erewrite bind_Ret by (by apply execute_ok, Hok).
          erewrite bind_Ret by reflexivity.
          erewrite bind_Ret by reflexivity.
          unfold ret. by norm_state. }
        rewrite Htx. reflexivity. }
    cbn iota. unfold log, tell, empty_load_events. by norm_state. }
  split; [exact Hrun|]. unfold s'. rewrite Hrun.
  split; [done|]. split; [done|]. split; [done|].
  rewrite existsb_app.
  assert (Hc : existsb is_insert (connect_events w k u p d) = false).
  { unfold connect_events. rewrite !existsb_app.
    by rewrite failed_polls_without. }
  by rewrite Hc.
Qed.

(** The batches of the bulk insert. *)
Lemma chunks_spec {A} (fuel size : nat) (l : list A) :
  0 < size -> length l <= fuel ->
  let cs := chunks fuel size l in
  Forall (fun c => 0 < length c /\ length c <= size) cs
  /\ (forall i c, cs !! i = Some c -> S i < length cs -> length c = size)
  /\ (l <> [] -> cs <> []).
Proof.
  intros Hsize. revert l. induction fuel as [|fuel IH]; intros l Hlen; simpl.
  - destruct l; [|simpl in Hlen; lia]. split; [constructor|]. split; [|done].
    by intros i c ?.
  - destruct l as [|x l]; [split; [constructor|]; split; [|done]; by intros i c ?|].
    destruct (IH (drop size (x :: l))) as (Hall & Hfull & Hne).
    { rewrite length_drop. simpl in *. lia. }
    split; [|split; [|done]].
    + constructor; [|exact Hall]. rewrite length_take. simpl. lia.
    + intros [|i] c Hc Hi; simpl in Hc, Hi.
      * injection Hc as <-. rewrite length_take.
        destruct (decide (drop size (x :: l) = [])) as [Hnil|Hnn].
        -- rewrite Hnil in Hi. destruct fuel; simpl in Hi; lia.
        -- assert (length (drop size (x :: l)) <> 0)
             by (by intros ?%nil_length_inv).
           rewrite length_drop in *. lia.
      * apply (Hfull i c Hc). lia.
Qed.

(** X19. The bulk insert loses and repeats nothing and bounds its
    batches: the batches, put end to end, are the records in order; no
    batch is empty, none has more than 10000 records, and every batch but
    the last has exactly 10000. *)
Theorem load_batches (rows : list fact) :
  let cs := chunks (length rows) CHUNKSIZE rows in
  concat cs = rows
  /\ Forall (fun c => 0 < length c /\ length c <= 10000) cs
  /\ (forall i c, cs !! i = Some c -> S i < length cs -> length c = 10000).
Proof.
  intros cs. split; [by apply concat_chunks; [apply CHUNKSIZE_pos|]|].
  destruct (chunks_spec (length rows) CHUNKSIZE rows CHUNKSIZE_pos (le_n _))
    as (Hall & Hfull & _).
  assert (Hsize : CHUNKSIZE = 10000) by reflexivity.
  split.
  - eapply Forall_impl; [exact Hall|]. intros c [? ?]. rewrite <- Hsize. by split.
  - intros i c Hc Hi. rewrite <- Hsize. by apply (Hfull i c).
Qed.

End LoadEdges.


(** ** Loads that fail *)

Section FailedLoads.

Import Etl.


(** X26. Referential integrity holds for a CSV keyed by strings, and the
    load is atomic in the rows.  After a run that returned normally over a
    frame whose keys are all strings, every annotation references an
    existing tomogram row; a run that returned without a CSV keeps the
    property if it held.  A run that did not return normally leaves the
    rows of every table and the DDL as they were; of what it did, only
    the values drawn from the sequence of tomograms remain drawn. *)
Theorem etl_string_keys_referential (w : World) (s s' : state) (r : result unit) :
  program w s = (r, s') ->
  (r = Ret tt ->
   forall rows, labels_csv w = Some (CsvRows rows) ->
     Forall (fun l => exists n, lbl_tomo_name l = CStr n) rows ->
     referential (st_db s'))
  /\ (r = Ret tt -> labels_csv w = None ->
      referential (st_db s) -> referential (st_db s'))
  /\ (r <> Ret tt ->
      same_rows (st_db s) (st_db s')
      /\ tomograms_seq (st_db s) <= tomograms_seq (st_db s')).
Proof.
  intros Hrun. pose proof (etl_program_seq _ _ _ _ Hrun) as Hseq.
  apply etl_program_outcome in Hrun as [(c & -> & Hsame)|[-> Hc]].
  - split; [done|]. split; [done|]. by intros _.
  - apply committed_tables in Hc as (ddl & [(Hnone & Hdb & _)|(rows' & Hcsv' & Hload & _)]).
    + split; [intros _ rows Hcsv; congruence|]. split; [|done].
      intros _ _ Href. by rewrite Hdb.
    + split; [|split; [intros _ Hnone; congruence|done]].
      intros _ rows Hcsv Hstr. assert (rows' = rows) as -> by congruence.
      by eapply loaded_referential.
Qed.

(** X27. A database URL that [create_engine] cannot read is fatal before
    any connection: the run logs the error with the general line of the
    handler and ends with status 1 without a database event.  Such is the
    URL when DB_HOST carries a port of its own, as in db:5432. *)
Theorem etl_engine_url_refused (w : World) (s : state) (k : nat)
    (u p d msg : string) :
  vault_ready w k ->
  vault_read_error w = None ->
  credentials s u p d ->
  engine_error w (database_url u p (default "db" (environ w !! "DB_HOST")) d) = Some msg ->
  let es := connect_events w k u p d ++ [etl_error_log msg] in
  program w s = (SysExit 1, emits es s)
  /\ existsb is_db_event es = false.
Proof.
  intros Hk Hread (doc & Hdoc & Hu & Hp & Hd) Hurl es. split.
  - rewrite etl_program_start. unfold main_try.
    erewrite try_bind_Ret by (by apply wait_ready).
    erewrite try_bind_Ret by (by apply read_found).
    erewrite try_bind_Ret by (unfold getitem; rewrite Hu; reflexivity).
    erewrite try_bind_Ret by (unfold getitem; rewrite Hp; reflexivity).
    erewrite try_bind_Ret by (unfold getitem; rewrite Hd; reflexivity).
    erewrite try_bind_Ret by reflexivity.
    erewrite try_Raise
      by (erewrite bind_Raise; [reflexivity|by apply create_engine_fails]).
    unfold main_except. erewrite bind_Ret by reflexivity.
    unfold sys_exit, es, connect_events, etl_error_log.
    norm_state. by rewrite <- !app_assoc.
  - unfold es. rewrite existsb_app, connect_events_no_db. reflexivity.
Qed.

(** X28. A CSV that has the key column and lacks a coordinate column
    fails late: the temporary table is staged, the tomograms are merged
    and the mapping is read back before the selection of the columns
    raises.  The run then rolls back and ends with status 1; no TRUNCATE
    and no INSERT into annotations was sent, the rows of every table are
    as they were, and the sequence of tomograms stays where the merge
    left it. *)
Theorem etl_csv_without_coordinates (w : World) (s : state) (k : nat)
    (u p d ddl msg : string) (keys : list cell) :
  vault_ready w k ->
  vault_read_error w = None ->
  credentials s u p d ->
  engine_accepts w u p d ->
  db_unreachable w = None ->
  schema_sql w = Some ddl ->
  labels_csv w = Some (CsvNoCoords keys msg) ->
  Forall (fun c => is_Some (db_text c) /\ is_uint64 c = false) keys ->
  (forall st, db_fault w st = None) ->
  let mrg := merged (serial_burn w) ddl keys (st_db s) in
  let s' := (program w s).2 in
  program w s
  = (SysExit 1,
     emits (connect_events w k u p d ++ no_coords_events ddl keys msg)
       (set_db (rollback (st_db s) mrg) s))
  /\ same_rows (st_db s) (st_db s')
  /\ tomograms_seq (st_db s') = tomograms_seq mrg
  /\ tomograms_seq (st_db s) <= tomograms_seq (st_db s').
Proof.
  intros Hk Hread Hcred Hurl Hdb Hddl Hcsv Hkeys Hok mrg s'.
  assert (Hrows : forall row, row ∈ unique_tomos keys ->
            is_Some (db_text row.1) /\ is_uint64 row.1 = false).
  { intros row [Hin _]%unique_tomos_in. rewrite Forall_forall in Hkeys. by apply Hkeys. }
  assert (Hrun : program w s
    = (SysExit 1,
       emits (connect_events w k u p d ++ no_coords_events ddl keys msg)
         (set_db (rollback (st_db s) mrg) s))).
  { rewrite (etl_program_connects w s k u p d) by done.
    set (s0 := emits (connect_events w k u p d) s).
    assert (Htx : transaction w (emit EBegin (emit EConnect s0))
      = (Raise (PyException msg),
         emits [ELog INFO "Applying database schema...";
                EReadText SQL_SCHEMA_PATH; ESql (SqlSchema ddl);
                EPathExists LABELS_CSV_PATH; EReadCsv LABELS_CSV_PATH;
                ESql (SqlStageTemp (unique_tomos keys)); ESql SqlMergeTomograms;
                ELog INFO "Tomograms table synchronized."; ESql SqlSelectTomoMap]
           (set_db mrg (emit EBegin (emit EConnect s0))))).
    { unfold transaction.
      erewrite bind_Ret by reflexivity.
      erewrite bind_Ret.
      2:{ unfold read_schema. erewrite bind_Ret by reflexivity.
          rewrite Hddl. reflexivity. }
      erewrite bind_Ret by (by apply execute_ok).
      erewrite bind_Ret by reflexivity.
      rewrite Hcsv. cbn [negb].
      erewrite bind_Ret.
      2:{ unfold read_labels. erewrite bind_Ret by reflexivity.
          rewrite Hcsv. reflexivity. }
      erewrite bind_Ret by reflexivity.
      erewrite bind_Ret.
      2:{ unfold to_sql_temp. rewrite existsb_false.
          - by apply execute_ok.
          - apply Forall_forall. intros row Hrow. by apply Hrows. }
      erewrite bind_Ret.
      2:{ apply merge_ok; [done|]. simpl. apply Forall_forall. intros row Hrow.
          by apply Hrows. }
      erewrite bind_Ret by reflexivity.
      erewrite bind_Ret by (unfold read_tomo_map; rewrite Hok; reflexivity).
      erewrite bind_Raise by reflexivity.
      unfold mrg, merged. by norm_state. }
    erewrite try_Raise.
    2:{ unfold load_block. erewrite bind_Raise; [reflexivity|].
        unfold engine_begin. rewrite Hdb, Htx. reflexivity. }
    unfold main_except. erewrite bind_Ret by reflexivity.
    unfold sys_exit, no_coords_events, etl_error_log, s0. by norm_state. }
  split; [exact Hrun|]. unfold s'. rewrite Hrun.
  split; [by repeat split|]. split; [done|].
  exact (merge_fold_seq (serial_burn w) (named_rows (unique_tomos keys))
           (stage_temp (unique_tomos keys) (apply_schema ddl (st_db s)))).
Qed.



End FailedLoads.
(** ** The visualize subcommand *)

Section VisualizeProperties.
Import Visualize.

Lemma first_row_unknown (aid : Z) (db : database) :
  unknown_annotation aid db -> first_row aid db = None.
Proof.
  intros Hun. unfold first_row.
  destruct (filter _ (Query.join_at db)) as [|[a t] l] eqn:E; [done|].
  assert (Hin : (a, t) ∈ filter (fun p : annotation * tomogram =>
                                   Z.of_nat (annotation_id p.1) = aid) (Query.join_at db))
    by (rewrite E; left).
  apply list_elem_of_filter in Hin as [Hid Hin].
  apply elem_of_join_at in Hin as (Ha & _). by destruct (Hun a Ha).
Qed.

Lemma first_row_found (aid : Z) (db : database) (vp : string) (x y z : Q) :
  first_row aid db = Some (vp, x, y, z) ->
  exists a t,
    a ∈ annotations db /\ t ∈ tomograms db
    /\ ann_tomo_id a = Some (tomo_id t)
    /\ Z.of_nat (annotation_id a) = aid
    /\ vp = raw_volume_path t
    /\ x = coord_x a /\ y = coord_y a /\ z = coord_z a.
Proof.
  unfold first_row. intros H.
  destruct (filter _ (Query.join_at db)) as [|[a t] l] eqn:E; [done|].
  injection H as <- <- <- <-.
  assert (Hin : (a, t) ∈ filter (fun p : annotation * tomogram =>
                                   Z.of_nat (annotation_id p.1) = aid) (Query.join_at db))
    by (rewrite E; left).
  apply list_elem_of_filter in Hin as [Hid Hin].
  apply elem_of_join_at in Hin as (Ha & Ht & Hj).
  by exists a, t.
Qed.

(** [round] gives an integer at distance at most 1/2. *)
Lemma py_round_nearest (n : Z) (d : positive) :
  let r := py_round (QArith_base.Qmake n d) in
  ((2 * r - 1) * Z.pos d <= 2 * n <= (2 * r + 1) * Z.pos d)%Z.
Proof.
  unfold py_round. cbn [QArith_base.Qnum QArith_base.Qden].
  pose proof (Z.div_mod n (Z.pos d) ltac:(lia)) as Hdm.
  pose proof (Z.mod_pos_bound n (Z.pos d) ltac:(lia)) as Hb.
  destruct (Z.compare_spec (2 * (n mod Z.pos d)) (Z.pos d)) as [He|Hl|Hg];
    [destruct (Z.even (n / Z.pos d))|..]; cbv zeta; nia.
Qed.


Lemma check_bounds_in (z_slice : Z) (shape : list nat) :
  in_bounds z_slice shape -> check_bounds z_slice shape = vret tt.
Proof.
  intros (depth & rest & -> & Hz). unfold check_bounds.
  destruct (Z.leb_spec 0 z_slice) as [_|?]; [|lia].
  by destruct (Z.ltb_spec z_slice (Z.of_nat depth)) as [_|?]; [|lia].
Qed.

Lemma check_bounds_out (z_slice : Z) (shape : list nat) :
  (z_slice < 0)%Z
    \/ (exists depth rest, shape = depth :: rest /\ (Z.of_nat depth <= z_slice)%Z) ->
  check_bounds z_slice shape = vraise (out_of_bounds z_slice shape).
Proof.
  intros [Hneg|(depth & rest & -> & Hbig)]; unfold check_bounds.
  - by destruct (Z.leb_spec 0 z_slice) as [?|_]; [lia|].
  - destruct (Z.leb_spec 0 z_slice) as [_|_]; [|done].
    by destruct (Z.ltb_spec z_slice (Z.of_nat depth)) as [?|_]; [lia|].
Qed.

(** X20. [visualize] of an id that no annotation has: one SELECT, the
    "not found" line on stderr, and the command returns, so that the process
    ends with status 0; no file is looked at, whatever the file system
    holds. *)
Theorem visualize_unknown_annotation (w : World) (f : Files) (db : database) (aid : Z) :
  db_unreachable w = None ->
  db_fault w StQuery = None ->
  unknown_annotation aid db ->
  main w f db aid
  = (VRet tt,
     [FConnect; FSelect aid;
      FPrint Stderr ("Error: Annotation with ID " +:+ pretty aid +:+ " not found.")]).
Proof.
  intros Hup Hok Hun. unfold main, visualize_annotation, select_first.
  rewrite Hup, Hok, (first_row_unknown _ _ Hun). reflexivity.
Qed.

(** X21. A volume file that is missing is reported with its path on stderr
    and nothing is drawn or saved; the exception does not reach [main], so
    the process ends with status 0. *)
Theorem visualize_missing_volume (w : World) (f : Files) (db : database) (aid : Z)
    (vp npy : string) (x y z : Q) :
  db_unreachable w = None ->
  db_fault w StQuery = None ->
  first_row aid db = Some (vp, x, y, z) ->
  npy_path f vp = inl npy ->
  np_load f npy = VolMissing ->
  main w f db aid
  = (VRet tt,
     [FConnect; FSelect aid; FLoad npy;
      FPrint Stderr ("Error: Volume file not found at '" +:+ npy +:+ "'")]).
Proof.
  intros Hup Hok Hrow Hp Hl. unfold main, visualize_annotation, select_first, load.
  rewrite Hup, Hok, Hrow. cbn. rewrite Hp. cbn. rewrite Hl. reflexivity.
Qed.

(** X22. A z coordinate whose rounding is not a plane of the volume is
    refused before anything is drawn: the rounded value and the shape are
    printed on stderr, no image is written and the process ends with status
    0.  For a negative value the shape is not indexed, so this holds for an
    array of any shape. *)
Theorem visualize_out_of_bounds (w : World) (f : Files) (db : database) (aid : Z)
    (vp npy : string) (x y z : Q) (shape : list nat) :
  db_unreachable w = None ->
  db_fault w StQuery = None ->
  first_row aid db = Some (vp, x, y, z) ->
  npy_path f vp = inl npy ->
  np_load f npy = VolArray shape ->
  (py_round z < 0)%Z
    \/ (exists depth rest, shape = depth :: rest /\ (Z.of_nat depth <= py_round z)%Z) ->
  main w f db aid
  = (VRet tt,
     [FConnect; FSelect aid; FLoad npy;
      FPrint Stderr ("An error occurred during visualization: Z-coordinate "
                     +:+ pretty (py_round z)
                     +:+ " is out of bounds for volume shape " +:+ py_tuple shape)]).
Proof.
  intros Hup Hok Hrow Hp Hl Hz.
  unfold main, visualize_annotation, select_first, load.
  rewrite Hup, Hok, Hrow. cbn -[check_bounds]. rewrite Hp. cbn -[check_bounds].
  rewrite Hl. cbn -[check_bounds]. rewrite (check_bounds_out _ _ Hz). reflexivity.
Qed.

(** X23. When the annotation is found, the volume loads, the rounded z is
    a plane of it and drawing and saving raise nothing, the slice is drawn
    at the rounded z with the point at the stored x and y, and the image is
    saved as /app/output/annotation_<id>.png. *)
Theorem visualize_saves_image (w : World) (f : Files) (db : database) (aid : Z)
    (vp npy : string) (x y z : Q) (shape : list nat) :
  db_unreachable w = None ->
  db_fault w StQuery = None ->
  first_row aid db = Some (vp, x, y, z) ->
  npy_path f vp = inl npy ->
  np_load f npy = VolArray shape ->
  in_bounds (py_round z) shape ->
  plot_error f = None -> mkdir_error f = None -> savefig_error f = None ->
  main w f db aid = (VRet tt, visualize_events aid npy x y z)
  /\ output_path aid = "/app/output/annotation_" +:+ pretty aid +:+ ".png".
Proof.
  intros Hup Hok Hrow Hp Hl Hz He1 He2 He3.
  split; [|reflexivity].
  unfold main, visualize_annotation, select_first, load, attempt.
  rewrite Hup, Hok, Hrow. cbn -[check_bounds]. rewrite Hp. cbn -[check_bounds].
  rewrite Hl, He1, He2, He3. cbn -[check_bounds].
  rewrite (check_bounds_in _ _ Hz). reflexivity.
Qed.


Lemma check_bounds_cases (z_slice : Z) (shape : list nat) :
  (in_bounds z_slice shape /\ check_bounds z_slice shape = vret tt)
  \/ (exists msg, check_bounds z_slice shape = vraise (IndexError msg)).
Proof.
  unfold check_bounds, out_of_bounds.
  destruct (Z.leb_spec 0 z_slice) as [Hz|_]; [|by right; eexists].
  destruct shape as [|depth rest]; [by right; eexists|].
  destruct (Z.ltb_spec z_slice (Z.of_nat depth)) as [Hd|_]; [|by right; eexists].
  left. split; [|done]. exists depth, rest. split; [done|lia].
Qed.

(** Every disjunct of a membership in an explicit list is refuted, or
    gives the path of the image. *)
Local Ltac scan H :=
  repeat first
    [ apply elem_of_nil in H; destruct H
    | apply elem_of_cons in H as [H|H]; [try discriminate H|] ].

(** X24. An image is written only for an annotation of the table whose
    volume loaded and whose rounded z is a plane of that volume, and then
    to /app/output/annotation_<id>.png: no run of [visualize], whatever the
    world and the file system, calls [savefig] otherwise. *)
Theorem visualize_saves_only_in_bounds (w : World) (f : Files) (db : database)
    (aid : Z) (p : string) :
  FSaveFig p ∈ (main w f db aid).2 ->
  p = output_path aid
  /\ exists a t npy shape,
       a ∈ annotations db /\ t ∈ tomograms db
       /\ ann_tomo_id a = Some (tomo_id t)
       /\ Z.of_nat (annotation_id a) = aid
       /\ npy_path f (raw_volume_path t) = inl npy
       /\ np_load f npy = VolArray shape
       /\ in_bounds (py_round (coord_z a)) shape.
Proof.
  intros H. unfold main, visualize_annotation, select_first in H.
  destruct (db_unreachable w) as [m|]; [cbn in H; scan H|].
  destruct (db_fault w StQuery) as [e|]; [destruct e; cbn in H; scan H|].
  destruct (first_row aid db) as [[[[vp x] y] z]|] eqn:Hrow; [|cbn in H; scan H].
  cbn -[load check_bounds attempt output_path] in H.
  destruct (npy_path f vp) as [npy|m] eqn:Hp; [|cbn in H; scan H].
  unfold load in H.
  destruct (np_load f npy) as [|m|shape] eqn:Hl; [cbn in H; scan H..|].
  cbn -[check_bounds attempt output_path] in H.
  destruct (check_bounds_cases (py_round z) shape) as [[Hin Hb]|[m Hb]];
    rewrite Hb in H; [|cbn in H; scan H].
  split.
  - unfold attempt in H.
    destruct (plot_error f) as [[]|]; [cbn in H; scan H..|].
    destruct (mkdir_error f) as [[]|]; [cbn in H; scan H..|].
    destruct (savefig_error f) as [[]|]; cbn -[output_path] in H; scan H;
      by injection H as ->.
  - apply first_row_found in Hrow as (a & t & Ha & Ht & Hj & Hid & -> & _ & _ & ->).
    by exists a, t, npy, shape.
Qed.

(** X25. The exit status of [visualize].  The process ends with status 1
    exactly when the database cannot be reached, the statement raises, or
    the path of the volume cannot be formed, each of which happens outside
    the [try] of [visualize_annotation]; a volume that is missing or cannot
    be read, a z out of bounds, and a failure to draw or to save are all
    reported on stderr by a process that ends with status 0. *)
Theorem visualize_exit_status (w : World) (f : Files) (db : database) (aid : Z) :
  let r := (main w f db aid).1 in
  (r = VRet tt \/ r = VExit 1)
  /\ (r = VExit 1 <->
      db_unreachable w <> None \/ db_fault w StQuery <> None
      \/ exists vp x y z msg,
           first_row aid db = Some (vp, x, y, z) /\ npy_path f vp = inr msg).
Proof.
  unfold main, visualize_annotation, select_first.
  destruct (db_unreachable w) as [m|].
  { cbn. split; [by right|]. split; [by left|done]. }
  destruct (db_fault w StQuery) as [e|].
  { destruct e; cbn; (split; [by right|]); (split; [by right; left|done]). }
  destruct (first_row aid db) as [[[[vp x] y] z]|] eqn:Hrow.
  2:{ cbn. split; [by left|]. split; [done|].
      intros [?|[?|(? & ? & ? & ? & ? & ? & _)]]; done. }
  cbn -[load check_bounds attempt output_path].
  destruct (npy_path f vp) as [npy|m] eqn:Hp.
  2:{ cbn. split; [by right|]. split; [|done].
      intros _. right. right. by exists vp, x, y, z, m. }
  assert (Hret : forall r : vresult unit,
            r = VRet tt ->
            (r = VRet tt \/ r = VExit 1)
            /\ (r = VExit 1 <->
                None <> (None : option string) \/ None <> (None : option exn)
                \/ exists vp0 x0 y0 z0 msg,
                     Some (vp, x, y, z) = Some (vp0, x0, y0, z0)
                     /\ npy_path f vp0 = inr msg)).
  { intros r ->. split; [by left|]. split; [done|].
    intros [?|[?|(? & ? & ? & ? & ? & [= <- _ _ _] & Hr)]]; try done.
    by rewrite Hp in Hr. }
  apply Hret. unfold load.
  destruct (np_load f npy) as [|m|shape]; [done..|].
  cbn -[check_bounds attempt output_path].
  destruct (check_bounds_cases (py_round z) shape) as [[_ Hb]|[m Hb]];
    rewrite Hb; [|done].
  unfold attempt.
  destruct (plot_error f) as [[]|]; [done..|].
  destruct (mkdir_error f) as [[]|]; [done..|].
  by destruct (savefig_error f) as [[]|].
Qed.

End VisualizeProperties.

(** ** The properties at the example worlds *)

Lemma ready_at_once (w : World) : health w 0 = Healthy -> vault_ready w 0.
Proof. intros H. split; [lia|]. split; [intros j Hj; lia|exact H]. Qed.

Lemma empty_db_well_keyed : well_keyed empty_db.
Proof. repeat split; constructor. Qed.

Lemma ex_run_loaded : Etl.program ex_world ex_seeded = (Ret tt, ex_loaded).
Proof. by vm_compute. Qed.

Lemma etl_read_failure_is_fatal_witness :
  vault_ready ex_world_read_fails 0
  /\ vault_read_error ex_world_read_fails = Some "permission denied"
  /\ Etl.program ex_world_read_fails ex_seeded
     = (SysExit 1,
        emits (etl_start ++ [EHealth; EVaultRead "cryoet";
                             etl_error_log "permission denied"]) ex_seeded).
Proof.
  assert (Hr : vault_ready ex_world_read_fails 0) by (by apply ready_at_once).
  split; [exact Hr|]. split; [reflexivity|].
  pose proof (etl_read_failure_is_fatal ex_world_read_fails ex_seeded 0 _ Hr eq_refl) as H.
  cbv zeta in H. destruct H as (_ & H & _). exact H.
Defined.

Lemma etl_write_failure_is_fatal_witness :
  vault_ready ex_world_write_fails 0
  /\ st_vault ex_fresh !! Etl.SECRET_PATH = None
  /\ vault_write_error ex_world_write_fails = Some "Vault is sealed"
  /\ (Etl.program ex_world_write_fails ex_fresh).1 = SysExit 1
  /\ st_vault (Etl.program ex_world_write_fails ex_fresh).2 = st_vault ex_fresh.
Proof.
  assert (Hr : vault_ready ex_world_write_fails 0) by (by apply ready_at_once).
  split; [exact Hr|]. split; [reflexivity|]. split; [reflexivity|].
  pose proof (etl_write_failure_is_fatal ex_world_write_fails ex_fresh 0
                "cryoet_user" "s3cret" "cryoet" "Vault is sealed"
                Hr eq_refl eq_refl eq_refl eq_refl eq_refl
                ltac:(discriminate) ltac:(discriminate) ltac:(discriminate) eq_refl) as H.
  cbv zeta in H. destruct H as [-> _]. split; reflexivity.
Defined.

Lemma etl_database_unreachable_witness :
  vault_ready ex_world_db_down 0
  /\ credentials ex_seeded "cryoet_user" "s3cret" "cryoet"
  /\ (Etl.program ex_world_db_down ex_seeded).1 = SysExit 1
  /\ st_db (Etl.program ex_world_db_down ex_seeded).2 = st_db ex_seeded.
Proof.
  assert (Hr : vault_ready ex_world_db_down 0) by (by apply ready_at_once).
  assert (Hc : credentials ex_seeded "cryoet_user" "s3cret" "cryoet")
    by (by apply ex_seeded_credentials).
  split; [exact Hr|]. split; [exact Hc|].
  destruct (etl_database_unreachable ex_world_db_down ex_seeded 0 _ _ _ _
              Hr eq_refl Hc eq_refl eq_refl) as [-> _].
  split; reflexivity.
Defined.

Lemma etl_incomplete_document_witness :
  vault_ready ex_world 0
  /\ (exists doc, st_vault ex_partial !! Etl.SECRET_PATH = Some doc
                  /\ doc !! "POSTGRES_DB" = None)
  /\ (Etl.program ex_world ex_partial).1 = SysExit 1.
Proof.
  split; [exact ex_world_ready|]. split; [by eexists|].
  destruct (etl_incomplete_document ex_world ex_partial 0 _ ex_world_ready eq_refl eq_refl
              (or_intror (or_intror eq_refl))) as (key & _ & _ & ->).
  reflexivity.
Defined.

Lemma etl_health_error_is_not_retried_witness :
  (forall j, j < 2 -> health ex_world_health_raises j = Unhealthy)
  /\ health ex_world_health_raises 2 = HealthError "Connection refused"
  /\ (Etl.program ex_world_health_raises ex_seeded).1 = SysExit 1
  /\ count_events is_health (st_trace (Etl.program ex_world_health_raises ex_seeded).2) = 3.
Proof.
  assert (Hun : forall j, j < 2 -> health ex_world_health_raises j = Unhealthy).
  { intros [|[|j]] Hj; [reflexivity..|lia]. }
  split; [exact Hun|]. split; [reflexivity|].
  pose proof (etl_health_error_is_not_retried ex_world_health_raises ex_seeded 2
                "Connection refused" ltac:(lia) Hun eq_refl) as H.
  cbv zeta in H. destruct H as (_ & -> & _). split; reflexivity.
Defined.

Lemma etl_store_is_written_once_witness :
  is_Some (st_vault ex_seeded !! Etl.SECRET_PATH)
  /\ st_vault (Etl.program ex_world ex_seeded).2 = st_vault ex_seeded.
Proof.
  assert (Hsome : is_Some (st_vault ex_seeded !! Etl.SECRET_PATH)) by (by eexists).
  split; [exact Hsome|].
  pose proof (etl_store_is_written_once ex_world ex_seeded) as H.
  cbv zeta in H. destruct H as (_ & H & _). exact (H Hsome).
Defined.

Lemma query_vault_unavailable_witness :
  (forall j, j < 5 -> health ex_world_unhealthy j = Unhealthy)
  /\ (Query.program ex_world_unhealthy (Query.CliCommand (Query.CountAnnotations "TS_1"))
        ex_seeded).1
     = SysExit 1.
Proof.
  split; [reflexivity|].
  pose proof (query_vault_unavailable ex_world_unhealthy
                (Query.CliCommand (Query.CountAnnotations "TS_1"))
                ex_seeded (fun j _ => eq_refl)) as H.
  cbv zeta in H. destruct H as [-> _]. reflexivity.
Defined.

Lemma query_command_failure_witness :
  vault_ready ex_world_db_down 0
  /\ vault_ready ex_world_query_fails 0
  /\ credentials ex_seeded "cryoet_user" "s3cret" "cryoet"
  /\ (Query.program ex_world_db_down (Query.CliCommand (Query.FindRichTomograms 20))
        ex_seeded).1 = SysExit 1
  /\ (Query.program ex_world_query_fails (Query.CliCommand (Query.CountAnnotations "TS_1"))
        ex_seeded).1 = SysExit 1.
Proof.
  assert (Hr1 : vault_ready ex_world_db_down 0) by (by apply ready_at_once).
  assert (Hr2 : vault_ready ex_world_query_fails 0) by (by apply ready_at_once).
  assert (Hc : credentials ex_seeded "cryoet_user" "s3cret" "cryoet")
    by (by apply ex_seeded_credentials).
  split; [exact Hr1|]. split; [exact Hr2|]. split; [exact Hc|]. split.
  - destruct (query_command_failure ex_world_db_down (Query.FindRichTomograms 20)
                ex_seeded 0 _ _ _ Hr1 eq_refl Hc eq_refl) as [H _].
    by rewrite (H _ eq_refl).
  - destruct (query_command_failure ex_world_query_fails (Query.CountAnnotations "TS_1")
                ex_seeded 0 _ _ _ Hr2 eq_refl Hc eq_refl) as [_ H].
    by rewrite (H _ eq_refl eq_refl).
Defined.

Lemma etl_keeps_tomogram_keys_witness :
  well_keyed (st_db ex_seeded) /\ well_keyed (st_db ex_loaded).
Proof.
  split; [exact empty_db_well_keyed|].
  exact (etl_keeps_tomogram_keys ex_world ex_seeded empty_db_well_keyed).
Defined.

Lemma etl_new_tomograms_witness :
  exists new,
    tomograms (st_db ex_loaded) = tomograms (st_db ex_seeded) ++ new
    /\ Forall (fun t => tomograms_seq (st_db ex_seeded) < tomo_id t) new.
Proof.
  pose proof (etl_new_tomograms ex_world ex_seeded) as H.
  cbv zeta in H. destruct H as (new & Heq & Hnew).
  exists new. split; [exact Heq|].
  apply Forall_forall. intros t Ht. by destruct (Hnew t Ht) as [? _].
Defined.

Lemma etl_load_replaces_annotations_witness :
  Etl.program ex_world ex_seeded = (Ret tt, ex_loaded)
  /\ labels_csv ex_world = Some (CsvRows ex_labels)
  /\ length (annotations (st_db ex_loaded)) = 3.
Proof.
  split; [exact ex_run_loaded|]. split; [reflexivity|].
  destruct (etl_load_replaces_annotations ex_world ex_seeded ex_loaded ex_labels
              ex_run_loaded eq_refl) as [-> _].
  reflexivity.
Defined.

Lemma count_annotations_after_load_witness :
  Etl.program ex_world ex_seeded = (Ret tt, ex_loaded)
  /\ well_keyed (st_db ex_seeded)
  /\ Query.count_annotations ex_world "TS_1" ex_loaded
     = (Ret tt,
        emits [EConnect; ESql (SqlCount "TS_1");
               EPrint Stdout "Tomogram 'TS_1' has 2 annotations."] ex_loaded).
Proof.
  split; [exact ex_run_loaded|]. split; [exact empty_db_well_keyed|].
  exact (proj1 (count_annotations_after_load ex_world ex_seeded ex_loaded ex_labels
                  ex_world "TS_1" ex_run_loaded eq_refl empty_db_well_keyed
                  eq_refl eq_refl)).
Defined.

Lemma find_rich_after_load_witness :
  Etl.program ex_world ex_seeded = (Ret tt, ex_loaded)
  /\ well_keyed (st_db ex_seeded)
  /\ ("TS_1", 2) ∈ Query.rich_query (tie_rank ex_world) 1 (st_db ex_loaded).
Proof.
  split; [exact ex_run_loaded|]. split; [exact empty_db_well_keyed|].
  apply (find_rich_after_load ex_world ex_seeded ex_loaded ex_labels
           (tie_rank ex_world) 1 "TS_1" 2
           ex_run_loaded eq_refl empty_db_well_keyed).
  split; [reflexivity|]. split; lia.
Defined.

Lemma find_rich_none_witness :
  db_unreachable ex_world = None
  /\ db_fault ex_world StQuery = None
  /\ annotations (st_db ex_seeded) = []
  /\ Query.find_rich_tomograms ex_world (-1) ex_seeded
     = (Ret tt,
        emits [EConnect; ESql (SqlRich (-1));
               EPrint Stdout "No tomograms found with > -1 annotations."] ex_seeded).
Proof.
  split; [reflexivity|]. split; [reflexivity|]. split; [reflexivity|].
  pose proof (find_rich_none ex_world ex_seeded (-1) eq_refl eq_refl) as H.
  cbv zeta in H. destruct H as [_ H]. exact (H eq_refl).
Defined.

Lemma etl_empty_csv_witness :
  vault_ready ex_world_empty_csv 0
  /\ labels_csv ex_world_empty_csv = Some (CsvRows [])
  /\ annotations (st_db ex_loaded) <> []
  /\ (Etl.program ex_world_empty_csv ex_loaded).1 = Ret tt
  /\ annotations (st_db (Etl.program ex_world_empty_csv ex_loaded).2) = []
  /\ tomograms (st_db (Etl.program ex_world_empty_csv ex_loaded).2)
     = tomograms (st_db ex_loaded).
Proof.
  assert (Hr : vault_ready ex_world_empty_csv 0) by (by apply ready_at_once).
  assert (Hc : credentials ex_loaded "cryoet_user" "s3cret" "cryoet")
    by (apply ex_seeded_credentials; by vm_compute).
  assert (Hf : forall st, (forall j, st <> StLoad j) -> db_fault ex_world_empty_csv st = None).
  { intros [| | | | |j|] Hst; try reflexivity. by destruct (Hst j). }
  split; [exact Hr|]. split; [reflexivity|]. split; [by vm_compute|].
  pose proof (etl_empty_csv ex_world_empty_csv ex_loaded 0 _ _ _ _
                Hr eq_refl Hc eq_refl eq_refl eq_refl eq_refl Hf) as H.
  cbv zeta in H. destruct H as (Hrun & Ha & _ & Ht & _).
  split; [by rewrite Hrun|]. split; [exact Ha|exact Ht].
Defined.

Lemma visualize_unknown_annotation_witness :
  unknown_annotation 7 (st_db ex_loaded)
  /\ Visualize.main ex_world (ex_files [50; 10; 10]) (st_db ex_loaded) 7
     = (Visualize.VRet tt,
        [Visualize.FConnect; Visualize.FSelect 7;
         Visualize.FPrint Stderr "Error: Annotation with ID 7 not found."]).
Proof.
  assert (Hun : unknown_annotation 7 (st_db ex_loaded)).
  { unfold unknown_annotation. apply Forall_forall.
    apply (bool_decide_unpack _). by vm_compute. }
  split; [exact Hun|].
  exact (visualize_unknown_annotation ex_world (ex_files [50; 10; 10]) (st_db ex_loaded) 7
           eq_refl eq_refl Hun).
Defined.

Lemma visualize_missing_volume_witness :
  Visualize.np_load ex_files_missing "/app/data/volumes/TS_2.npy" = Visualize.VolMissing
  /\ Visualize.main ex_world ex_files_missing (st_db ex_loaded) 2
     = (Visualize.VRet tt,
        [Visualize.FConnect; Visualize.FSelect 2;
         Visualize.FLoad "/app/data/volumes/TS_2.npy";
         Visualize.FPrint Stderr
           "Error: Volume file not found at '/app/data/volumes/TS_2.npy'"]).
Proof.
  split; [reflexivity|].
  exact (visualize_missing_volume ex_world ex_files_missing (st_db ex_loaded) 2
           "volumes/TS_2.mrc" "/app/data/volumes/TS_2.npy" _ _ _
           eq_refl eq_refl eq_refl eq_refl eq_refl).
Defined.

Lemma visualize_out_of_bounds_witness :
  Visualize.main ex_world (ex_files [2; 10; 10]) (st_db ex_loaded) 2
  = (Visualize.VRet tt,
     [Visualize.FConnect; Visualize.FSelect 2;
      Visualize.FLoad "/app/data/volumes/TS_2.npy";
      Visualize.FPrint Stderr
        "An error occurred during visualization: Z-coordinate 3 is out of bounds for volume shape (2, 10, 10)"]).
Proof.
  apply (visualize_out_of_bounds ex_world (ex_files [2; 10; 10]) (st_db ex_loaded) 2
           "volumes/TS_2.mrc" "/app/data/volumes/TS_2.npy" _ _ (QArith_base.Qmake 3 1)
           [2; 10; 10] eq_refl eq_refl eq_refl eq_refl eq_refl).
  right. exists 2, [10; 10]. split; [reflexivity|by vm_compute].
Defined.

Lemma visualize_saves_image_witness :
  in_bounds (Visualize.py_round (QArith_base.Qmake 3 1)) [50; 10; 10]
  /\ (Visualize.main ex_world (ex_files [50; 10; 10]) (st_db ex_loaded) 2).1
     = Visualize.VRet tt
  /\ Visualize.FSaveFig "/app/output/annotation_2.png"
     ∈ (Visualize.main ex_world (ex_files [50; 10; 10]) (st_db ex_loaded) 2).2.
Proof.
  assert (Hin : in_bounds (Visualize.py_round (QArith_base.Qmake 3 1)) [50; 10; 10]).
  { exists 50, [10; 10]. split; [reflexivity|]. by vm_compute. }
  split; [exact Hin|].
  destruct (visualize_saves_image ex_world (ex_files [50; 10; 10]) (st_db ex_loaded) 2
              "volumes/TS_2.mrc" "/app/data/volumes/TS_2.npy" _ _ _ [50; 10; 10]
              eq_refl eq_refl eq_refl eq_refl eq_refl Hin eq_refl eq_refl eq_refl)
    as [-> _].
  split; [reflexivity|]. unfold visualize_events. cbn [snd].
  do 5 apply list_elem_of_further. apply list_elem_of_here.
Defined.

Lemma visualize_saves_only_in_bounds_witness :
  Visualize.FSaveFig "/app/output/annotation_1.png"
    ∈ (Visualize.main ex_world (ex_files [50; 10; 10]) (st_db ex_loaded) 1).2
  /\ exists a shape,
       a ∈ annotations (st_db ex_loaded) /\ annotation_id a = 1
       /\ in_bounds (Visualize.py_round (coord_z a)) shape.
Proof.
  assert (Hin : Visualize.FSaveFig "/app/output/annotation_1.png"
                  ∈ (Visualize.main ex_world (ex_files [50; 10; 10]) (st_db ex_loaded) 1).2).
  { vm_compute. do 5 apply list_elem_of_further. apply list_elem_of_here. }
  split; [exact Hin|].
  destruct (visualize_saves_only_in_bounds _ _ _ _ _ Hin)
    as (_ & a & t & npy & shape & Ha & _ & _ & Hid & _ & _ & Hb).
  exists a, shape. split; [exact Ha|]. split; [lia|exact Hb].
Defined.

Lemma load_batches_witness :
  let rows : list Etl.fact :=
    replicate 10001 (Some 1, CInt 1, CInt 2, CInt 3) in
  length (Etl.chunks (length rows) Etl.CHUNKSIZE rows) = 2
  /\ forall c, Etl.chunks (length rows) Etl.CHUNKSIZE rows !! 0 = Some c ->
               length c = 10000.
Proof.
  intros rows.
  assert (Hlen : length (Etl.chunks (length rows) Etl.CHUNKSIZE rows) = 2)
    by (by vm_compute).
  split; [exact Hlen|]. intros c Hc.
  pose proof (load_batches rows) as H. cbv zeta in H. destruct H as (_ & _ & H).
  apply (H 0 c Hc). rewrite Hlen. lia.
Defined.

Lemma visualize_exit_status_witness :
  (Visualize.main ex_world ex_files_missing (st_db ex_loaded) 2).1 = Visualize.VRet tt
  /\ (Visualize.main ex_world_db_down ex_files_missing (st_db ex_loaded) 2).1
     = Visualize.VExit 1.
Proof.
  split.
  - pose proof (visualize_exit_status ex_world ex_files_missing (st_db ex_loaded) 2) as H.
    cbv zeta in H. destruct H as [[H|H] Hiff]; [exact H|].
    apply Hiff in H.
    destruct H as [H|[H|(vp & x & y & z & msg & Hrow & Hp)]]; [by destruct H..|].
    vm_compute in Hrow. injection Hrow as <- _ _ _. vm_compute in Hp. discriminate Hp.
  - apply (visualize_exit_status ex_world_db_down ex_files_missing (st_db ex_loaded) 2).
    by left.
Defined.

Lemma query_exit_status_witness :
  (Query.program ex_world (Query.CliError "the following arguments are required: command")
     ex_seeded).1 = SysExit 2
  /\ (Query.program ex_world (Query.CliHelp "usage: query_tool.py [-h]") ex_seeded).1
     = SysExit 0.
Proof.
  split.
  - pose proof (query_exit_status ex_world
                  (Query.CliError "the following arguments are required: command")
                  ex_seeded) as H.
    cbv zeta in H. destruct H as (_ & _ & H). apply H. by vm_compute.
  - pose proof (query_exit_status ex_world (Query.CliHelp "usage: query_tool.py [-h]")
                  ex_seeded) as H.
    cbv zeta in H. destruct H as (_ & _ & H). apply H. by vm_compute.
Defined.

Lemma etl_string_keys_referential_witness :
  Etl.program ex_world ex_seeded = (Ret tt, ex_loaded)
  /\ referential (st_db ex_loaded)
  /\ same_rows (st_db ex_seeded) (st_db (Etl.program ex_world_load_fails ex_seeded).2).
Proof.
  split; [exact ex_run_loaded|]. split.
  - destruct (etl_string_keys_referential ex_world ex_seeded ex_loaded (Ret tt)
                ex_run_loaded) as (H & _).
    apply (H eq_refl ex_labels eq_refl). repeat constructor; by eexists.
  - destruct (etl_string_keys_referential ex_world_load_fails ex_seeded _ _
                (surjective_pairing _)) as (_ & _ & H).
    apply H. by vm_compute.
Defined.

Lemma etl_engine_url_refused_witness :
  vault_ready ex_world_bad_host 0
  /\ credentials ex_seeded "cryoet_user" "s3cret" "cryoet"
  /\ environ ex_world_bad_host !! "DB_HOST" = Some "db:5432"
  /\ (Etl.program ex_world_bad_host ex_seeded).1 = SysExit 1
  /\ st_db (Etl.program ex_world_bad_host ex_seeded).2 = st_db ex_seeded.
Proof.
  assert (Hr : vault_ready ex_world_bad_host 0) by (by apply ready_at_once).
  assert (Hc : credentials ex_seeded "cryoet_user" "s3cret" "cryoet")
    by (by apply ex_seeded_credentials).
  split; [exact Hr|]. split; [exact Hc|]. split; [reflexivity|].
  pose proof (etl_engine_url_refused ex_world_bad_host ex_seeded 0 _ _ _
                "invalid literal for int() with base 10: '5432:5432'"
                Hr eq_refl Hc eq_refl) as H.
  cbv zeta in H. destruct H as [-> _]. split; reflexivity.
Defined.

Lemma etl_csv_without_coordinates_witness :
  vault_ready ex_world_no_coords 0
  /\ credentials ex_seeded "cryoet_user" "s3cret" "cryoet"
  /\ (Etl.program ex_world_no_coords ex_seeded).1 = SysExit 1
  /\ tomograms (st_db (Etl.program ex_world_no_coords ex_seeded).2) = []
  /\ tomograms_seq (st_db ex_seeded) = 0
  /\ tomograms_seq (st_db (Etl.program ex_world_no_coords ex_seeded).2) = 2.
Proof.
  assert (Hr : vault_ready ex_world_no_coords 0) by (by apply ready_at_once).
  assert (Hc : credentials ex_seeded "cryoet_user" "s3cret" "cryoet")
    by (by apply ex_seeded_credentials).
  assert (Hkeys : Forall (fun c => is_Some (db_text c) /\ is_uint64 c = false)
                    [CStr "TS_1"; CStr "TS_2"; CStr "TS_1"])
    by (repeat constructor; by eexists).
  split; [exact Hr|]. split; [exact Hc|].
  pose proof (etl_csv_without_coordinates ex_world_no_coords ex_seeded 0 _ _ _ _ _ _
                Hr eq_refl Hc eq_refl eq_refl eq_refl eq_refl Hkeys
                (fun _ => eq_refl)) as H.
  cbv zeta in H. destruct H as (Hrun & (Ht & _) & Hseq & _).
  split; [by rewrite Hrun|]. split; [exact Ht|]. split; [reflexivity|].
  rewrite Hseq. by vm_compute.
Defined.

